(** * Movie Management System: a shallow embedding of the route handlers

    The Express handlers of the repository are embedded as functions over an
    explicit database value.  A MongoDB collection is a list of documents in
    natural (insertion) order; a handler takes the request and the database
    and returns the HTTP response together with the database it leaves
    behind.  JavaScript numbers that come out of [parseInt] are integers or
    [NaN]; ratings and averages are rationals. *)

From Stdlib Require Import List String Ascii Bool ZArith QArith Lia Lqa.
From Stdlib Require Import Permutation Sorted.
Import ListNotations.
Local Open Scope string_scope.
Local Open Scope Z_scope.

(** ** JavaScript primitives used by the handlers *)

Module Js.

(** A JavaScript number produced by [parseInt]: an integer, or [NaN]
    ([None]). *)
Definition num := option Z.

Definition isWhite (c : ascii) : bool :=
  let n := nat_of_ascii c in
  ((9 <=? n) && (n <=? 13))%nat || (n =? 32)%nat.

Fixpoint skipWhite (s : string) : string :=
  match s with
  | String c r => if isWhite c then skipWhite r else s
  | EmptyString => s
  end.

(** Value of a character as a digit, for radix 10 or 16. *)
Definition digitVal (radix : Z) (c : ascii) : option Z :=
  let n := Z.of_nat (nat_of_ascii c) in
  if (48 <=? n) && (n <=? 57) then Some (n - 48)
  else if (radix =? 16) && (97 <=? n) && (n <=? 102) then Some (n - 87)
  else if (radix =? 16) && (65 <=? n) && (n <=? 70) then Some (n - 55)
  else None.

(** The longest prefix of digits, read in the radix; [acc] is [None] until
    a first digit is seen. *)
Fixpoint parseDigits (radix : Z) (s : string) (acc : num) : num :=
  match s with
  | String c r =>
      match digitVal radix c with
      | Some d =>
          parseDigits radix r
            (Some (radix * match acc with Some a => a | None => 0 end + d))
      | None => acc
      end
  | EmptyString => acc
  end.

(** [parseInt(s)] without a radix argument: leading white space, an
    optional sign, an optional [0x]/[0X] prefix, then the longest prefix of
    digits; [NaN] when there is no digit. *)
Definition parseInt (s : string) : num :=
  let s1 := skipWhite s in
  let '(sign, s2) :=
    match s1 with
    | String "-" r => (-1, r)
    | String "+" r => (1, r)
    | _ => (1, s1)
    end in
  let '(radix, s3) :=
    match s2 with
    | String "0" (String "x" r) => (16, r)
    | String "0" (String "X" r) => (16, r)
    | _ => (10, s2)
    end in
  option_map (Z.mul sign) (parseDigits radix s3 None).

(** [Math.max(1, x)]: [NaN] is contagious. *)
Definition max1 (x : num) : num := option_map (Z.max 1) x.

(** [x || d] on numbers: [NaN] and [0] are falsy. *)
Definition orDefault (x : num) (d : Z) : num :=
  match x with
  | Some v => if v =? 0 then Some d else Some v
  | None => Some d
  end.

(** [(page - 1) * limit]. *)
Definition offset (page limit : num) : num :=
  match page, limit with
  | Some p, Some l => Some ((p - 1) * l)
  | _, _ => None
  end.

(** Ceiling of the quotient of two integers, divisor not zero. *)
Definition ceilDiv (a b : Z) : Z := - ((- a) / b).

(** [Math.ceil(total / limit)] for a count [total >= 0].  The result is
    [None] when it is not a finite number ([NaN] or an infinity: a [NaN]
    limit, or a division by zero); [JSON.stringify] writes those as
    [null]. *)
Definition ceilQuot (total : Z) (limit : num) : num :=
  match limit with
  | Some l => if l =? 0 then None else Some (ceilDiv total l)
  | None => None
  end.

End Js.

(** ** Pagination of the listing endpoints *)

(** The listing endpoints that page through a query with [skip] and
    [limit].  (The wishlist, which pages through [populate], follows with
    its router.) *)
Inductive Endpoint : Type :=
| CustomListAll        (* GET /api/customlist/all *)
| CustomListMine       (* GET /api/customlist/ *)
| NewsAll              (* GET /api/news/ *)
| NewsByCategory       (* GET /api/news/category/:category *)
| DiscussionAll        (* GET /api/discussion/ *)
| RecPersonalized      (* GET /api/recommendations/personalized *)
| RecSimilar           (* GET /api/recommendations/similar-movies/:id *)
| RecTrending          (* GET /api/recommendations/trending-movies *)
| MoviesCrudAll        (* GET /api/moviesCRUD/ *)
| MoviesUpcoming       (* GET /api/movies/upcoming *)
| MoviesSearch         (* GET /api/movies/search *)
| MoviesFilter         (* GET /api/movies/filter *)
| MoviesAdvancedFilter (* GET /api/movies/advanced-filter *)
| MoviesTopMonth       (* GET /api/movies/top-month *)
| MoviesTopGenre.      (* GET /api/movies/top-genre *)

(** A query parameter: absent, or the string given in the URL. *)
Definition QueryParam := option string.

(** [let { page = 1, limit = 10 } = req.query]: the default replaces an
    absent parameter only; [parseInt] of the default number reads its
    decimal form. *)
Definition withDefault (q : QueryParam) (d : string) : string :=
  match q with Some s => s | None => d end.

(** [parseInt(req.query.page)] on an absent parameter reads the string
    "undefined". *)
Definition parseQuery (q : QueryParam) : Js.num :=
  Js.parseInt (withDefault q "undefined").

(** [page = Math.max(1, parseInt(page)); limit = Math.max(1, parseInt(limit))] *)
Definition coerceClamped (page limit : QueryParam) : Js.num * Js.num :=
  (Js.max1 (Js.parseInt (withDefault page "1")),
   Js.max1 (Js.parseInt (withDefault limit "10"))).


(** [page = parseInt(req.query.page) || 1; limit = parseInt(req.query.limit) || 10] *)
Definition coerceOrDefault (page limit : QueryParam) : Js.num * Js.num :=
  (Js.orDefault (parseQuery page) 1, Js.orDefault (parseQuery limit) 10).

(** [parseInt(page)] and [parseInt(limit)] after the destructuring defaults. *)
Definition coercePlain (page limit : QueryParam) : Js.num * Js.num :=
  (Js.parseInt (withDefault page "1"), Js.parseInt (withDefault limit "10")).

(** Which coercion each endpoint's handler applies. *)
Definition coerce (e : Endpoint) : QueryParam -> QueryParam -> Js.num * Js.num :=
  match e with
  | CustomListAll | CustomListMine | NewsAll | NewsByCategory | DiscussionAll
  | RecPersonalized | RecSimilar | RecTrending => coerceClamped
  | MoviesCrudAll | MoviesUpcoming => coerceOrDefault
  | MoviesSearch | MoviesFilter | MoviesAdvancedFilter
  | MoviesTopMonth | MoviesTopGenre => coercePlain
  end.

(** [total === 0 ? 1 : Math.ceil(total / limit)] *)
Definition totalPagesGuarded (total : Z) (limit : Js.num) : Js.num :=
  if total =? 0 then Some 1 else Js.ceilQuot total limit.

(** [Math.ceil(total / limit)] *)
Definition totalPagesPlain (total : Z) (limit : Js.num) : Js.num :=
  Js.ceilQuot total limit.

(** The [totalPages] field each endpoint computes from the count of the
    matching documents and from the coerced limit. *)
Definition totalPages (e : Endpoint) : Z -> Js.num -> Js.num :=
  match e with
  | CustomListAll | CustomListMine | NewsAll | NewsByCategory | DiscussionAll
  | RecPersonalized | RecSimilar | RecTrending => totalPagesGuarded
  | MoviesCrudAll | MoviesUpcoming | MoviesSearch | MoviesFilter
  | MoviesAdvancedFilter | MoviesTopMonth | MoviesTopGenre => totalPagesPlain
  end.

(** [query.skip(s).limit(l)] on the documents a query matches, in the order
    the query yields them.  The server refuses a negative or [NaN] skip and a
    [NaN] limit ([None]); a limit of [0] means no limit, and a negative limit
    is read as its absolute value. *)
Definition window {A : Type} (docs : list A) (skip limit : Js.num)
  : option (list A) :=
  match skip, limit with
  | Some s, Some l =>
      if s <? 0 then None
      else
        let rest := skipn (Z.to_nat s) docs in
        Some (if l =? 0 then rest else firstn (Z.to_nat (Z.abs l)) rest)
  | _, _ => None
  end.

(** ** Object ids *)

(** A stored [ObjectId], in the form [toString()] prints: 24 lower-case
    hexadecimal digits. *)
Definition ObjectId := string.

Module Oid.

Definition isHex (c : ascii) : bool :=
  let n := nat_of_ascii c in
  ((48 <=? n) && (n <=? 57) || (97 <=? n) && (n <=? 102)
   || (65 <=? n) && (n <=? 70))%nat.

Definition toLower (c : ascii) : ascii :=
  let n := nat_of_ascii c in
  if ((65 <=? n) && (n <=? 90))%nat then ascii_of_nat (n + 32) else c.

Fixpoint allHex (s : string) : bool :=
  match s with
  | String c r => isHex c && allHex r
  | EmptyString => true
  end.

Fixpoint lower (s : string) : string :=
  match s with
  | String c r => String (toLower c) (lower r)
  | EmptyString => EmptyString
  end.

(** [mongoose.Types.ObjectId.isValid(s)] on a string of the documented
    format: 24 hexadecimal digits. *)
Definition isValid (s : string) : bool :=
  (String.length s =? 24)%nat && allHex s.

(** The cast Mongoose applies to a string where the schema wants an
    [ObjectId]; [None] is a [CastError]. *)
Definition cast (s : string) : option ObjectId :=
  if isValid s then Some (lower s) else None.

(** Cast of a list of ids: fails when one of them does. *)
Fixpoint castAll (l : list string) : option (list ObjectId) :=
  match l with
  | [] => Some []
  | s :: r =>
      match cast s, castAll r with
      | Some i, Some r' => Some (i :: r')
      | _, _ => None
      end
  end.

End Oid.

(** [Array.prototype.includes] on strings. *)
Definition includes (s : string) (l : list string) : bool :=
  existsb (String.eqb s) l.

(** ** Documents *)

(** Time stamps are milliseconds since the epoch. *)
Definition Date := Z.

Record Film : Type := {
  f_movie : ObjectId;
  f_role : string;
  f_year : Z
}.

(** A [Person] document, with the paths the handlers read or write. *)
Record Person : Type := {
  p_id : ObjectId;
  p_name : string;
  p_type : string;
  p_filmography : list Film
}.

Record BoxOffice : Type := {
  openingWeekend : option Q;
  totalGross : option Q;
  internationalRevenue : option Q
}.

Record Movie : Type := {
  m_id : ObjectId;
  m_title : string;
  m_genre : list string;
  m_actors : list ObjectId;
  m_directors : list ObjectId;
  m_crew : list ObjectId;
  m_releaseDate : option Date;
  m_runtime : option Q;
  m_synopsis : option string;
  m_posterUrl : option string;
  m_averageRating : Q;
  m_trivia : list string;
  m_goofs : list string;
  m_soundtrack : list string;
  m_ageRating : option string;
  m_boxOffice : option BoxOffice;
  m_awards : list string;
  m_createdAt : Date;
  m_countryOfOrigin : option string;
  m_language : option string
}.

(** A [User] document, with the paths the handlers read or write. *)
Record User : Type := {
  u_id : ObjectId;
  u_username : string;
  u_email : string;
  u_favoriteGenres : list string;
  u_favoriteActors : list ObjectId;
  u_role : string;
  u_wishlist : list ObjectId;
  u_remindersForNewReleases : bool;
  u_sendNotifications : bool
}.

Record Review : Type := {
  r_id : ObjectId;
  r_user : ObjectId;
  r_movie : ObjectId;
  r_rating : Q;
  r_reviewText : string;
  r_createdAt : Date;
  r_updatedAt : Date
}.

Record CustomList : Type := {
  c_id : ObjectId;
  c_user : ObjectId;
  c_name : string;
  c_description : string;
  c_movies : list ObjectId;
  c_createdAt : Date
}.

Record News : Type := {
  n_id : ObjectId;
  n_title : string;
  n_description : string;
  n_content : string;
  n_category : string;
  n_publishedDate : Date;
  n_relatedMovies : list ObjectId;
  n_relatedActors : list ObjectId
}.

(** The database: one collection per model, each in natural order. *)
Record Db : Type := {
  movies : list Movie;
  persons : list Person;
  users : list User;
  reviews : list Review;
  customLists : list CustomList;
  news : list News
}.

Definition with_movies (ms : list Movie) (db : Db) : Db :=
  {| movies := ms; persons := persons db; users := users db;
     reviews := reviews db; customLists := customLists db; news := news db |}.

Definition with_persons (ps : list Person) (db : Db) : Db :=
  {| movies := movies db; persons := ps; users := users db;
     reviews := reviews db; customLists := customLists db; news := news db |}.

Definition with_users (us : list User) (db : Db) : Db :=
  {| movies := movies db; persons := persons db; users := us;
     reviews := reviews db; customLists := customLists db; news := news db |}.

Definition with_reviews (rs : list Review) (db : Db) : Db :=
  {| movies := movies db; persons := persons db; users := users db;
     reviews := rs; customLists := customLists db; news := news db |}.

Definition with_customLists (cs : list CustomList) (db : Db) : Db :=
  {| movies := movies db; persons := persons db; users := users db;
     reviews := reviews db; customLists := cs; news := news db |}.

Definition with_news (ns : list News) (db : Db) : Db :=
  {| movies := movies db; persons := persons db; users := users db;
     reviews := reviews db; customLists := customLists db; news := ns |}.

(** ** Queries *)

Section Collection.

Context {A : Type} (id_of : A -> ObjectId).

(** [Model.findById(id)] *)
Definition findById (id : ObjectId) (docs : list A) : option A :=
  find (fun d => String.eqb (id_of d) id) docs.

(** [Model.find({ _id: { $in: ids } })] *)
Definition findIn (ids : list ObjectId) (docs : list A) : list A :=
  filter (fun d => includes (id_of d) ids) docs.

(** [Model.findByIdAndUpdate(id, update)]: the first document with the id
    is updated; nothing happens when there is none. *)
Fixpoint updateById (id : ObjectId) (f : A -> A) (docs : list A) : list A :=
  match docs with
  | [] => []
  | x :: r =>
      if String.eqb (id_of x) id then f x :: r
      else x :: updateById id f r
  end.

(** [doc.save()] on a fetched document: the stored document with its id
    is replaced. *)
Definition store (d : A) (docs : list A) : list A :=
  updateById (id_of d) (fun _ => d) docs.

End Collection.

(** ** Responses *)

(** What a [catch] block receives. *)
Inductive Exn : Type :=
| CastError
| ValidationError (path : string)
| TypeError
| DuplicateKey
| QueryError.

(** One block of a paginated answer. *)
Record Block (A : Type) : Type := {
  b_items : list A;
  b_page : Js.num;
  b_totalPages : Js.num;
  b_totalItems : Z
}.
Arguments b_items {A} _.
Arguments b_page {A} _.
Arguments b_totalPages {A} _.
Arguments b_totalItems {A} _.

(** The JSON body of an answer.  [Message] is a body with one text, under
    the key [message] or [error]; [Failure] is such a text together with the
    error that was caught. *)
Inductive Body : Type :=
| Message (message : string)
| Failure (message : string) (error : Exn)
| ReviewBody (message : string) (review : Review)
| ReviewList (l : list (Review * option string))
| Average (averageRating : Q)
| MovieBody (message : string) (movie : Movie)
| MoviePage (b : Block Movie)
| TrendingBody (trending topRated : Block Movie)
| ListsPage (b : Block (CustomList * list Movie))
| WishlistBody (message : string) (wishlist : list ObjectId)
| ListBody (message : string) (customList : CustomList)
| NewsBody (message : string) (article : News).

Record Response : Type := {
  status : Z;
  body : Body
}.

Definition reply (code : Z) (b : Body) : Response :=
  {| status := code; body := b |}.

(** ** Values of a JSON body

    A field of a request body is absent ([None]) or has the type the schema
    gives the path; the [typeof] and [Array.isArray] guards of the handlers
    hold by typing. *)

(** Truthiness of a string field: absent and [""] are falsy. *)
Definition truthyStr (s : option string) : bool :=
  match s with Some v => negb (String.eqb v "") | None => false end.

(** Truthiness of a number field: absent and [0] are falsy. *)
Definition truthyNum (q : option Q) : bool :=
  match q with Some v => negb (Qeq_bool v 0) | None => false end.

(** Truthiness of an array field: every array is truthy. *)
Definition truthyArr {A : Type} (l : option (list A)) : bool :=
  match l with Some _ => true | None => false end.

(** [x < y] on numbers. *)
Definition Qltb (x y : Q) : bool := negb (Qle_bool y x).

(** ** Sorting, as [Query.sort] orders a result *)

Fixpoint insertBy {A : Type} (leb : A -> A -> bool) (x : A) (l : list A)
  : list A :=
  match l with
  | [] => [x]
  | y :: r => if leb x y then x :: l else y :: insertBy leb x r
  end.

Definition sortBy {A : Type} (leb : A -> A -> bool) (l : list A) : list A :=
  fold_right (insertBy leb) [] l.

(** ** Reviews: models/ReviewAndRating.js and routes/reviews.js *)

Record ReviewRequest : Type := {
  rq_movie : option string;
  rq_rating : option Q;
  rq_reviewText : option string
}.

(** [ReviewAndRating.find({ movie })] *)
Definition reviewsOf (movie : ObjectId) (db : Db) : list Review :=
  filter (fun r => String.eqb (r_movie r) movie) (reviews db).

(** [reviews.reduce((sum, review) => sum + review.rating, 0) / reviews.length];
    [None] is the [NaN] of an empty list. *)
Definition averageOf (rs : list Review) : option Q :=
  match rs with
  | [] => None
  | _ =>
      Some (fold_left (fun sum review => sum + r_rating review) rs 0
            / inject_Z (Z.of_nat (List.length rs)))%Q
  end.

Definition set_averageRating (q : Q) (m : Movie) : Movie :=
  {| m_id := m_id m; m_title := m_title m; m_genre := m_genre m;
     m_actors := m_actors m; m_directors := m_directors m;
     m_crew := m_crew m; m_releaseDate := m_releaseDate m;
     m_runtime := m_runtime m; m_synopsis := m_synopsis m;
     m_posterUrl := m_posterUrl m; m_averageRating := q;
     m_trivia := m_trivia m; m_goofs := m_goofs m;
     m_soundtrack := m_soundtrack m; m_ageRating := m_ageRating m;
     m_boxOffice := m_boxOffice m; m_awards := m_awards m;
     m_createdAt := m_createdAt m;
     m_countryOfOrigin := m_countryOfOrigin m; m_language := m_language m |}.

(** The validators of the review schema on [save]: [rating] is required
    with [min: 1, max: 5], [reviewText] is a required string (the empty
    string does not satisfy [required]). *)
Definition validateReview (rating : option Q) (reviewText : option string)
  : option Exn :=
  let badRating :=
    match rating with
    | Some q => Qltb q 1 || Qltb 5 q
    | None => true
    end in
  if badRating then Some (ValidationError "rating")
  else if negb (truthyStr reviewText) then Some (ValidationError "reviewText")
  else None.

(** [reviewAndRatingSchema.post('save', ...)]: recompute the average of the
    movie of the saved review and save the movie; the movie schema has
    [averageRating: { min: 0, max: 5 }].  A missing movie makes the
    assignment to [movie.averageRating] throw. *)
Definition postSave (this : Review) (db : Db) : option Exn * Db :=
  match findById m_id (r_movie this) (movies db) with
  | None => (Some TypeError, db)
  | Some movie =>
      match averageOf (reviewsOf (r_movie this) db) with
      | None => (Some (ValidationError "averageRating"), db)
      | Some averageRating =>
          if Qltb averageRating 0 || Qltb 5 averageRating
          then (Some (ValidationError "averageRating"), db)
          else
            (None,
             with_movies
               (updateById m_id (m_id movie)
                  (set_averageRating averageRating) (movies db)) db)
      end
  end.

(** [updateMovieRating(movieId)]; a [NaN] average does not cast to the
    [Number] of the schema. *)
Definition updateMovieRating (movieId : ObjectId) (db : Db) : option Exn * Db :=
  match averageOf (reviewsOf movieId db) with
  | None => (Some CastError, db)
  | Some averageRating =>
      (None,
       with_movies
         (updateById m_id movieId (set_averageRating averageRating)
            (movies db)) db)
  end.

(** [newReview.save()]: validation, insertion (the [_id] index refuses a
    duplicate), then the [post('save')] hook. *)
Definition saveNewReview (user movie _id : ObjectId) (rating : option Q)
    (reviewText : option string) (now : Date) (db : Db)
  : (Exn + Review) * Db :=
  match validateReview rating reviewText, rating, reviewText with
  | None, Some q, Some text =>
      let newReview :=
        {| r_id := _id; r_user := user; r_movie := movie; r_rating := q;
           r_reviewText := text; r_createdAt := now; r_updatedAt := now |} in
      match findById r_id _id (reviews db) with
      | Some _ => (inl DuplicateKey, db)
      | None =>
          let db1 := with_reviews (reviews db ++ [newReview]) db in
          match postSave newReview db1 with
          | (Some e, db2) => (inl e, db2)
          | (None, db2) => (inr newReview, db2)
          end
      end
  | Some e, _, _ => (inl e, db)
  | None, _, _ => (inl (ValidationError "rating"), db)
  end.

(** [review.save()] on a fetched review: validation, update of the stored
    document, then the [post('save')] hook. *)
Definition saveReview (review : Review) (db : Db) : option Exn * Db :=
  match validateReview (Some (r_rating review)) (Some (r_reviewText review)) with
  | Some e => (Some e, db)
  | None => postSave review (with_reviews (store r_id review (reviews db)) db)
  end.

(** [router.post('/', authenticateUser, ...)]; [caller] is [req.user.userId]
    of the verified token, [_id] the id the driver gives the new document
    and [now] the value of [Date.now]. *)
Definition post_review (caller : ObjectId) (rq : ReviewRequest)
    (_id : ObjectId) (now : Date) (db : Db) : Response * Db :=
  if negb (truthyStr (rq_movie rq)) || negb (truthyNum (rq_rating rq)) then
    (reply 400 (Message
       "MovieID, rating are mandatory fields while reviewText is optional"), db)
  else
  match rq_movie rq, rq_rating rq with
  | Some movie, Some rating =>
      if Qltb rating 1 || Qltb 5 rating then
        (reply 400 (Message "Rating must be between 1 and 5"), db)
      else
      match Oid.cast movie with
      | None => (reply 400 (Message "Invalid Movie ID format"), db)
      | Some movieId =>
          match findById m_id movieId (movies db) with
          | None => (reply 404 (Message "Movie not found"), db)
          | Some foundMovie =>
              match findById u_id caller (users db) with
              | None => (reply 404 (Message "User not found"), db)
              | Some foundUser =>
                  match find (fun r => String.eqb (r_user r) caller
                                       && String.eqb (r_movie r) movieId)
                             (reviews db) with
                  | Some existingReview =>
                      (reply 400
                         (Message "You have already reviewed this movie"), db)
                  | None =>
                      match saveNewReview caller movieId _id (Some rating)
                              (rq_reviewText rq) now db with
                      | (inl err, db1) =>
                          (reply 500 (Failure "Error adding review" err), db1)
                      | (inr newReview, db1) =>
                          match updateMovieRating movieId db1 with
                          | (Some err, db2) =>
                              (reply 500 (Failure "Error adding review" err),
                               db2)
                          | (None, db2) =>
                              (reply 201
                                 (ReviewBody
                                    "Review and rating added successfully"
                                    newReview), db2)
                          end
                      end
                  end
              end
          end
      end
  | _, _ =>
      (reply 400 (Message
         "MovieID, rating are mandatory fields while reviewText is optional"), db)
  end.

Definition set_review (rating : Q) (reviewText : string) (updatedAt : Date)
    (r : Review) : Review :=
  {| r_id := r_id r; r_user := r_user r; r_movie := r_movie r;
     r_rating := rating; r_reviewText := reviewText;
     r_createdAt := r_createdAt r; r_updatedAt := updatedAt |}.

(** [router.put('/:reviewId', authenticateUser, ...)] *)
Definition put_review (caller : ObjectId) (reviewId : string)
    (rq : ReviewRequest) (now : Date) (db : Db) : Response * Db :=
  if negb (truthyNum (rq_rating rq)) && negb (truthyStr (rq_reviewText rq)) then
    (reply 400 (Message
       "Either rating or reviewText must be provided for update"), db)
  else if truthyNum (rq_rating rq)
          && match rq_rating rq with
             | Some rating => Qltb rating 1 || Qltb 5 rating
             | None => false
             end then
    (reply 400 (Message "Rating must be between 1 and 5"), db)
  else
  match Oid.cast reviewId with
  | None => (reply 500 (Failure "Error updating review" CastError), db)
  | Some id =>
      match findById r_id id (reviews db) with
      | None => (reply 404 (Message "Review not found"), db)
      | Some review =>
          if negb (String.eqb (r_user review) caller) then
            (reply 403
               (Message "You are not authorized to update this review"), db)
          else
            let rating :=
              match rq_rating rq with
              | Some q => if truthyNum (rq_rating rq) then q else r_rating review
              | None => r_rating review
              end in
            let reviewText :=
              match rq_reviewText rq with
              | Some s =>
                  if truthyStr (rq_reviewText rq) then s
                  else r_reviewText review
              | None => r_reviewText review
              end in
            let review' := set_review rating reviewText now review in
            match saveReview review' db with
            | (Some err, db1) =>
                (reply 500 (Failure "Error updating review" err), db1)
            | (None, db1) =>
                match updateMovieRating (r_movie review') db1 with
                | (Some err, db2) =>
                    (reply 500 (Failure "Error updating review" err), db2)
                | (None, db2) =>
                    (reply 200
                       (ReviewBody "Review updated successfully" review'), db2)
                end
            end
      end
  end.

(** [.populate('user', 'username')]: the user name of the author, when the
    user document still exists. *)
Definition populateUser (db : Db) (r : Review) : Review * option string :=
  (r, option_map u_username (findById u_id (r_user r) (users db))).

(** [router.get('/:movieId', ...)] *)
Definition get_reviews (movieId : string) (db : Db) : Response :=
  match Oid.cast movieId with
  | None => reply 500 (Failure "Error fetching reviews" CastError)
  | Some movie =>
      let found :=
        sortBy (fun a b => r_createdAt b <=? r_createdAt a)
          (reviewsOf movie db) in
      if (List.length found =? 0)%nat then
        reply 404 (Message "No reviews found for this movie")
      else reply 200 (ReviewList (map (populateUser db) found))
  end.

(** [router.get('/average/:movieId', ...)] *)
Definition get_average (movieId : string) (db : Db) : Response :=
  match Oid.cast movieId with
  | None => reply 500 (Failure "Error calculating average rating" CastError)
  | Some movie =>
      let found := reviewsOf movie db in
      if (List.length found =? 0)%nat then
        reply 404 (Message "No reviews found for this movie")
      else
        match averageOf found with
        | Some averageRating => reply 200 (Average averageRating)
        | None => reply 404 (Message "No reviews found for this movie")
        end
  end.

(** ** The skeleton the listing handlers share

    [matching] is what the endpoint's query matches, in the order its sort
    gives; the handler fetches the window at [(page - 1) * limit], counts
    the matching documents and computes [totalPages].  [None]: the query
    throws and the handler answers 500. *)
Definition listing {A : Type} (e : Endpoint) (page limit : QueryParam)
    (matching : list A) : option (Block A) :=
  let '(p, l) := coerce e page limit in
  match window matching (Js.offset p l) l with
  | None => None
  | Some items =>
      let total := Z.of_nat (List.length matching) in
      Some {| b_items := items; b_page := p;
              b_totalPages := totalPages e total l; b_totalItems := total |}
  end.


(** [.populate(path)] of a list of references: the referenced documents
    that exist, in the order of the references. *)
Definition populate {A : Type} (id_of : A -> ObjectId) (docs : list A)
    (ids : list ObjectId) : list A :=
  flat_map (fun i => match findById id_of i docs with
                     | Some d => [d]
                     | None => []
                     end) ids.

(** ** Movies: routes/movies.js *)




(** ** Recommendations: routes/recommendation.js *)

(** [.sort({ averageRating: -1 })] *)
Definition ratingDesc (a b : Movie) : bool :=
  Qle_bool (m_averageRating b) (m_averageRating a).

(** [router.get('/trending-movies', ...)] *)
Definition get_trending (page limit : QueryParam) (db : Db) : Response :=
  let '(page, limit) := coerceClamped page limit in
  match window (sortBy ratingDesc (movies db)) (Js.offset page limit) limit with
  | None => reply 500 (Failure "Error fetching movies" QueryError)
  | Some trendingMovies =>
      let totalTrendingMovies := Z.of_nat (List.length (movies db)) in
      let totalTrendingPages :=
        if totalTrendingMovies =? 0 then Some 1
        else Js.ceilQuot totalTrendingMovies limit in
      match window (sortBy ratingDesc (movies db)) (Js.offset page limit) limit
      with
      | None => reply 500 (Failure "Error fetching movies" QueryError)
      | Some topRatedMovies =>
          let totalTopRatedMovies := Z.of_nat (List.length (movies db)) in
          let totalTopRatedPages :=
            if totalTopRatedMovies =? 0 then Some 1
            else Js.ceilQuot totalTopRatedMovies limit in
          reply 200
            (TrendingBody
               {| b_items := trendingMovies; b_page := page;
                  b_totalPages := totalTrendingPages;
                  b_totalItems := totalTrendingMovies |}
               {| b_items := topRatedMovies; b_page := page;
                  b_totalPages := totalTopRatedPages;
                  b_totalItems := totalTopRatedMovies |})
      end
  end.

(** ** Custom lists: routes/customlist.js *)


Definition set_movies (ms : list ObjectId) (c : CustomList) : CustomList :=
  {| c_id := c_id c; c_user := c_user c; c_name := c_name c;
     c_description := c_description c; c_movies := ms;
     c_createdAt := c_createdAt c |}.

(** [router.post('/:listId/add-movie', authenticateUser, ...)] *)
Definition post_list_add_movie (caller : ObjectId) (listId : string)
    (movieId : option string) (db : Db) : Response * Db :=
  if negb (truthyStr movieId) then
    (reply 400 (Message "Movie ID is required"), db)
  else
  let fail := (reply 500 (Failure "Failed to add movie to custom list" CastError), db) in
  match movieId with
  | None => (reply 400 (Message "Movie ID is required"), db)
  | Some movieId =>
      match Oid.cast movieId with
      | None => fail
      | Some movie =>
          match findById m_id movie (movies db) with
          | None => (reply 404 (Message "Movie not found in the database"), db)
          | Some movieExists =>
              match Oid.cast listId with
              | None => fail
              | Some lid =>
                  match findById c_id lid (customLists db) with
                  | None => (reply 404 (Message "Custom list not found"), db)
                  | Some customList =>
                      if negb (String.eqb (c_user customList) caller) then
                        (reply 403 (Message
                           "You are not authorized to add movie to this custom list"),
                         db)
                      else if includes movieId (c_movies customList) then
                        (reply 400 (Message "Movie already in the list"), db)
                      else
                        let customList' :=
                          set_movies (c_movies customList ++ [movie]) customList in
                        (reply 200
                           (ListBody "Movie added to custom list successfully"
                              customList'),
                         with_customLists
                           (store c_id customList' (customLists db)) db)
                  end
              end
          end
      end
  end.

(** ** Wishlist: routes/wishlist.js *)

Definition set_wishlist (w : list ObjectId) (u : User) : User :=
  {| u_id := u_id u; u_username := u_username u; u_email := u_email u;
     u_favoriteGenres := u_favoriteGenres u;
     u_favoriteActors := u_favoriteActors u; u_role := u_role u;
     u_wishlist := w;
     u_remindersForNewReleases := u_remindersForNewReleases u;
     u_sendNotifications := u_sendNotifications u |}.

(** [router.post('/add', authenticateUser, ...)] *)
Definition post_wishlist_add (caller : ObjectId) (movieId : option string)
    (db : Db) : Response * Db :=
  if negb (truthyStr movieId) then
    (reply 400 (Message "Movie ID is required"), db)
  else
  match movieId with
  | None => (reply 400 (Message "Movie ID is required"), db)
  | Some movieId =>
      match findById u_id caller (users db) with
      | None => (reply 404 (Message "User not found"), db)
      | Some user =>
          if includes movieId (u_wishlist user) then
            (reply 400 (Message "Movie already in wishlist"), db)
          else
            match Oid.cast movieId with
            | None =>
                (reply 500
                   (Failure "Failed to add movie to wishlist" CastError), db)
            | Some movie =>
                let user' := set_wishlist (u_wishlist user ++ [movie]) user in
                (reply 200
                   (WishlistBody "Movie added to wishlist successfully"
                      (u_wishlist user')),
                 with_users (store u_id user' (users db)) db)
            end
      end
  end.

Section WishlistListing.

(** [User.findById(id).populate({ path: 'wishlist', options: { skip,
    limit } })] replaces the wishlist of the fetched user by documents of
    the Movie collection; what Mongoose puts there for given references,
    skip and limit is a parameter ([None]: the query throws). *)
Variable populateWishlist :
  list ObjectId -> Js.num -> Js.num -> Db -> option (list Movie).


End WishlistListing.

(** ** News: routes/newsarticle.js *)

Record NewsRequest : Type := {
  nq_title : option string;
  nq_description : option string;
  nq_content : option string;
  nq_category : option string;
  nq_relatedMovies : option (list string);
  nq_relatedActors : option (list string)
}.

Definition validCategories : list string :=
  ["Movies"; "Actors"; "Projects"; "Industry"; "Drama"].

(** Cast of ids that already passed [ObjectId.isValid]. *)
Definition castValid (ids : list string) : list ObjectId := map Oid.lower ids.

(** The ids of the request that are not among the ids of the documents
    found:
    [ids.filter(id => !existingIds.includes(id.toString()))]. *)
Definition missingFrom (existingIds : list ObjectId) (ids : list string)
  : list string :=
  filter (fun id => negb (includes id existingIds)) ids.

(** The related movie ids of an add request that the Movie collection does
    not have. *)
Definition invalidMovieIdsOf (relatedMovies : list string) (db : Db)
  : list string :=
  let existingMovies := findIn m_id (castValid relatedMovies) (movies db) in
  missingFrom (map m_id existingMovies) relatedMovies.

(** [checkObjectIdsExist(ids)]: the ids the Person collection does not
    have. *)
Definition checkObjectIdsExist (ids : list string) (db : Db) : list string :=
  let existingItems := findIn p_id (castValid ids) (persons db) in
  missingFrom (map p_id existingItems) ids.

Definition join (l : list string) : string := String.concat ", " l.

Definition orEmpty (l : option (list string)) : list string :=
  match l with Some v => v | None => [] end.

(** [router.post('/add-news', authenticateUser, ...)]; [role] is
    [req.user.role]. *)
Definition post_add_news (role : string) (rq : NewsRequest) (_id : ObjectId)
    (now : Date) (db : Db) : Response * Db :=
  if negb (String.eqb role "admin") then
    (reply 403 (Message "Access denied. You are not an admin."), db)
  else if negb (truthyStr (nq_title rq)) then
    (reply 400 (Message "Title is required and must be a string."), db)
  else if negb (truthyStr (nq_description rq)) then
    (reply 400 (Message "Description is required and must be a string."), db)
  else if negb (truthyStr (nq_content rq)) then
    (reply 400 (Message "Content is required and must be a string."), db)
  else if negb (truthyStr (nq_category rq))
          || negb (includes (match nq_category rq with Some c => c | None => "" end)
                     validCategories) then
    (reply 400 (Message
       "Category is required and must be one of the following: Movies, Actors, Projects, Industry."),
     db)
  else if negb (forallb Oid.isValid (orEmpty (nq_relatedMovies rq))) then
    (reply 400 (Message "Each related movie must be a valid ObjectId."), db)
  else
  let invalidMovieIds := invalidMovieIdsOf (orEmpty (nq_relatedMovies rq)) db in
  if (0 <? List.length invalidMovieIds)%nat then
    (reply 400 (Message
       ("The following related movie IDs do not exist: " ++ join invalidMovieIds)),
     db)
  else if negb (forallb Oid.isValid (orEmpty (nq_relatedActors rq))) then
    (reply 400 (Message "Each related actor must be a valid ObjectId."), db)
  else
  let invalidActorIds := checkObjectIdsExist (orEmpty (nq_relatedActors rq)) db in
  if (0 <? List.length invalidActorIds)%nat then
    (reply 400 (Message
       ("The following related actor IDs do not exist: " ++ join invalidActorIds)),
     db)
  else
  match nq_title rq, nq_description rq, nq_content rq, nq_category rq with
  | Some title, Some description, Some content, Some category =>
      let newNews :=
        {| n_id := _id; n_title := title; n_description := description;
           n_content := content; n_category := category;
           n_publishedDate := now;
           n_relatedMovies := castValid (orEmpty (nq_relatedMovies rq));
           n_relatedActors := castValid (orEmpty (nq_relatedActors rq)) |} in
      match findById n_id _id (news db) with
      | Some _ => (reply 400 (Failure "Error creating news article" DuplicateKey), db)
      | None =>
          (reply 201 (NewsBody "" newNews),
           with_news (news db ++ [newNews]) db)
      end
  | _, _, _, _ =>
      (reply 400 (Failure "Error creating news article" (ValidationError "title")), db)
  end.

(** [router.put('/update-news/:id', authenticateUser, ...)].  The
    conversion [new mongoose.Types.ObjectId(id)] stands before any [try]:
    when it throws, the handler sends no response ([None]). *)
Definition put_update_news (role : string) (id : string) (rq : NewsRequest)
    (db : Db) : option Response * Db :=
  if negb (String.eqb role "admin") then
    (Some (reply 403 (Message "Access denied. You are not an admin.")), db)
  else
  match Oid.cast id with
  | None => (None, db)
  | Some newsId =>
  match findById n_id newsId (news db) with
  | None => (Some (reply 404 (Message "News article not found.")), db)
  | Some newsArticle =>
  if truthyStr (nq_category rq)
     && negb (includes (match nq_category rq with Some c => c | None => "" end)
                validCategories) then
    (Some (reply 400 (Message
       "Category must be one of: Movies, Actors, Projects, Industry, Drama")), db)
  else if negb (forallb Oid.isValid (orEmpty (nq_relatedMovies rq))) then
    (Some (reply 400 (Message "Each related movie must be a valid ObjectId.")), db)
  else
  let invalidMovieIds := checkObjectIdsExist (orEmpty (nq_relatedMovies rq)) db in
  if (0 <? List.length invalidMovieIds)%nat then
    (Some (reply 400 (Message
       ("The following related movie IDs do not exist: " ++ join invalidMovieIds))),
     db)
  else if negb (forallb Oid.isValid (orEmpty (nq_relatedActors rq))) then
    (Some (reply 400 (Message "Each related actor must be a valid ObjectId.")), db)
  else if negb (truthyStr (nq_title rq)) && negb (truthyStr (nq_description rq))
          && negb (truthyStr (nq_content rq)) && negb (truthyStr (nq_category rq))
          && negb (truthyArr (nq_relatedMovies rq))
          && negb (truthyArr (nq_relatedActors rq)) then
    (Some (reply 400 (NewsBody "No fields provided to update. Nothing was updated."
                        newsArticle)), db)
  else
  let invalidActorIds := checkObjectIdsExist (orEmpty (nq_relatedActors rq)) db in
  if (0 <? List.length invalidActorIds)%nat then
    (Some (reply 400 (Message
       ("The following related actor IDs do not exist: " ++ join invalidActorIds))),
     db)
  else
  let pick (new : option string) (old : string) :=
    match new with
    | Some v => if truthyStr new then v else old
    | None => old
    end in
  let pickIds (new : option (list string)) (old : list ObjectId) :=
    match new with Some v => castValid v | None => old end in
  let newsArticle' :=
    {| n_id := n_id newsArticle;
       n_title := pick (nq_title rq) (n_title newsArticle);
       n_description := pick (nq_description rq) (n_description newsArticle);
       n_content := pick (nq_content rq) (n_content newsArticle);
       n_category := pick (nq_category rq) (n_category newsArticle);
       n_publishedDate := n_publishedDate newsArticle;
       n_relatedMovies := pickIds (nq_relatedMovies rq) (n_relatedMovies newsArticle);
       n_relatedActors := pickIds (nq_relatedActors rq) (n_relatedActors newsArticle) |} in
  (Some (reply 200 (NewsBody "News article updated successfully" newsArticle')),
   with_news (store n_id newsArticle' (news db)) db)
  end
  end.

(** ** Movie administration: routes/moviesCRUD.js *)

Record MovieRequest : Type := {
  mq_title : option string;
  mq_genre : option (list string);
  mq_directors : option (list string);
  mq_actors : option (list string);
  mq_releaseDate : option Date;
  mq_runtime : option Q;
  mq_synopsis : option string;
  mq_posterUrl : option string;
  mq_averageRating : option Q;
  mq_trivia : option (list string);
  mq_goofs : option (list string);
  mq_soundtrack : option (list string);
  mq_ageRating : option string;
  mq_boxOffice : option BoxOffice;
  mq_awards : option (list string);
  mq_countryOfOrigin : option string;
  mq_language : option string
}.

(** A value of an update body for a list path: one element or an array. *)
Inductive OneOrMany : Type :=
| One (s : string)
| Many (l : list string).

Definition truthyOM (x : option OneOrMany) : bool :=
  match x with
  | Some (One s) => negb (String.eqb s "")
  | Some (Many _) => true
  | None => false
  end.

(** [Array.isArray(x) ? x : [x]] *)
Definition asArray (x : OneOrMany) : list string :=
  match x with One s => [s] | Many l => l end.

(** [updateFields.key || []], wrapped into an array. *)
Definition arrayOrEmpty (x : option OneOrMany) : list string :=
  match x with
  | Some v => if truthyOM x then asArray v else []
  | None => []
  end.

Record MovieUpdate : Type := {
  mu_title : option string;
  mu_genre : option OneOrMany;
  mu_directors : option OneOrMany;
  mu_actors : option OneOrMany;
  mu_crew : option OneOrMany;
  mu_releaseDate : option Date;
  mu_runtime : option Q;
  mu_synopsis : option string;
  mu_posterUrl : option string;
  mu_averageRating : option Q;
  mu_trivia : option OneOrMany;
  mu_goofs : option OneOrMany;
  mu_soundtrack : option OneOrMany;
  mu_ageRating : option string;
  mu_boxOffice : option BoxOffice;
  mu_awards : option OneOrMany;
  mu_countryOfOrigin : option string;
  mu_language : option string;
  (** keys of the body that are no paths of the schema *)
  mu_unknown : list string
}.

Definition isSome {A : Type} (x : option A) : bool :=
  match x with Some _ => true | None => false end.

(** [Object.keys(updateFields).length === 0] *)
Definition noKeys (u : MovieUpdate) : bool :=
  negb (isSome (mu_title u) || isSome (mu_genre u) || isSome (mu_directors u)
        || isSome (mu_actors u) || isSome (mu_crew u)
        || isSome (mu_releaseDate u) || isSome (mu_runtime u)
        || isSome (mu_synopsis u) || isSome (mu_posterUrl u)
        || isSome (mu_averageRating u) || isSome (mu_trivia u)
        || isSome (mu_goofs u) || isSome (mu_soundtrack u)
        || isSome (mu_ageRating u) || isSome (mu_boxOffice u)
        || isSome (mu_awards u) || isSome (mu_countryOfOrigin u)
        || isSome (mu_language u))
  && (List.length (mu_unknown u) =? 0)%nat.

Definition ageRatings : list string :=
  ["G"; "PG"; "PG-13"; "R"; "NC-17"; "Unrated"].

Definition nonNegative (q : option Q) : bool :=
  match q with Some v => Qle_bool 0 v | None => true end.

(** The validators of the movie schema on [save]. *)
Definition validateMovie (m : Movie) : option Exn :=
  if String.eqb (m_title m) "" then Some (ValidationError "title")
  else if negb (nonNegative (m_runtime m)) then Some (ValidationError "runtime")
  else if Qltb (m_averageRating m) 0 || Qltb 5 (m_averageRating m) then
    Some (ValidationError "averageRating")
  else if match m_ageRating m with
          | Some a => negb (includes a ageRatings)
          | None => false
          end then Some (ValidationError "ageRating")
  else if match m_boxOffice m with
          | Some b => negb (nonNegative (openingWeekend b)
                            && nonNegative (totalGross b)
                            && nonNegative (internationalRevenue b))
          | None => false
          end then Some (ValidationError "boxOffice")
  else None.

Definition push_film (f : Film) (p : Person) : Person :=
  {| p_id := p_id p; p_name := p_name p; p_type := p_type p;
     p_filmography := p_filmography p ++ [f] |}.

(** The loop
    [for (let id of ids) await Person.findByIdAndUpdate(id, { $push: { filmography } })]. *)
Definition pushFilmography (movie : ObjectId) (role : string) (year : Z)
    (ids : list ObjectId) (ps : list Person) : list Person :=
  fold_left
    (fun acc id =>
       updateById p_id id
         (push_film {| f_movie := movie; f_role := role; f_year := year |}) acc)
    ids ps.

(** The unique index on [title]. *)
Definition titleTaken (title : string) (except : ObjectId) (ms : list Movie)
  : bool :=
  existsb (fun m => String.eqb (m_title m) title
                    && negb (String.eqb (m_id m) except)) ms.

Section MoviesCrud.

(** [new Date(t).getFullYear()], in the time zone of the server. *)
Variable getFullYear : Date -> Z.

(** [router.post('/add', authenticateUser, ...)] *)
Definition post_add_movie (role : string) (rq : MovieRequest)
    (_id : ObjectId) (now : Date) (db : Db) : Response * Db :=
  if negb (String.eqb role "admin") then
    (reply 403 (Message "Access denied. You are not an admin."), db)
  else if negb (truthyStr (mq_title rq)) || negb (truthyArr (mq_genre rq))
          || negb (truthyArr (mq_directors rq))
          || negb (isSome (mq_releaseDate rq))
          || negb (truthyNum (mq_runtime rq))
          || negb (truthyArr (mq_actors rq))
          || negb (truthyStr (mq_ageRating rq))
          || negb (truthyStr (mq_countryOfOrigin rq))
          || negb (truthyStr (mq_language rq)) then
    (reply 400 (Message
       "Title, genre, director, releaseDate, runtime, actors, ageRating, countryOfOrigin, and language are required fields"),
     db)
  else
  match mq_title rq, mq_releaseDate rq with
  | Some title, Some releaseDate =>
  let directors := orEmpty (mq_directors rq) in
  let actors := orEmpty (mq_actors rq) in
  match Oid.castAll directors with
  | None => (reply 500 (Failure "Error adding movie" CastError), db)
  | Some directorIds =>
  let directorDocs := findIn p_id directorIds (persons db) in
  if negb (List.length directorDocs =? List.length directors)%nat then
    (reply 400 (Message "One or more directors do not exist"), db)
  else
  match Oid.castAll actors with
  | None => (reply 500 (Failure "Error adding movie" CastError), db)
  | Some actorIds =>
  let castDocs := findIn p_id actorIds (persons db) in
  if negb (List.length castDocs =? List.length actors)%nat then
    (reply 400 (Message "One or more cast members do not exist"), db)
  else
  let newMovie :=
    {| m_id := _id; m_title := title; m_genre := orEmpty (mq_genre rq);
       m_actors := actorIds; m_directors := directorIds; m_crew := [];
       m_releaseDate := Some releaseDate; m_runtime := mq_runtime rq;
       m_synopsis := mq_synopsis rq; m_posterUrl := mq_posterUrl rq;
       m_averageRating :=
         match mq_averageRating rq with Some q => q | None => 0%Q end;
       m_trivia := orEmpty (mq_trivia rq); m_goofs := orEmpty (mq_goofs rq);
       m_soundtrack := orEmpty (mq_soundtrack rq);
       m_ageRating := mq_ageRating rq; m_boxOffice := mq_boxOffice rq;
       m_awards := orEmpty (mq_awards rq); m_createdAt := now;
       m_countryOfOrigin := mq_countryOfOrigin rq;
       m_language := mq_language rq |} in
  match validateMovie newMovie with
  | Some err => (reply 500 (Failure "Error adding movie" err), db)
  | None =>
  if isSome (findById m_id _id (movies db)) || titleTaken title _id (movies db)
  then (reply 500 (Failure "Error adding movie" DuplicateKey), db)
  else
  let db1 := with_movies (movies db ++ [newMovie]) db in
  let year := getFullYear releaseDate in
  let ps1 := pushFilmography _id "Director" year directorIds (persons db1) in
  let ps2 := pushFilmography _id "Actor" year actorIds ps1 in
  (reply 201 (MovieBody "Movie added successfully" newMovie),
   with_persons ps2 db1)
  end
  end
  end
  | _, _ =>
    (reply 400 (Message
       "Title, genre, director, releaseDate, runtime, actors, ageRating, countryOfOrigin, and language are required fields"),
     db)
  end.

(** The update object built by the loop over the keys of the body, applied
    by [Movie.findByIdAndUpdate]: [$push] with [$each] for the list paths,
    [$set] for the others, truthy values only.  The ids pushed to
    [actors], [directors] and [crew] are cast. *)
Definition applyUpdate (u : MovieUpdate) (actors directors crew : list ObjectId)
    (m : Movie) : Movie :=
  let setStr (new old : option string) := if truthyStr new then new else old in
  {| m_id := m_id m;
     m_title := match mu_title u with
                | Some t => if truthyStr (mu_title u) then t else m_title m
                | None => m_title m
                end;
     m_genre := m_genre m ++ arrayOrEmpty (mu_genre u);
     m_actors := m_actors m ++ actors;
     m_directors := m_directors m ++ directors;
     m_crew := m_crew m ++ crew;
     m_releaseDate := match mu_releaseDate u with
                      | Some d => Some d
                      | None => m_releaseDate m
                      end;
     m_runtime := if truthyNum (mu_runtime u) then mu_runtime u
                  else m_runtime m;
     m_synopsis := setStr (mu_synopsis u) (m_synopsis m);
     m_posterUrl := setStr (mu_posterUrl u) (m_posterUrl m);
     m_averageRating := match mu_averageRating u with
                        | Some q => if truthyNum (mu_averageRating u) then q
                                    else m_averageRating m
                        | None => m_averageRating m
                        end;
     m_trivia := m_trivia m ++ arrayOrEmpty (mu_trivia u);
     m_goofs := m_goofs m ++ arrayOrEmpty (mu_goofs u);
     m_soundtrack := m_soundtrack m ++ arrayOrEmpty (mu_soundtrack u);
     m_ageRating := setStr (mu_ageRating u) (m_ageRating m);
     m_boxOffice := match mu_boxOffice u with
                    | Some b => Some b
                    | None => m_boxOffice m
                    end;
     m_awards := m_awards m ++ arrayOrEmpty (mu_awards u);
     m_createdAt := m_createdAt m;
     m_countryOfOrigin := setStr (mu_countryOfOrigin u) (m_countryOfOrigin m);
     m_language := setStr (mu_language u) (m_language m) |}.

(** [router.put('/:id', authenticateUser, ...)] *)
Definition put_movie (role : string) (id : string) (u : MovieUpdate)
    (db : Db) : Response * Db :=
  if negb (String.eqb role "admin") then
    (reply 403 (Message "Access denied. You are not an admin."), db)
  else
  match Oid.cast id with
  | None => (reply 400 (Message "Invalid movie ID"), db)
  | Some movieId =>
  if noKeys u then
    (reply 400 (Message "No fields provided to update"), db)
  else
  let directors := arrayOrEmpty (mu_directors u) in
  if negb (forallb Oid.isValid directors) then
    (reply 400 (Message "One or more director IDs are invalid"), db)
  else
  let actors := arrayOrEmpty (mu_actors u) in
  if negb (forallb Oid.isValid actors) then
    (reply 400 (Message "One or more actor IDs are invalid"), db)
  else
  let directorDocs := findIn p_id (castValid directors) (persons db) in
  if (0 <? List.length directors)%nat
     && negb (List.length directorDocs =? List.length directors)%nat then
    (reply 400 (Message "One or more directors do not exist"), db)
  else
  let actorDocs := findIn p_id (castValid actors) (persons db) in
  if (0 <? List.length actors)%nat
     && negb (List.length actorDocs =? List.length actors)%nat then
    (reply 400 (Message "One or more actors do not exist"), db)
  else
  match findById m_id movieId (movies db) with
  | None => (reply 404 (Message "Movie not found"), db)
  | Some movie =>
  let duplicateDirectors :=
    filter (fun director => includes director (m_directors movie)) directors in
  let duplicateActors :=
    filter (fun actor => includes actor (m_actors movie)) actors in
  if (0 <? List.length duplicateDirectors)%nat then
    (reply 400 (Message
       ("The following directors are already added: " ++ join duplicateDirectors)),
     db)
  else if (0 <? List.length duplicateActors)%nat then
    (reply 400 (Message
       ("The following actors are already added: " ++ join duplicateActors)),
     db)
  else
  match Oid.castAll (arrayOrEmpty (mu_crew u)) with
  | None => (reply 500 (Failure "Error updating movie" CastError), db)
  | Some crew =>
  let updatedMovie :=
    applyUpdate u (castValid actors) (castValid directors) crew movie in
  if truthyStr (mu_title u)
     && titleTaken (m_title updatedMovie) movieId (movies db) then
    (reply 500 (Failure "Error updating movie" DuplicateKey), db)
  else
  let db1 :=
    with_movies (updateById m_id movieId (fun _ => updatedMovie) (movies db))
      db in
  if (0 <? List.length directors + List.length actors)%nat then
    match m_releaseDate updatedMovie with
    | None => (reply 500 (Failure "Error updating movie" CastError), db1)
    | Some releaseDate =>
        let year := getFullYear releaseDate in
        let ps1 :=
          pushFilmography movieId "Director" year (castValid directors)
            (persons db1) in
        let ps2 :=
          pushFilmography movieId "Actor" year (castValid actors) ps1 in
        (reply 200 (MovieBody "Movie updated successfully" updatedMovie),
         with_persons ps2 db1)
    end
  else
    (reply 200 (MovieBody "Movie updated successfully" updatedMovie), db1)
  end
  end
  end.

End MoviesCrud.

(** ** Notifications: services/notificationService.js *)

(** A call of [sendEmail(to, subject, content)].  The content is rendered
    from the user name and from the movies with their populated actors; the
    model keeps those. *)
Record Email : Type := {
  e_to : string;
  e_subject : string;
  e_username : string;
  e_movies : list (Movie * list Person)
}.

(** [user.type]: the user schema declares no path [type] (the role is kept
    in [role]), so the read yields [undefined]. *)
Definition user_type (u : User) : option string := None.

(** [Movie.find({ releaseDate: { $gte: now, $lte: nextMonth } }).populate('actors')] *)
Definition upcomingMoviesOf (now nextMonth : Date) (db : Db)
  : list (Movie * list Person) :=
  map (fun m => (m, populate p_id (persons db) (m_actors m)))
    (filter (fun m => match m_releaseDate m with
                      | Some d => (now <=? d) && (d <=? nextMonth)
                      | None => false
                      end) (movies db)).

(** [User.find({ $or: [{ remindersForNewReleases: true }, { sendNotifications:
    true }] }).populate('profile.favoriteActors')] *)
Definition notifiableUsers (db : Db) : list (User * list Person) :=
  map (fun u => (u, populate p_id (persons db) (u_favoriteActors u)))
    (filter (fun u => u_remindersForNewReleases u || u_sendNotifications u)
       (users db)).

(** The filter on the upcoming movies for one user. *)
Definition relevantTo (favoriteGenres : list string)
    (favoriteActors : list Person) (movie : Movie * list Person) : bool :=
  existsb (fun g => includes g favoriteGenres) (m_genre (fst movie))
  || existsb (fun actor =>
                existsb (fun favActor => String.eqb (p_id favActor) (p_id actor))
                  favoriteActors) (snd movie).

(** [NotificationService.sendNotification(user, movies)]: the e-mails
    handed to [sendEmail]. *)
Definition sendNotification (user : User) (movies : list (Movie * list Person))
  : list Email :=
  if u_sendNotifications user && negb (String.eqb (u_email user) "") then
    [ {| e_to := u_email user; e_subject := "Upcoming Movies Notification";
         e_username := u_username user; e_movies := movies |} ]
  else [].

(** [NotificationService.checkUpcomingMovies()]: the e-mails dispatched, in
    order.  [now] is [new Date()] and [nextMonth] the same date moved one
    month ahead by [setMonth]. *)
Definition checkUpcomingMovies (now nextMonth : Date) (db : Db) : list Email :=
  let upcomingMovies := upcomingMoviesOf now nextMonth db in
  flat_map
    (fun '(user, favoriteActors) =>
       match user_type user with
       | Some "admin" => []
       | _ =>
           let relevantMovies :=
             filter (relevantTo (u_favoriteGenres user) favoriteActors)
               upcomingMovies in
           if (0 <? List.length relevantMovies)%nat
           then sendNotification user relevantMovies
           else []
       end)
    (notifiableUsers db).

(** ** Classification of the listing endpoints *)


(** [k] is the ceiling of [total / limit]. *)
Definition isCeil (total limit k : Z) : Prop :=
  (k - 1) * limit < total <= k * limit.

(** ** Properties the review claims speak of *)

(** The sum of the ratings of a list of reviews. *)
Definition ratingSum (rs : list Review) : Q :=
  fold_right (fun r acc => (r_rating r + acc)%Q) 0%Q rs.

(** [q] is the unweighted arithmetic mean of the ratings of [rs]. *)
Definition isMeanOf (q : Q) (rs : list Review) : Prop :=
  rs <> [] /\ (q * inject_Z (Z.of_nat (List.length rs)) == ratingSum rs)%Q.

(** A review by [user] for [movie] is stored. *)
Definition reviewedBy (user movie : ObjectId) (db : Db) : Prop :=
  exists r, In r (reviews db) /\ r_user r = user /\ r_movie r = movie.

(** No two stored reviews have the same user and movie. *)
Definition uniquePairs (db : Db) : Prop :=
  NoDup (map (fun r => (r_user r, r_movie r)) (reviews db)).

(** The paths of a review that an update has to leave alone. *)
Definition identityOf (r : Review) : ObjectId * ObjectId * ObjectId * Date :=
  (r_id r, r_user r, r_movie r, r_createdAt r).


(** ** Sample documents, for the concrete instances *)

Module Sample.

Definition movieA : ObjectId := "507f1f77bcf86cd799439011".
Definition movieB : ObjectId := "507f1f77bcf86cd799439012".
Definition ghost : ObjectId := "507f1f77bcf86cd7994390ff".
Definition alice : ObjectId := "64a1f0c2e4b0a1b2c3d4e5f6".
Definition bob : ObjectId := "64a1f0c2e4b0a1b2c3d4e5f7".
Definition root : ObjectId := "64a1f0c2e4b0a1b2c3d4e5f8".
Definition pacino : ObjectId := "60c72b2f9b1d8e001c8e4b01".
Definition reviewB : ObjectId := "65b2f0c2e4b0a1b2c3d4e601".
Definition fresh : ObjectId := "65b2f0c2e4b0a1b2c3d4e602".
Definition listA : ObjectId := "66c3f0c2e4b0a1b2c3d4e701".
Definition newsA : ObjectId := "67d4f0c2e4b0a1b2c3d4e801".

Definition movie (id : ObjectId) (title : string) (genre : list string)
    (actors : list ObjectId) (releaseDate : Date) (rating : Q) : Movie :=
  {| m_id := id; m_title := title; m_genre := genre; m_actors := actors;
     m_directors := []; m_crew := []; m_releaseDate := Some releaseDate;
     m_runtime := None; m_synopsis := None; m_posterUrl := None;
     m_averageRating := rating; m_trivia := []; m_goofs := [];
     m_soundtrack := []; m_ageRating := None; m_boxOffice := None;
     m_awards := []; m_createdAt := 0; m_countryOfOrigin := None;
     m_language := None |}.

Definition user (id : ObjectId) (name email role : string)
    (genres : list string) (reminders notifications : bool) : User :=
  {| u_id := id; u_username := name; u_email := email;
     u_favoriteGenres := genres; u_favoriteActors := []; u_role := role;
     u_wishlist := []; u_remindersForNewReleases := reminders;
     u_sendNotifications := notifications |}.

(** Reminders on, notifications off. *)
Definition aliceDoc : User :=
  user alice "alice" "alice@x.com" "user" ["Crime"] true false.

Definition bobDoc : User :=
  user bob "bob" "bob@x.com" "user" ["Crime"] true true.

Definition rootDoc : User :=
  user root "root" "root@x.com" "admin" ["Crime"] true true.

Definition db : Db :=
  {| movies := [ movie movieA "Inception" ["Sci-Fi"] [] 500 0;
                 movie movieB "Heat" ["Crime"] [pacino] 2000 3 ];
     persons := [ {| p_id := pacino; p_name := "Al Pacino";
                     p_type := "actor"; p_filmography := [] |} ];
     users := [ aliceDoc; bobDoc; rootDoc ];
     reviews := [ {| r_id := reviewB; r_user := alice; r_movie := movieB;
                     r_rating := 3; r_reviewText := "Tense.";
                     r_createdAt := 10; r_updatedAt := 10 |} ];
     customLists := [ {| c_id := listA; c_user := alice; c_name := "Mine";
                         c_description := ""; c_movies := [];
                         c_createdAt := 0 |} ];
     news := [ {| n_id := newsA; n_title := "T"; n_description := "D";
                  n_content := "C"; n_category := "Movies";
                  n_publishedDate := 0; n_relatedMovies := [];
                  n_relatedActors := [] |} ] |}.

(** [{ movie: movieA, rating: 4 }] *)
Definition ratingOnly : ReviewRequest :=
  {| rq_movie := Some movieA; rq_rating := Some 4%Q; rq_reviewText := None |}.

(** [{ movie: movieA, rating: 4, reviewText: "Great" }] *)
Definition withText : ReviewRequest :=
  {| rq_movie := Some movieA; rq_rating := Some 4%Q;
     rq_reviewText := Some "Great" |}.

End Sample.

(** ** Properties the notification and reference claims speak of *)

(** The upcoming movies the job finds relevant to a stored user. *)
Definition relevantMoviesFor (now nextMonth : Date) (db : Db) (u : User)
  : list (Movie * list Person) :=
  filter (relevantTo (u_favoriteGenres u)
            (populate p_id (persons db) (u_favoriteActors u)))
    (upcomingMoviesOf now nextMonth db).

(** The job dispatches an e-mail to the address of [u]. *)
Definition receives (now nextMonth : Date) (db : Db) (u : User) : Prop :=
  exists e, In e (checkUpcomingMovies now nextMonth db) /\ e_to e = u_email u.

(** The id of the request denotes a document of the collection. *)
Definition existsIn {A : Type} (id_of : A -> ObjectId) (docs : list A)
    (id : string) : Prop :=
  exists d, In d docs /\ Oid.cast id = Some (id_of d).

(** The stored ids are in the form [toString()] prints. *)
Definition canonicalIds {A : Type} (id_of : A -> ObjectId) (docs : list A)
  : Prop :=
  Forall (fun d => Oid.lower (id_of d) = id_of d) docs.

(** The handler answers with an error status and leaves the database as it
    was. *)
Definition rejects (out : Response * Db) (db : Db) : Prop :=
  snd out = db /\ 400 <= status (fst out).

(** Requests that name a document the sample database does not have. *)
Module SampleRequests.

Definition addMovie : MovieRequest :=
  {| mq_title := Some "Ronin"; mq_genre := Some ["Action"];
     mq_directors := Some [Sample.ghost]; mq_actors := Some [Sample.pacino];
     mq_releaseDate := Some 900; mq_runtime := Some 122%Q;
     mq_synopsis := None; mq_posterUrl := None; mq_averageRating := None;
     mq_trivia := None; mq_goofs := None; mq_soundtrack := None;
     mq_ageRating := Some "R"; mq_boxOffice := None; mq_awards := None;
     mq_countryOfOrigin := Some "USA"; mq_language := Some "English" |}.

Definition updateMovie : MovieUpdate :=
  {| mu_title := None; mu_genre := None; mu_directors := None;
     mu_actors := Some (One Sample.ghost); mu_crew := None;
     mu_releaseDate := None; mu_runtime := None; mu_synopsis := None;
     mu_posterUrl := None; mu_averageRating := None; mu_trivia := None;
     mu_goofs := None; mu_soundtrack := None; mu_ageRating := None;
     mu_boxOffice := None; mu_awards := None; mu_countryOfOrigin := None;
     mu_language := None; mu_unknown := [] |}.

Definition addNews : NewsRequest :=
  {| nq_title := Some "Sequel announced"; nq_description := Some "Short";
     nq_content := Some "Long"; nq_category := Some "Movies";
     nq_relatedMovies := Some [Sample.movieA; Sample.ghost];
     nq_relatedActors := Some [Sample.ghost] |}.

Definition actorNews : NewsRequest :=
  {| nq_title := Some "Casting"; nq_description := None;
     nq_content := None; nq_category := None;
     nq_relatedMovies := None;
     nq_relatedActors := Some [Sample.ghost] |}.

Definition completeActorNews : NewsRequest :=
  {| nq_title := Some "Casting"; nq_description := Some "Short";
     nq_content := Some "Long"; nq_category := Some "Actors";
     nq_relatedMovies := Some [Sample.movieA];
     nq_relatedActors := Some [Sample.ghost] |}.

(** A complete body whose director and actor is a stored person. *)
Definition newMovie : MovieRequest :=
  {| mq_title := Some "Ronin"; mq_genre := Some ["Action"];
     mq_directors := Some [Sample.pacino]; mq_actors := Some [Sample.pacino];
     mq_releaseDate := Some 900; mq_runtime := Some 122%Q;
     mq_synopsis := None; mq_posterUrl := None; mq_averageRating := None;
     mq_trivia := None; mq_goofs := None; mq_soundtrack := None;
     mq_ageRating := Some "R"; mq_boxOffice := None; mq_awards := None;
     mq_countryOfOrigin := Some "USA"; mq_language := Some "English" |}.

(** A body that names a stored movie and a stored person. *)
Definition soundNews : NewsRequest :=
  {| nq_title := Some "Sequel announced"; nq_description := Some "Short";
     nq_content := Some "Long"; nq_category := Some "Movies";
     nq_relatedMovies := Some [Sample.movieA];
     nq_relatedActors := Some [Sample.pacino] |}.

(** An update that names a stored person as a related movie. *)
Definition personAsMovie : NewsRequest :=
  {| nq_title := None; nq_description := None; nq_content := None;
     nq_category := None; nq_relatedMovies := Some [Sample.pacino];
     nq_relatedActors := None |}.

End SampleRequests.

(** * Further handlers *)

(** ** Wishlist: removal *)

(** [array.indexOf(s)] on the ids of a document array: the position of the
    first id that prints as [s]; [None] is [-1]. *)
Fixpoint indexOf (s : string) (l : list ObjectId) : option nat :=
  match l with
  | [] => None
  | x :: r =>
      if String.eqb s x then Some O
      else option_map S (indexOf s r)
  end.

(** [array.splice(i, 1)] *)
Definition removeAt {A : Type} (i : nat) (l : list A) : list A :=
  (firstn i l ++ skipn (S i) l)%list.

(** [router.delete('/remove', authenticateUser, ...)] of routes/wishlist.js *)
Definition delete_wishlist_remove (caller : ObjectId) (movieId : option string)
    (db : Db) : Response * Db :=
  if negb (truthyStr movieId) then
    (reply 400 (Message "Movie ID is required"), db)
  else
  match movieId with
  | None => (reply 400 (Message "Movie ID is required"), db)
  | Some movieId =>
      match findById u_id caller (users db) with
      | None => (reply 404 (Message "User not found"), db)
      | Some user =>
          match indexOf movieId (u_wishlist user) with
          | None => (reply 400 (Message "Movie not found in wishlist"), db)
          | Some movieIndex =>
              let user' :=
                set_wishlist (removeAt movieIndex (u_wishlist user)) user in
              (reply 200
                 (WishlistBody "Movie removed from wishlist successfully"
                    (u_wishlist user')),
               with_users (store u_id user' (users db)) db)
          end
      end
  end.

(** ** Custom lists: the other handlers of routes/customlist.js *)

(** [Model.findByIdAndDelete(id)]: the first document with the id goes. *)
Fixpoint deleteById {A : Type} (id_of : A -> ObjectId) (id : ObjectId)
    (docs : list A) : list A :=
  match docs with
  | [] => []
  | x :: r =>
      if String.eqb (id_of x) id then r else x :: deleteById id_of id r
  end.


(** [router.post('/create-new', authenticateUser, ...)]; [_id] is the id the
    driver gives the new document, [now] the value of [Date.now]. *)
Definition post_list_create (caller : ObjectId) (name description : option string)
    (_id : ObjectId) (now : Date) (db : Db) : Response * Db :=
  if negb (truthyStr name) then
    (reply 400 (Message "List name is required"), db)
  else
  match name with
  | None => (reply 400 (Message "List name is required"), db)
  | Some listName =>
      match find (fun c => String.eqb (c_user c) caller
                           && String.eqb (c_name c) listName)
                 (customLists db) with
      | Some existingList =>
          (reply 400 (Message "A custom list with this name already exists"),
           db)
      | None =>
          let customList :=
            {| c_id := _id; c_user := caller; c_name := listName;
               c_description :=
                 match description with Some d => d | None => "" end;
               c_movies := []; c_createdAt := now |} in
          match findById c_id _id (customLists db) with
          | Some _ =>
              (reply 500 (Failure "Failed to create custom list" DuplicateKey),
               db)
          | None =>
              (reply 201 (ListBody "Custom list created" customList),
               with_customLists (customLists db ++ [customList]) db)
          end
      end
  end.

(** [router.delete('/delete/:listId', authenticateUser, ...)] *)
Definition delete_list (caller : ObjectId) (listId : string) (db : Db)
  : Response * Db :=
  match Oid.cast listId with
  | None => (reply 500 (Failure "Failed to delete custom list" CastError), db)
  | Some lid =>
      match findById c_id lid (customLists db) with
      | None => (reply 404 (Message "Custom list not found"), db)
      | Some customList =>
          if negb (String.eqb (c_user customList) caller) then
            (reply 403
               (Message "You are not authorized to delete this custom list"),
             db)
          else
            (reply 200 (Message "Custom list deleted successfully"),
             with_customLists (deleteById c_id lid (customLists db)) db)
      end
  end.

Definition set_name_description (name description : string) (c : CustomList)
  : CustomList :=
  {| c_id := c_id c; c_user := c_user c; c_name := name;
     c_description := description; c_movies := c_movies c;
     c_createdAt := c_createdAt c |}.

(** [router.put('/:listId/update', authenticateUser, ...)] *)
Definition put_list_update (caller : ObjectId) (listId : string)
    (name description : option string) (db : Db) : Response * Db :=
  if negb (truthyStr name) && negb (truthyStr description) then
    (reply 400
       (Message "At least name or description is required to update"), db)
  else if String.eqb listId "" then
    (reply 400 (Message "Please Provide valid list id"), db)
  else
  match Oid.cast listId with
  | None => (reply 500 (Failure "Failed to update custom list" CastError), db)
  | Some lid =>
      match findById c_id lid (customLists db) with
      | None => (reply 404 (Message "Custom list not found"), db)
      | Some customList =>
          if negb (String.eqb (c_user customList) caller) then
            (reply 403
               (Message "You are not authorized to update this custom list"),
             db)
          else
            let name' :=
              match name with
              | Some n => if truthyStr name then n else c_name customList
              | None => c_name customList
              end in
            let description' :=
              match description with
              | Some d =>
                  if truthyStr description then d
                  else c_description customList
              | None => c_description customList
              end in
            let customList' :=
              set_name_description name' description' customList in
            (reply 200 (ListBody "Custom list updated successfully" customList'),
             with_customLists (store c_id customList' (customLists db)) db)
      end
  end.

(** [router.delete('/:listId/remove-movie', authenticateUser, ...)] *)
Definition delete_list_remove_movie (caller : ObjectId) (listId : string)
    (movieId : option string) (db : Db) : Response * Db :=
  if negb (truthyStr movieId) then
    (reply 400 (Message "Movie ID is required"), db)
  else
  match movieId with
  | None => (reply 400 (Message "Movie ID is required"), db)
  | Some movieId =>
      match Oid.cast listId with
      | None =>
          (reply 500
             (Failure "Failed to remove movie from custom list" CastError), db)
      | Some lid =>
          match findById c_id lid (customLists db) with
          | None => (reply 404 (Message "Custom list not found"), db)
          | Some customList =>
              if negb (String.eqb (c_user customList) caller) then
                (reply 403 (Message
                   "You are not authorized to remove movie from this custom list"),
                 db)
              else
                match indexOf movieId (c_movies customList) with
                | None =>
                    (reply 404 (Message "Movie not found in the custom list"),
                     db)
                | Some movieIndex =>
                    let customList' :=
                      set_movies (removeAt movieIndex (c_movies customList))
                        customList in
                    (reply 200
                       (ListBody "Movie removed from custom list" customList'),
                     with_customLists
                       (store c_id customList' (customLists db)) db)
                end
          end
      end
  end.

(** ** Movie administration: listing and deletion (routes/moviesCRUD.js) *)


(** [router.delete('/:id', authenticateUser, ...)] *)
Definition delete_movie (role : string) (id : string) (db : Db)
  : Response * Db :=
  if negb (String.eqb role "admin") then
    (reply 403 (Message "Access denied. You are not an admin."), db)
  else
  match Oid.cast id with
  | None => (reply 400 (Message "Invalid movie ID format"), db)
  | Some movieId =>
      match findById m_id movieId (movies db) with
      | None => (reply 404 (Message "Movie not found"), db)
      | Some deletedMovie =>
          (reply 200 (MovieBody "Movie deleted successfully" deletedMovie),
           with_movies (deleteById m_id movieId (movies db)) db)
      end
  end.

(** ** Recommendations: similar and personalized (routes/recommendation.js) *)

(** [{ path: { $in: values } }] on a list path: one element of the path is
    among the values. *)
Definition anyIn (path values : list string) : bool :=
  existsb (fun x => includes x values) path.

(** The filter of the similar-movies query: another movie that shares a
    genre, a director or an actor with [movie]. *)
Definition similarTo (movie m : Movie) : bool :=
  negb (String.eqb (m_id m) (m_id movie))
  && (anyIn (m_genre m) (m_genre movie)
      || anyIn (m_directors m) (m_directors movie)
      || anyIn (m_actors m) (m_actors movie)).

(** [router.get('/similar-movies/:id', ...)] *)
Definition get_similar (id : string) (page limit : QueryParam) (db : Db)
  : Response :=
  match Oid.cast id with
  | None => reply 500 (Failure "Error fetching similar titles" CastError)
  | Some movieId =>
      match findById m_id movieId (movies db) with
      | None => reply 404 (Message "Movie not found")
      | Some movie =>
          match listing RecSimilar page limit
                  (filter (similarTo movie) (movies db)) with
          | None =>
              reply 500 (Failure "Error fetching similar titles" QueryError)
          | Some b => reply 200 (MoviePage b)
          end
      end
  end.

(** What [GET /api/recommendations/personalized] answers. *)
Inductive PersonalizedReply : Type :=
| PersonalizedError (code : Z) (message : string)
| Recommendations (personalized trending : Block Movie).

(** [router.get('/personalized', authenticateUser, ...)] *)
Definition get_personalized (caller : ObjectId) (page limit : QueryParam)
    (db : Db) : PersonalizedReply :=
  match findById u_id caller (users db) with
  | None => PersonalizedError 404 "User not found"
  | Some user =>
      let favoriteGenres := u_favoriteGenres user in
      let '(page, limit) := coerceClamped page limit in
      let matching :=
        filter (fun m => anyIn (m_genre m) favoriteGenres) (movies db) in
      match window matching (Js.offset page limit) limit with
      | None => PersonalizedError 500 "Error fetching recommendations"
      | Some genreRecommendations =>
          match window (sortBy ratingDesc (movies db)) (Js.offset page limit)
                  limit with
          | None => PersonalizedError 500 "Error fetching recommendations"
          | Some trendingMovies =>
              let totalGenreRecommendations :=
                Z.of_nat (List.length matching) in
              let totalTrendingMovies := Z.of_nat (List.length (movies db)) in
              Recommendations
                {| b_items := genreRecommendations; b_page := page;
                   b_totalPages :=
                     if totalGenreRecommendations =? 0 then Some 1
                     else Js.ceilQuot totalGenreRecommendations limit;
                   b_totalItems := totalGenreRecommendations |}
                {| b_items := trendingMovies; b_page := page;
                   b_totalPages :=
                     if totalTrendingMovies =? 0 then Some 1
                     else Js.ceilQuot totalTrendingMovies limit;
                   b_totalItems := totalTrendingMovies |}
          end
      end
  end.

(** ** Notifications: routes/notifications.js *)

(** [router.post('/check-upcoming', auth, ...)]: the answer and the e-mails
    dispatched. *)
Definition post_check_upcoming (caller : ObjectId) (now nextMonth : Date)
    (db : Db) : Response * list Email :=
  match findById u_id caller (users db) with
  | None => (reply 403 (Message "Unauthorized: Admin access required"), [])
  | Some user =>
      if negb (String.eqb (u_role user) "admin") then
        (reply 403 (Message "Unauthorized: Admin access required"), [])
      else
        (reply 200 (Message "Notification check triggered successfully"),
         checkUpcomingMovies now nextMonth db)
  end.

Definition set_flags (reminders notifications : bool) (u : User) : User :=
  {| u_id := u_id u; u_username := u_username u; u_email := u_email u;
     u_favoriteGenres := u_favoriteGenres u;
     u_favoriteActors := u_favoriteActors u; u_role := u_role u;
     u_wishlist := u_wishlist u;
     u_remindersForNewReleases := reminders;
     u_sendNotifications := notifications |}.

(** A word between double quotes. *)
Definition quoted (s : string) : string :=
  String (ascii_of_nat 34) s ++ String (ascii_of_nat 34) EmptyString.

(** What [PATCH /api/notifications/settings] answers. *)
Inductive SettingsReply : Type :=
| SettingsError (code : Z) (message : string)
| SettingsUpdated (remindersForNewReleases sendNotifications : bool).

(** [router.patch('/settings', auth, ...)]; the body fields [remainder] and
    [notifications] are booleans or absent. *)
Definition patch_settings (caller : ObjectId) (remainder notifications : option bool)
    (db : Db) : SettingsReply * Db :=
  match remainder, notifications with
  | None, None =>
      (SettingsError 400
         ("At least one of " ++ quoted "remainder" ++ " or "
          ++ quoted "notifications" ++ " must be provided."),
       db)
  | _, _ =>
      let update (u : User) :=
        set_flags
          (match remainder with
           | Some b => b
           | None => u_remindersForNewReleases u
           end)
          (match notifications with
           | Some b => b
           | None => u_sendNotifications u
           end) u in
      match findById u_id caller (users db) with
      | None => (SettingsError 404 "User not found", db)
      | Some user =>
          (SettingsUpdated (u_remindersForNewReleases (update user))
             (u_sendNotifications (update user)),
           with_users (updateById u_id caller update (users db)) db)
      end
  end.

(** ** News: the listings of routes/newsarticle.js *)






(** ** Discussions: the listing of routes/discussion.js *)







(** ** Properties the pagination claims speak of *)



(** Page [p] of the documents [docs], [l] documents to a page: the [l]
    documents after the first [(p - 1) * l]. *)
Definition pageOf {A : Type} (p l : Z) (docs : list A) : list A :=
  firstn (Z.to_nat l) (skipn (Z.to_nat ((p - 1) * l)) docs).







(** ** Properties the reference claim speaks of *)

(** The ids of a request that are not, as they are written, the id of a
    stored document. *)
Definition notStored {A : Type} (id_of : A -> ObjectId) (docs : list A)
    (ids : list string) : list string :=
  filter (fun id => if in_dec string_dec id (map id_of docs)
                    then false else true) ids.

(** Every id of the list is well formed. *)
Definition wellFormed (ids : list string) : Prop :=
  Forall (fun id => Oid.isValid id = true) ids.

(** The body of a movie creation has the fields the handler requires. *)
Definition completeMovie (rq : MovieRequest) : Prop :=
  truthyStr (mq_title rq) = true /\ mq_genre rq <> None
  /\ mq_directors rq <> None /\ mq_releaseDate rq <> None
  /\ truthyNum (mq_runtime rq) = true /\ mq_actors rq <> None
  /\ truthyStr (mq_ageRating rq) = true
  /\ truthyStr (mq_countryOfOrigin rq) = true
  /\ truthyStr (mq_language rq) = true.

(** The body of a news creation has the fields the handler requires, the
    category being one of the schema. *)
Definition completeNews (rq : NewsRequest) : Prop :=
  truthyStr (nq_title rq) = true /\ truthyStr (nq_description rq) = true
  /\ truthyStr (nq_content rq) = true
  /\ exists c, nq_category rq = Some c /\ In c validCategories.

(** The category of a news update is absent, empty or one of the schema. *)
Definition categoryAcceptable (rq : NewsRequest) : Prop :=
  match nq_category rq with
  | Some c => c = "" \/ In c validCategories
  | None => True
  end.

(** ** Properties the notification claim speaks of *)

(** The movie [m] is relevant to the user [u]: it is stored, its release
    date lies between [now] and [nextMonth], and it has one of the
    favourite genres of [u] or one of the favourite actors of [u], a stored
    person, among its actors. *)
Definition relevantMovie (now nextMonth : Date) (db : Db) (u : User)
    (m : Movie) : Prop :=
  In m (movies db)
  /\ (exists d, m_releaseDate m = Some d /\ now <= d <= nextMonth)
  /\ ((exists g, In g (m_genre m) /\ In g (u_favoriteGenres u))
      \/ (exists p, In p (persons db) /\ In (p_id p) (m_actors m)
                    /\ In (p_id p) (u_favoriteActors u))).

(** Whom the specification has receive an e-mail: a user who is no admin,
    has one of the two flags set and a relevant upcoming movie. *)
Definition shouldReceive (now nextMonth : Date) (db : Db) (u : User) : Prop :=
  u_role u <> "admin"
  /\ u_remindersForNewReleases u || u_sendNotifications u = true
  /\ exists m, relevantMovie now nextMonth db u m.

(** ** Properties the further results speak of *)

(** A rating within the bounds of the review schema. *)
Definition inRange (q : Q) : Prop := (1 <= q /\ q <= 5)%Q.

(** Every stored rating is within the bounds of the schema. *)
Definition ratingsInRange (db : Db) : Prop :=
  Forall (fun r => inRange (r_rating r)) (reviews db).



(** No owner has two custom lists of the same name. *)
Definition uniqueListNames (db : Db) : Prop :=
  NoDup (map (fun c => (c_user c, c_name c)) (customLists db)).

(** The wishlist of the user with the given id. *)
Definition wishlistOf (id : ObjectId) (db : Db) : option (list ObjectId) :=
  option_map u_wishlist (findById u_id id (users db)).


(** The entry a movie adds to the filmography of a person. *)
Definition filmEntry (movie : ObjectId) (role : string) (year : Z) : Film :=
  {| f_movie := movie; f_role := role; f_year := year |}.

(** How often an id occurs in a list of ids. *)
Definition occurrences (id : ObjectId) (ids : list ObjectId) : nat :=
  count_occ string_dec ids id.

(** Two lists have an element in common. *)
Definition shares (a b : list string) : Prop :=
  exists x, In x a /\ In x b.

(** * Proofs *)

(** ** Pagination *)


Lemma isCeil_unique (a l k k' : Z) :
  0 < l -> isCeil a l k -> isCeil a l k' -> k = k'.
Proof. unfold isCeil. intros. nia. Qed.



Lemma window_length {A : Type} (docs w : list A) (s l : Z) :
  window docs (Some s) (Some l) = Some w -> 1 <= l ->
  Z.of_nat (List.length w) <= l.
Proof.
  unfold window. destruct (s <? 0); [discriminate|].
  intros H Hl. destruct (l =? 0) eqn:E; [lia|].
  injection H as <-. rewrite length_firstn. lia.
Qed.

Lemma window_defined {A : Type} (docs : list A) (p l : Z) :
  1 <= p -> 1 <= l ->
  exists w, window docs (Js.offset (Some p) (Some l)) (Some l) = Some w.
Proof.
  intros Hp Hl. unfold window, Js.offset.
  destruct ((p - 1) * l <? 0) eqn:E; [nia|]. eauto.
Qed.





Lemma coerce_absent (e : Endpoint) : coerce e None None = (Some 1, Some 10).
Proof. destruct e; reflexivity. Qed.

Section Sorting.
Context {A : Type} (leb : A -> A -> bool).
Hypothesis leb_total : forall a b, leb a b = false -> leb b a = true.

Lemma insertBy_perm (x : A) (l : list A) :
  Permutation (insertBy leb x l) (x :: l).
Proof.
  induction l as [|y r IH]; cbn; [reflexivity|].
  destruct (leb x y); [reflexivity|].
  rewrite IH. apply perm_swap.
Qed.

Lemma sortBy_perm (l : list A) : Permutation (sortBy leb l) l.
Proof.
  induction l as [|x r IH]; cbn; [constructor|].
  unfold sortBy in IH |- *. rewrite insertBy_perm. now constructor.
Qed.

Lemma insertBy_hd (x a : A) (l : list A) :
  leb a x = true -> HdRel (fun u v => leb u v = true) a l ->
  HdRel (fun u v => leb u v = true) a (insertBy leb x l).
Proof.
  intros Hax Hl. destruct l as [|y r]; cbn; [now constructor|].
  destruct (leb x y); constructor; [exact Hax|].
  now inversion Hl.
Qed.

Lemma insertBy_sorted (x : A) (l : list A) :
  Sorted (fun u v => leb u v = true) l ->
  Sorted (fun u v => leb u v = true) (insertBy leb x l).
Proof.
  induction 1 as [|y r Hs IH Hhd]; cbn; [repeat constructor|].
  destruct (leb x y) eqn:E.
  - constructor; [now constructor | now constructor].
  - constructor; [exact IH|]. apply insertBy_hd; [now apply leb_total | exact Hhd].
Qed.

Lemma sortBy_sorted (l : list A) :
  Sorted (fun u v => leb u v = true) (sortBy leb l).
Proof.
  induction l as [|x r IH]; cbn; [constructor|].
  now apply insertBy_sorted.
Qed.
End Sorting.

Lemma ratingDesc_total (a b : Movie) :
  ratingDesc a b = false -> ratingDesc b a = true.
Proof.
  unfold ratingDesc. intros H. apply Qle_bool_iff.
  destruct (Qlt_le_dec (m_averageRating a) (m_averageRating b)) as [L|L].
  - now apply Qlt_le_weak.
  - apply Qle_bool_iff in L. congruence.
Qed.

Lemma ratingDesc_trans (a b c : Movie) :
  ratingDesc a b = true -> ratingDesc b c = true -> ratingDesc a c = true.
Proof.
  unfold ratingDesc. rewrite !Qle_bool_iff. intros H1 H2.
  eapply Qle_trans; eauto.
Qed.

Lemma sortBy_ratingDesc_sorted (ms : list Movie) :
  StronglySorted (fun a b => (m_averageRating b <= m_averageRating a)%Q)
    (sortBy ratingDesc ms).
Proof.
  pose proof (sortBy_sorted ratingDesc ratingDesc_total ms) as H.
  apply Sorted_StronglySorted in H.
  - induction H as [|a l Hs IH Hfa]; constructor; [exact IH|].
    eapply Forall_impl; [|exact Hfa]. intros b Hb.
    now apply Qle_bool_iff.
  - intros a b c. apply ratingDesc_trans.
Qed.

Lemma sortBy_length {A : Type} (leb : A -> A -> bool) (l : list A) :
  List.length (sortBy leb l) = List.length l.
Proof. apply Permutation_length, sortBy_perm. Qed.

Lemma window_clamped {A : Type} (docs : list A) (page limit : QueryParam) :
  window docs (Js.offset (fst (coerceClamped page limit))
                 (snd (coerceClamped page limit)))
    (snd (coerceClamped page limit)) = None
  <-> Js.parseInt (withDefault page "1") = None
      \/ Js.parseInt (withDefault limit "10") = None.
Proof.
  unfold coerceClamped. cbn [fst snd].
  destruct (Js.parseInt (withDefault page "1")) as [p|];
    destruct (Js.parseInt (withDefault limit "10")) as [l|]; cbn;
    try (split; [auto | reflexivity]).
  destruct (window_defined docs (Z.max 1 p) (Z.max 1 l) ltac:(lia) ltac:(lia))
    as [w Hw].
  cbn in Hw. rewrite Hw. split; [discriminate | intros [H|H]; discriminate].
Qed.

(** C8: the trending block and the top-rated block of
    [GET /api/recommendations/trending-movies] are one and the same listing,
    for every page and limit: the skip/limit window, the count and the page
    count of the whole movie collection sorted by [averageRating],
    descending.  The handler answers 500, without blocks, exactly when a
    parameter does not parse to a number. *)
Theorem C8_trending_equals_top_rated (page limit : QueryParam) (db : Db) :
  let sorted := sortBy ratingDesc (movies db) in
  Permutation sorted (movies db)
  /\ StronglySorted (fun a b => (m_averageRating b <= m_averageRating a)%Q)
       sorted
  /\ match listing RecTrending page limit sorted with
     | Some block =>
         get_trending page limit db = reply 200 (TrendingBody block block)
     | None =>
         get_trending page limit db
         = reply 500 (Failure "Error fetching movies" QueryError)
     end
  /\ (listing RecTrending page limit sorted = None
      <-> Js.parseInt (withDefault page "1") = None
          \/ Js.parseInt (withDefault limit "10") = None).
Proof.
  intros sorted.
  split; [apply sortBy_perm|]. split; [apply sortBy_ratingDesc_sorted|].
  pose proof (window_clamped sorted page limit) as Hw.
  unfold listing, get_trending. cbn [coerce totalPages].
  destruct (coerceClamped page limit) as [pg lm]. cbn [fst snd] in Hw.
  fold sorted. unfold totalPagesGuarded.
  rewrite <- (sortBy_length ratingDesc (movies db)). fold sorted.
  destruct (window sorted (Js.offset pg lm) lm) as [w|].
  - split; [reflexivity|]. rewrite <- Hw. split; discriminate.
  - split; [reflexivity|]. rewrite <- Hw. split; reflexivity.
Qed.

Lemma get_trending_blocks_equal (page limit : QueryParam) (db : Db)
    (trending topRated : Block Movie) :
  body (get_trending page limit db) = TrendingBody trending topRated ->
  trending = topRated.
Proof.
  unfold get_trending. destruct (coerceClamped page limit) as [pg lm].
  destruct (window _ _ _) as [w|]; cbn; [|discriminate].
  intros H. injection H as <- <-. reflexivity.
Qed.

(** ** The listing handlers *)




Lemma window_pageOf {A : Type} (docs : list A) (p l : Z) :
  1 <= p -> 1 <= l ->
  window docs (Js.offset (Some p) (Some l)) (Some l) = Some (pageOf p l docs).
Proof.
  intros Hp Hl. unfold window, Js.offset, pageOf.
  destruct ((p - 1) * l <? 0) eqn:E; [nia|].
  destruct (l =? 0) eqn:E0; [lia|]. now rewrite Z.abs_eq by lia.
Qed.




























(** ** The pagination claims *)







(** ** Reviews *)

(** *** Collections *)

Section CollectionFacts.
Context {A : Type} (id_of : A -> ObjectId).

Lemma findById_id (id : ObjectId) (docs : list A) (d : A) :
  findById id_of id docs = Some d -> id_of d = id /\ In d docs.
Proof.
  unfold findById. intros H. apply find_some in H as [Hin He].
  apply String.eqb_eq in He. auto.
Qed.

Lemma findById_None (id : ObjectId) (docs : list A) (d : A) :
  findById id_of id docs = None -> In d docs -> id_of d <> id.
Proof.
  unfold findById. intros H Hin E.
  apply (find_none _ _ H) in Hin. apply String.eqb_neq in Hin. auto.
Qed.

Lemma findById_updateById (id : ObjectId) (f : A -> A) (docs : list A) :
  (forall x, id_of (f x) = id_of x) ->
  findById id_of id (updateById id_of id f docs)
  = option_map f (findById id_of id docs).
Proof.
  intros Hf. induction docs as [|x r IH]; cbn; [reflexivity|].
  destruct (String.eqb (id_of x) id) eqn:E; cbn.
  - rewrite Hf, E. reflexivity.
  - rewrite E. exact IH.
Qed.

Lemma updateById_length (id : ObjectId) (f : A -> A) (docs : list A) :
  List.length (updateById id_of id f docs) = List.length docs.
Proof.
  induction docs as [|x r IH]; cbn; [reflexivity|].
  destruct (String.eqb (id_of x) id); cbn; congruence.
Qed.

End CollectionFacts.

(** *** The average *)

Lemma fold_left_ratings (rs : list Review) (acc : Q) :
  (fold_left (fun sum review => sum + r_rating review) rs acc
   == acc + ratingSum rs)%Q.
Proof.
  revert acc. unfold ratingSum.
  induction rs as [|r rs IH]; intros acc; cbn [fold_left fold_right].
  - ring.
  - rewrite IH. ring.
Qed.

Lemma averageOf_eq (rs : list Review) :
  rs <> [] ->
  averageOf rs
  = Some (fold_left (fun sum review => sum + r_rating review) rs 0
          / inject_Z (Z.of_nat (List.length rs)))%Q.
Proof. destruct rs; [congruence | reflexivity]. Qed.

Lemma Qdiv_mult_cancel (s n : Q) : ~ (n == 0)%Q -> (s / n * n == s)%Q.
Proof. intros Hn. field. exact Hn. Qed.

Lemma averageOf_isMean (rs : list Review) (q : Q) :
  averageOf rs = Some q -> isMeanOf q rs.
Proof.
  intros H.
  assert (Hne : rs <> []) by (intros ->; discriminate).
  rewrite (averageOf_eq rs Hne) in H. injection H as <-.
  split; [exact Hne|].
  rewrite Qdiv_mult_cancel.
  - rewrite fold_left_ratings. ring.
  - destruct rs; [congruence|]. unfold Qeq. cbn. lia.
Qed.

Lemma averageOf_defined (rs : list Review) :
  rs <> [] -> exists q, averageOf rs = Some q.
Proof. destruct rs; [congruence|]. cbn. eauto. Qed.

Lemma reviewsOf_with_movies (movie : ObjectId) (ms : list Movie) (db : Db) :
  reviewsOf movie (with_movies ms db) = reviewsOf movie db.
Proof. reflexivity. Qed.

Lemma updateMovieRating_ok (movieId : ObjectId) (db db2 : Db) (m0 : Movie) :
  updateMovieRating movieId db = (None, db2) ->
  findById m_id movieId (movies db) = Some m0 ->
  reviews db2 = reviews db
  /\ exists m, findById m_id movieId (movies db2) = Some m
               /\ isMeanOf (m_averageRating m) (reviewsOf movieId db2).
Proof.
  unfold updateMovieRating.
  destruct (averageOf (reviewsOf movieId db)) as [avg|] eqn:E; [|discriminate].
  intros H Hm. injection H as <-. split; [reflexivity|].
  exists (set_averageRating avg m0). split.
  - cbn [with_movies movies]. rewrite findById_updateById by reflexivity.
    now rewrite Hm.
  - rewrite reviewsOf_with_movies. now apply averageOf_isMean.
Qed.

Lemma postSave_ok (this : Review) (db db2 : Db) :
  postSave this db = (None, db2) ->
  reviews db2 = reviews db
  /\ exists m, findById m_id (r_movie this) (movies db2) = Some m.
Proof.
  unfold postSave.
  destruct (findById m_id (r_movie this) (movies db)) as [movie|] eqn:Em;
    [|discriminate].
  destruct (averageOf _) as [avg|]; [|discriminate].
  destruct (_ || _); [discriminate|].
  intros H. injection H as <-. split; [reflexivity|].
  apply findById_id in Em as Hid. destruct Hid as [Hid _].
  exists (set_averageRating avg movie). cbn [with_movies movies]. rewrite Hid.
  rewrite findById_updateById by reflexivity. now rewrite Em.
Qed.

(** ** Inversion of the review handlers *)

Ltac destruct_match_in H :=
  match type of H with
  | context [match ?x with _ => _ end] => destruct x eqn:?
  | context [if ?x then _ else _] => destruct x eqn:?
  end.

Lemma saveNewReview_ok (user movie _id : ObjectId) (rating : option Q)
    (reviewText : option string) (now : Date) (db db1 : Db) (newReview : Review) :
  saveNewReview user movie _id rating reviewText now db = (inr newReview, db1) ->
  r_user newReview = user /\ r_movie newReview = movie
  /\ postSave newReview (with_reviews (reviews db ++ [newReview]) db) = (None, db1).
Proof.
  unfold saveNewReview.
  destruct (validateReview rating reviewText); [discriminate|].
  destruct rating as [q|]; [|discriminate].
  destruct reviewText as [text|]; [|discriminate].
  destruct (findById r_id _id (reviews db)); [discriminate|].
  destruct (postSave _ _) as [[e|] db2] eqn:E; [discriminate|].
  intros H. injection H as <- <-. cbn. auto.
Qed.

Lemma updateMovieRating_reviews (movieId : ObjectId) (db db2 : Db) (oe : option Exn) :
  updateMovieRating movieId db = (oe, db2) -> reviews db2 = reviews db.
Proof.
  unfold updateMovieRating. destruct (averageOf _); intros H;
    injection H as <- <-; reflexivity.
Qed.

Lemma postSave_reviews (this : Review) (db db2 : Db) (oe : option Exn) :
  postSave this db = (oe, db2) -> reviews db2 = reviews db.
Proof.
  unfold postSave. destruct (findById _ _ _); [|now intros H; injection H as <- <-].
  destruct (averageOf _); [|now intros H; injection H as <- <-].
  destruct (_ || _); intros H; injection H as <- <-; reflexivity.
Qed.

(** Whatever [saveNewReview] answers, the reviews are those of before, or
    those followed by the new review. *)
Lemma saveNewReview_reviews (user movie _id : ObjectId) (rating : option Q)
    (reviewText : option string) (now : Date) (db db1 : Db) (res : Exn + Review) :
  saveNewReview user movie _id rating reviewText now db = (res, db1) ->
  reviews db1 = reviews db
  \/ exists r, reviews db1 = (reviews db ++ [r])%list
               /\ r_user r = user /\ r_movie r = movie.
Proof.
  unfold saveNewReview.
  destruct (validateReview rating reviewText);
    [intros H; injection H as <- <-; now left|].
  destruct rating as [q|]; [|intros H; injection H as <- <-; now left].
  destruct reviewText as [text|]; [|intros H; injection H as <- <-; now left].
  destruct (findById r_id _id (reviews db));
    [intros H; injection H as <- <-; now left|].
  destruct (postSave _ _) as [oe db2] eqn:E.
  apply postSave_reviews in E. cbn [with_reviews reviews] in E.
  rename E into Hr.
  intros H. right. eexists. split; [|split].
  - destruct oe; injection H as <- <-; exact Hr.
  - reflexivity.
  - reflexivity.
Qed.

Lemma post_review_created (caller : ObjectId) (rq : ReviewRequest)
    (_id : ObjectId) (now : Date) (db db' : Db) (resp : Response) :
  post_review caller rq _id now db = (resp, db') ->
  status resp = 201 ->
  exists movie rating movieId newReview db1,
    rq_movie rq = Some movie /\ rq_rating rq = Some rating
    /\ Oid.cast movie = Some movieId
    /\ saveNewReview caller movieId _id (Some rating) (rq_reviewText rq) now db
       = (inr newReview, db1)
    /\ updateMovieRating movieId db1 = (None, db')
    /\ resp = reply 201 (ReviewBody "Review and rating added successfully" newReview).
Proof.
  unfold post_review. intros H Hs.
  repeat (destruct_match_in H;
          try (injection H as <- <-; cbn in Hs; discriminate)).
  injection H as <- <-. repeat eexists; eauto.
Qed.

Lemma saveReview_ok (review : Review) (db db1 : Db) :
  saveReview review db = (None, db1) ->
  reviews db1 = store r_id review (reviews db)
  /\ exists m, findById m_id (r_movie review) (movies db1) = Some m.
Proof.
  unfold saveReview. destruct (validateReview _ _); [discriminate|].
  intros H. apply postSave_ok in H as [Hr Hm]. split; [exact Hr | exact Hm].
Qed.

Lemma saveReview_reviews (review : Review) (db db1 : Db) (oe : option Exn) :
  saveReview review db = (oe, db1) ->
  reviews db1 = reviews db \/ reviews db1 = store r_id review (reviews db).
Proof.
  unfold saveReview. destruct (validateReview _ _).
  - intros H. injection H as <- <-. now left.
  - intros H. apply postSave_reviews in H. now right.
Qed.

Lemma put_review_updated (caller : ObjectId) (reviewId : string)
    (rq : ReviewRequest) (now : Date) (db db' : Db) (resp : Response) :
  put_review caller reviewId rq now db = (resp, db') ->
  status resp = 200 ->
  exists id review rating reviewText db1,
    Oid.cast reviewId = Some id
    /\ findById r_id id (reviews db) = Some review
    /\ r_user review = caller
    /\ saveReview (set_review rating reviewText now review) db = (None, db1)
    /\ updateMovieRating (r_movie review) db1 = (None, db')
    /\ resp = reply 200 (ReviewBody "Review updated successfully"
                           (set_review rating reviewText now review)).
Proof.
  unfold put_review. intros H Hs.
  destruct (negb (truthyNum (rq_rating rq)) && negb (truthyStr (rq_reviewText rq)));
    [injection H as <- <-; cbn in Hs; discriminate|].
  destruct (truthyNum (rq_rating rq) && _);
    [injection H as <- <-; cbn in Hs; discriminate|].
  destruct (Oid.cast reviewId) as [id|];
    [|injection H as <- <-; cbn in Hs; discriminate].
  destruct (findById r_id id (reviews db)) as [review|] eqn:Ef;
    [|injection H as <- <-; cbn in Hs; discriminate].
  destruct (negb (String.eqb (r_user review) caller)) eqn:Eu;
    [injection H as <- <-; cbn in Hs; discriminate|].
  apply negb_false_iff, String.eqb_eq in Eu.
  destruct (saveReview _ db) as [[e|] db1] eqn:Es;
    [injection H as <- <-; cbn in Hs; discriminate|].
  cbn [r_movie set_review] in H.
  destruct (updateMovieRating (r_movie review) db1) as [[e|] db2] eqn:Eu2;
    [injection H as <- <-; cbn in Hs; discriminate|].
  injection H as <- <-.
  do 5 eexists. repeat split; eauto.
Qed.

Lemma updateById_found_map {A B : Type} (id_of : A -> ObjectId) (g : A -> B)
    (id : ObjectId) (f : A -> A) (docs : list A) (d : A) :
  findById id_of id docs = Some d -> g (f d) = g d ->
  map g (updateById id_of id f docs) = map g docs.
Proof.
  intros Hf Hg. induction docs as [|x r IH]; cbn in *; [reflexivity|].
  destruct (String.eqb (id_of x) id) eqn:E; cbn.
  - injection Hf as ->. now rewrite Hg.
  - now rewrite IH.
Qed.

Lemma put_review_identity (caller : ObjectId) (reviewId : string)
    (rq : ReviewRequest) (now : Date) (db db' : Db) (resp : Response) :
  put_review caller reviewId rq now db = (resp, db') ->
  map identityOf (reviews db') = map identityOf (reviews db).
Proof.
  unfold put_review. intros H.
  destruct (negb (truthyNum (rq_rating rq)) && negb (truthyStr (rq_reviewText rq)));
    [now injection H as <- <-|].
  destruct (truthyNum (rq_rating rq) && _); [now injection H as <- <-|].
  destruct (Oid.cast reviewId) as [id|]; [|now injection H as <- <-].
  destruct (findById r_id id (reviews db)) as [review|] eqn:Ef;
    [|now injection H as <- <-].
  destruct (negb (String.eqb (r_user review) caller)); [now injection H as <- <-|].
  destruct (saveReview _ db) as [oe db1] eqn:Es.
  assert (Hid : map identityOf (reviews db1) = map identityOf (reviews db)).
  { apply saveReview_reviews in Es as [-> | ->]; [reflexivity|].
    unfold store. cbn [r_id set_review].
    apply findById_id in Ef as Hi. destruct Hi as [-> _].
    eapply updateById_found_map; [exact Ef | reflexivity]. }
  destruct oe as [e|]; [now injection H as <- <-|].
  destruct (updateMovieRating _ db1) as [oe2 db2] eqn:Eu.
  apply updateMovieRating_reviews in Eu.
  destruct oe2; injection H as <- <-; now rewrite Eu.
Qed.

Lemma pairs_of_identity (rs : list Review) :
  map (fun r => (r_user r, r_movie r)) rs
  = map (fun i => (snd (fst (fst i)), snd (fst i))) (map identityOf rs).
Proof. rewrite map_map. reflexivity. Qed.

Lemma find_reviewedBy (caller movieId : ObjectId) (db : Db) :
  reviewedBy caller movieId db <->
  find (fun r => String.eqb (r_user r) caller && String.eqb (r_movie r) movieId)
    (reviews db) <> None.
Proof.
  split.
  - intros (r & Hin & Hu & Hm) Hnone.
    apply (find_none _ _ Hnone) in Hin.
    subst. now rewrite !String.eqb_refl in Hin.
  - intros H. destruct (find _ _) as [r|] eqn:E; [|congruence].
    apply find_some in E as [Hin Hp].
    apply andb_true_iff in Hp as [Hu Hm].
    apply String.eqb_eq in Hu, Hm. exists r. auto.
Qed.

Lemma post_review_reviews (caller : ObjectId) (rq : ReviewRequest)
    (_id : ObjectId) (now : Date) (db db' : Db) (resp : Response) :
  post_review caller rq _id now db = (resp, db') ->
  reviews db' = reviews db
  \/ exists r, reviews db' = (reviews db ++ [r])%list
               /\ r_user r = caller /\ ~ reviewedBy caller (r_movie r) db.
Proof.
  unfold post_review. intros H.
  destruct (_ || _); [injection H as <- <-; now left|].
  destruct (rq_movie rq) as [movie|]; [|injection H as <- <-; now left].
  destruct (rq_rating rq) as [rating|]; [|injection H as <- <-; now left].
  destruct (_ || _); [injection H as <- <-; now left|].
  destruct (Oid.cast movie) as [movieId|]; [|injection H as <- <-; now left].
  destruct (findById m_id movieId (movies db)); [|injection H as <- <-; now left].
  destruct (findById u_id caller (users db)); [|injection H as <- <-; now left].
  destruct (find _ (reviews db)) eqn:Ef; [injection H as <- <-; now left|].
  assert (Hnew : ~ reviewedBy caller movieId db).
  { intros Hr. apply find_reviewedBy in Hr. congruence. }
  destruct (saveNewReview _ _ _ _ _ _ _) as [res db1] eqn:Es.
  apply saveNewReview_reviews in Es.
  assert (Hd : reviews db' = reviews db1).
  { destruct res as [err|newReview]; [now injection H as <- <-|].
    destruct (updateMovieRating movieId db1) as [oe db2] eqn:Eu.
    apply updateMovieRating_reviews in Eu.
    destruct oe; injection H as <- <-; exact Eu. }
  rewrite Hd. destruct Es as [Es | (r & Es & Hu & Hm)]; [now left|].
  right. exists r. subst. auto.
Qed.

(** ** The review claims *)

(** C1: after a review create ([post_review] answering 201) or a review
    update ([put_review] answering 200), the [averageRating] stored on the
    movie of the review is the unweighted arithmetic mean of the ratings of
    the reviews then stored whose movie is that movie, whatever reviews were
    there before. *)
Theorem C1_average_is_mean_after_write (caller : ObjectId) (rq : ReviewRequest)
    (_id : ObjectId) (reviewId : string) (now : Date) (db : Db) :
  (status (fst (post_review caller rq _id now db)) = 201 ->
   exists movie movieId m,
     rq_movie rq = Some movie /\ Oid.cast movie = Some movieId
     /\ findById m_id movieId (movies (snd (post_review caller rq _id now db)))
        = Some m
     /\ isMeanOf (m_averageRating m)
          (filter (fun r => String.eqb (r_movie r) movieId)
             (reviews (snd (post_review caller rq _id now db)))))
  /\ (status (fst (put_review caller reviewId rq now db)) = 200 ->
      exists id review m,
        Oid.cast reviewId = Some id
        /\ findById r_id id (reviews db) = Some review
        /\ findById m_id (r_movie review)
             (movies (snd (put_review caller reviewId rq now db))) = Some m
        /\ isMeanOf (m_averageRating m)
             (filter (fun r => String.eqb (r_movie r) (r_movie review))
                (reviews (snd (put_review caller reviewId rq now db))))).
Proof.
  split.
  - destruct (post_review caller rq _id now db) as [resp db'] eqn:E.
    cbn [fst snd]. intros Hs.
    destruct (post_review_created _ _ _ _ _ _ _ E Hs)
      as (movie & rating & movieId & newReview & db1 & Hm & _ & Hc & Hsave & Hupd & _).
    apply saveNewReview_ok in Hsave as (_ & Hrm & Hpost).
    apply postSave_ok in Hpost as [_ [m0 Hm0]]. rewrite Hrm in Hm0.
    destruct (updateMovieRating_ok _ _ _ _ Hupd Hm0) as [_ (m & Hf & Hmean)].
    exists movie, movieId, m. auto.
  - destruct (put_review caller reviewId rq now db) as [resp db'] eqn:E.
    cbn [fst snd]. intros Hs.
    destruct (put_review_updated _ _ _ _ _ _ _ E Hs)
      as (id & review & rating & text & db1 & Hc & Hf & _ & Hsave & Hupd & _).
    apply saveReview_ok in Hsave as [_ [m0 Hm0]]. cbn [r_movie set_review] in Hm0.
    destruct (updateMovieRating_ok _ _ _ _ Hupd Hm0) as [_ (m & Hfm & Hmean)].
    exists id, review, m. auto.
Qed.

Lemma C1_witness :
  (exists movie movieId m,
     rq_movie Sample.withText = Some movie /\ Oid.cast movie = Some movieId
     /\ findById m_id movieId
          (movies (snd (post_review Sample.alice Sample.withText Sample.fresh
                          1000 Sample.db))) = Some m
     /\ isMeanOf (m_averageRating m)
          (filter (fun r => String.eqb (r_movie r) movieId)
             (reviews
                (snd (post_review Sample.alice Sample.withText Sample.fresh 1000
                        Sample.db)))))
  /\ (exists id review m,
        Oid.cast Sample.reviewB = Some id
        /\ findById r_id id (reviews Sample.db) = Some review
        /\ findById m_id (r_movie review)
             (movies (snd (put_review Sample.alice Sample.reviewB Sample.withText
                             1000 Sample.db))) = Some m
        /\ isMeanOf (m_averageRating m)
             (filter (fun r => String.eqb (r_movie r) (r_movie review))
                (reviews
                   (snd (put_review Sample.alice Sample.reviewB Sample.withText
                           1000 Sample.db))))).
Proof.
  destruct (C1_average_is_mean_after_write Sample.alice Sample.withText
              Sample.fresh Sample.reviewB 1000 Sample.db) as [Hpost Hput].
  split; [apply Hpost; reflexivity | apply Hput; reflexivity].
Defined.

(** C2: for a logged-in user who has not reviewed the movie, the body
    [{ movie, rating: 4 }] without [reviewText] is answered 500 and nothing
    is stored, the review schema having [reviewText] required; with a text
    the same request is answered 201. *)
Theorem C2_review_without_text_fails :
  post_review Sample.alice Sample.ratingOnly Sample.fresh 1000 Sample.db
  = (reply 500 (Failure "Error adding review" (ValidationError "reviewText")),
     Sample.db)
  /\ fst (post_review Sample.alice Sample.withText Sample.fresh 1000 Sample.db)
     = reply 201
         (ReviewBody "Review and rating added successfully"
            {| r_id := Sample.fresh; r_user := Sample.alice;
               r_movie := Sample.movieA; r_rating := 4%Q;
               r_reviewText := "Great"; r_createdAt := 1000;
               r_updatedAt := 1000 |}).
Proof. split; reflexivity. Qed.

(** Without a review text no review is ever created. *)
Lemma post_review_needs_text (caller : ObjectId) (rq : ReviewRequest)
    (_id : ObjectId) (now : Date) (db : Db) :
  truthyStr (rq_reviewText rq) = false ->
  status (fst (post_review caller rq _id now db)) <> 201
  /\ snd (post_review caller rq _id now db) = db.
Proof.
  intros Ht. unfold post_review.
  destruct (_ || _); [cbn; split; [discriminate|reflexivity]|].
  destruct (rq_movie rq) as [movie|]; [|cbn; split; [discriminate|reflexivity]].
  destruct (rq_rating rq) as [rating|]; [|cbn; split; [discriminate|reflexivity]].
  destruct (Qltb rating 1 || Qltb 5 rating) eqn:Er;
    [cbn; split; [discriminate|reflexivity]|].
  destruct (Oid.cast movie); [|cbn; split; [discriminate|reflexivity]].
  destruct (findById m_id _ _); [|cbn; split; [discriminate|reflexivity]].
  destruct (findById u_id _ _); [|cbn; split; [discriminate|reflexivity]].
  destruct (find _ _); [cbn; split; [discriminate|reflexivity]|].
  unfold saveNewReview, validateReview. rewrite Er, Ht. cbn.
  split; [discriminate|reflexivity].
Qed.

Lemma in_range_not_zero (rating : Q) :
  Qltb rating 1 || Qltb 5 rating = false -> Qeq_bool rating 0 = false.
Proof.
  intros H. apply orb_false_iff in H as [H _].
  unfold Qltb in H. apply negb_false_iff, Qle_bool_iff in H.
  destruct (Qeq_bool rating 0) eqn:E; [|reflexivity].
  apply Qeq_bool_iff in E. rewrite E in H. unfold Qle in H. cbn in H. lia.
Qed.

(** C6: when a review by the caller for the movie is stored, a further
    [POST /api/reviews/] by the caller for that movie stores nothing and is
    answered 400 or 404: 400 "You have already reviewed this movie" when the
    rating is in range and movie and user still exist.  Create and update
    keep the (user, movie) pairs of the stored reviews distinct. *)
Theorem C6_one_review_per_user_and_movie (caller : ObjectId)
    (rq : ReviewRequest) (_id : ObjectId) (reviewId : string) (now : Date)
    (db : Db) (movie : string) (movieId : ObjectId) :
  rq_movie rq = Some movie -> Oid.cast movie = Some movieId ->
  (reviewedBy caller movieId db ->
   snd (post_review caller rq _id now db) = db
   /\ (status (fst (post_review caller rq _id now db)) = 400
       \/ status (fst (post_review caller rq _id now db)) = 404)
   /\ (forall rating,
         rq_rating rq = Some rating ->
         Qltb rating 1 || Qltb 5 rating = false ->
         findById m_id movieId (movies db) <> None ->
         findById u_id caller (users db) <> None ->
         fst (post_review caller rq _id now db)
         = reply 400 (Message "You have already reviewed this movie")))
  /\ (uniquePairs db ->
      uniquePairs (snd (post_review caller rq _id now db))
      /\ uniquePairs (snd (put_review caller reviewId rq now db))).
Proof.
  intros Hm Hc. split.
  - intros Hr. apply find_reviewedBy in Hr.
    unfold post_review. rewrite Hm, Hc.
    destruct (find _ (reviews db)) as [existing|]; [clear Hr|congruence].
    destruct (_ || _) eqn:E1; [cbn; repeat split; auto; intros; exfalso|].
    { cbn in E1. rewrite orb_true_iff in E1. destruct E1 as [E1|E1].
      - unfold Oid.cast in Hc. destruct movie; [discriminate|discriminate E1].
      - unfold truthyNum in E1. rewrite H in E1.
        rewrite (in_range_not_zero _ H0) in E1. discriminate. }
    destruct (rq_rating rq) as [rating|]; [|cbn; repeat split; auto; intros; discriminate].
    destruct (Qltb rating 1 || Qltb 5 rating) eqn:E2.
    { cbn. repeat split; auto. intros r Hr. injection Hr as <-. congruence. }
    destruct (findById m_id movieId (movies db)).
    2:{ cbn. repeat split; auto. intros; congruence. }
    destruct (findById u_id caller (users db)).
    2:{ cbn. repeat split; auto. intros; congruence. }
    cbn. repeat split; auto.
  - intros Hu. split.
    + destruct (post_review caller rq _id now db) as [resp db'] eqn:E.
      cbn [snd]. apply post_review_reviews in E.
      unfold uniquePairs in *.
      destruct E as [-> | (r & -> & Hru & Hnew)]; [exact Hu|].
      rewrite map_app. cbn [map].
      apply NoDup_app_remove_l with (l := []). cbn.
      apply Permutation.Permutation_NoDup with
        (l := (r_user r, r_movie r) :: map (fun r0 => (r_user r0, r_movie r0)) (reviews db)).
      * apply Permutation.Permutation_cons_append.
      * constructor; [|exact Hu].
        intros Hin. apply in_map_iff in Hin as (r0 & Heq & Hin0).
        injection Heq as Hu0 Hm0. apply Hnew. exists r0. subst. auto.
    + destruct (put_review caller reviewId rq now db) as [resp db'] eqn:E.
      cbn [snd]. apply put_review_identity in E.
      unfold uniquePairs in *. rewrite pairs_of_identity, E, <- pairs_of_identity.
      exact Hu.
Qed.

Lemma C6_witness :
  snd (post_review Sample.alice
         {| rq_movie := Some Sample.movieB; rq_rating := Some 5%Q;
            rq_reviewText := Some "Again" |} Sample.fresh 1000 Sample.db)
  = Sample.db
  /\ fst (post_review Sample.alice
            {| rq_movie := Some Sample.movieB; rq_rating := Some 5%Q;
               rq_reviewText := Some "Again" |} Sample.fresh 1000 Sample.db)
     = reply 400 (Message "You have already reviewed this movie")
  /\ uniquePairs
       (snd (post_review Sample.alice
               {| rq_movie := Some Sample.movieB; rq_rating := Some 5%Q;
                  rq_reviewText := Some "Again" |} Sample.fresh 1000 Sample.db)).
Proof.
  destruct (C6_one_review_per_user_and_movie Sample.alice
              {| rq_movie := Some Sample.movieB; rq_rating := Some 5%Q;
                 rq_reviewText := Some "Again" |} Sample.fresh Sample.reviewB
              1000 Sample.db Sample.movieB Sample.movieB eq_refl eq_refl)
    as [Hdup Huniq].
  assert (Hr : reviewedBy Sample.alice Sample.movieB Sample.db).
  { eexists. split; [left; reflexivity|]. split; reflexivity. }
  assert (Hu : uniquePairs Sample.db).
  { repeat constructor. intros []. }
  destruct (Hdup Hr) as (Hsame & _ & Hmsg).
  split; [exact Hsame|]. split.
  - apply (Hmsg 5%Q); [reflexivity | reflexivity | discriminate | discriminate].
  - exact (proj1 (Huniq Hu)).
Defined.

(** C9: for a well-formed movie id without stored reviews, both
    [GET /api/reviews/:movieId] and [GET /api/reviews/average/:movieId] answer
    404 "No reviews found for this movie". *)
Theorem C9_no_reviews_is_not_found (movieId : string) (movie : ObjectId)
    (db : Db) :
  Oid.cast movieId = Some movie ->
  (forall r, In r (reviews db) -> r_movie r <> movie) ->
  get_reviews movieId db = reply 404 (Message "No reviews found for this movie")
  /\ get_average movieId db
     = reply 404 (Message "No reviews found for this movie").
Proof.
  intros Hc Hnone.
  assert (E : reviewsOf movie db = []).
  { unfold reviewsOf. induction (reviews db) as [|r rs IH]; cbn; [reflexivity|].
    destruct (String.eqb (r_movie r) movie) eqn:Er.
    - apply String.eqb_eq in Er. exfalso. apply (Hnone r); [now left | exact Er].
    - apply IH. intros r0 Hin. apply Hnone. now right. }
  unfold get_reviews, get_average. rewrite Hc, E. split; reflexivity.
Qed.

Lemma C9_witness :
  get_reviews Sample.movieA Sample.db
  = reply 404 (Message "No reviews found for this movie")
  /\ get_average Sample.movieA Sample.db
     = reply 404 (Message "No reviews found for this movie").
Proof.
  apply (C9_no_reviews_is_not_found Sample.movieA Sample.movieA Sample.db eq_refl).
  intros r [<- | []]. discriminate.
Defined.

Lemma findById_replaced {A : Type} (id_of : A -> ObjectId) (id : ObjectId)
    (d x : A) (docs : list A) :
  id_of d = id -> findById id_of id docs = Some x ->
  findById id_of id (updateById id_of id (fun _ => d) docs) = Some d.
Proof.
  intros Hd. induction docs as [|y r IH]; cbn; [discriminate|].
  destruct (String.eqb (id_of y) id) eqn:E; cbn.
  - intros _. rewrite Hd, String.eqb_refl. reflexivity.
  - rewrite E. exact IH.
Qed.

(** C10: a [PUT /api/reviews/:reviewId] answered 200 replaces the stored
    review by one with the same id, user, movie and [createdAt] and with
    [updatedAt] set to the time of the request; id, user, movie and
    [createdAt] are the same as before on every stored review. *)
Theorem C10_update_keeps_user_movie_createdAt (caller : ObjectId)
    (reviewId : string) (rq : ReviewRequest) (now : Date) (db : Db) :
  status (fst (put_review caller reviewId rq now db)) = 200 ->
  exists id old new,
    Oid.cast reviewId = Some id
    /\ findById r_id id (reviews db) = Some old
    /\ findById r_id id (reviews (snd (put_review caller reviewId rq now db)))
       = Some new
    /\ identityOf new = identityOf old
    /\ r_updatedAt new = now
    /\ reviews (snd (put_review caller reviewId rq now db))
       = updateById r_id id (fun _ => new) (reviews db)
    /\ map identityOf (reviews (snd (put_review caller reviewId rq now db)))
       = map identityOf (reviews db).
Proof.
  destruct (put_review caller reviewId rq now db) as [resp db'] eqn:E.
  cbn [fst snd]. intros Hs.
  pose proof (put_review_identity _ _ _ _ _ _ _ E) as Hid.
  destruct (put_review_updated _ _ _ _ _ _ _ E Hs)
    as (id & review & rating & text & db1 & Hc & Hf & _ & Hsave & Hupd & _).
  apply saveReview_ok in Hsave as [Hr1 _].
  apply updateMovieRating_reviews in Hupd.
  apply findById_id in Hf as Hi. destruct Hi as [Hi _].
  assert (Hrev : reviews db'
                 = updateById r_id id
                     (fun _ => set_review rating text now review) (reviews db)).
  { rewrite Hupd, Hr1. unfold store. cbn [r_id set_review]. now rewrite Hi. }
  exists id, review, (set_review rating text now review).
  repeat split; auto.
  rewrite Hrev. eapply findById_replaced; [exact Hi | exact Hf].
Qed.

Lemma C10_witness :
  exists id old new,
    Oid.cast Sample.reviewB = Some id
    /\ findById r_id id (reviews Sample.db) = Some old
    /\ findById r_id id
         (reviews (snd (put_review Sample.alice Sample.reviewB Sample.withText
                          1000 Sample.db))) = Some new
    /\ identityOf new = identityOf old
    /\ r_updatedAt new = 1000
    /\ reviews (snd (put_review Sample.alice Sample.reviewB Sample.withText 1000
                       Sample.db))
       = updateById r_id id (fun _ => new) (reviews Sample.db)
    /\ map identityOf
         (reviews (snd (put_review Sample.alice Sample.reviewB Sample.withText
                          1000 Sample.db)))
       = map identityOf (reviews Sample.db).
Proof.
  apply (C10_update_keeps_user_movie_createdAt Sample.alice Sample.reviewB
           Sample.withText 1000 Sample.db).
  reflexivity.
Defined.

(** ** Reference checks *)

Lemma includes_In (s : string) (l : list string) :
  includes s l = true <-> In s l.
Proof.
  unfold includes. rewrite existsb_exists. split.
  - intros (x & Hin & He). apply String.eqb_eq in He. now subst.
  - intros Hin. exists s. split; [exact Hin | apply String.eqb_refl].
Qed.

Lemma castAll_length (ids : list string) (cids : list ObjectId) :
  Oid.castAll ids = Some cids -> List.length cids = List.length ids.
Proof.
  revert cids. induction ids as [|s r IH]; cbn; intros cids H.
  - now injection H as <-.
  - destruct (Oid.cast s); [|discriminate].
    destruct (Oid.castAll r) as [r'|]; [|discriminate].
    injection H as <-. cbn. f_equal. now apply IH.
Qed.

Lemma castAll_In (ids : list string) (cids : list ObjectId) (id : string) :
  Oid.castAll ids = Some cids -> In id ids ->
  exists c, Oid.cast id = Some c /\ In c cids.
Proof.
  revert cids. induction ids as [|s r IH]; cbn; intros cids H Hin; [tauto|].
  destruct (Oid.cast s) as [c|] eqn:Ec; [|discriminate].
  destruct (Oid.castAll r) as [r'|]; [|discriminate].
  injection H as <-. destruct Hin as [-> | Hin].
  - exists c. split; [exact Ec | now left].
  - destruct (IH r' eq_refl Hin) as (c' & Hc & Hin'). exists c'.
    split; [exact Hc | now right].
Qed.

Lemma castAll_valid (ids : list string) :
  forallb Oid.isValid ids = true -> Oid.castAll ids = Some (castValid ids).
Proof.
  induction ids as [|s r IH]; cbn; [reflexivity|].
  intros H. apply andb_true_iff in H as [Hs Hr].
  unfold Oid.cast. rewrite Hs, (IH Hr). reflexivity.
Qed.

Section Counting.
Context {A : Type} (id_of : A -> ObjectId).

Lemma NoDup_map_filter (f : A -> bool) (docs : list A) :
  NoDup (map id_of docs) -> NoDup (map id_of (filter f docs)).
Proof.
  induction docs as [|d r IH]; cbn; [auto|].
  intros Hnd. inversion Hnd as [|? ? Hnotin Hnd']; subst.
  destruct (f d); cbn; [|now apply IH].
  constructor; [|now apply IH].
  intros Hin. apply Hnotin. apply in_map_iff in Hin as (x & Hx & Hin).
  apply filter_In in Hin as [Hin _]. rewrite <- Hx. now apply in_map.
Qed.

(** With unique ids in the collection, a request that names an id the
    collection does not have finds fewer documents than it names ids. *)
Lemma findIn_short (ids : list string) (cids : list ObjectId)
    (docs : list A) (id : string) :
  NoDup (map id_of docs) ->
  Oid.castAll ids = Some cids ->
  In id ids -> ~ existsIn id_of docs id ->
  (List.length (findIn id_of cids docs) < List.length ids)%nat.
Proof.
  intros Hnd Hcast Hin Hmiss.
  destruct (castAll_In _ _ _ Hcast Hin) as (c & Hc & Hcin).
  rewrite <- (castAll_length _ _ Hcast).
  rewrite <- (length_map id_of).
  apply Nat.le_lt_trans with (List.length (remove string_dec c cids)).
  - apply NoDup_incl_length.
    + now apply NoDup_map_filter.
    + intros x Hx. apply in_map_iff in Hx as (d & <- & Hd).
      apply filter_In in Hd as [Hd Hinc]. apply includes_In in Hinc.
      apply in_in_remove; [|exact Hinc].
      intros E. apply Hmiss. exists d. split; [exact Hd|]. now rewrite Hc, E.
  - now apply remove_length_lt.
Qed.
End Counting.

Lemma missing_is_listed {A : Type} (id_of : A -> ObjectId) (docs : list A)
    (ids : list string) (id : string) :
  canonicalIds id_of docs ->
  Oid.isValid id = true -> In id ids -> ~ existsIn id_of docs id ->
  In id (missingFrom (map id_of (findIn id_of (castValid ids) docs)) ids).
Proof.
  intros Hcan Hv Hin Hmiss. unfold missingFrom. apply filter_In.
  split; [exact Hin|]. apply negb_true_iff.
  destruct (includes id _) eqn:E; [|reflexivity]. exfalso.
  apply includes_In, in_map_iff in E as (d & Hd & Hdin).
  apply filter_In in Hdin as [Hdin _].
  apply Hmiss. exists d. split; [exact Hdin|].
  unfold Oid.cast. rewrite Hv. f_equal.
  unfold canonicalIds in Hcan. rewrite Forall_forall in Hcan.
  rewrite <- Hd. now apply Hcan.
Qed.

Ltac rejected := split; [reflexivity | cbn; lia].

Lemma lengths_differ (n m : nat) : (n < m)%nat -> negb (n =? m)%nat = true.
Proof. intros H. apply negb_true_iff, Nat.eqb_neq. lia. Qed.

Lemma add_movie_rejects (getFullYear : Date -> Z) (role : string)
    (rq : MovieRequest) (_id : ObjectId) (now : Date) (db : Db) (id : string) :
  NoDup (map p_id (persons db)) ->
  In id (orEmpty (mq_directors rq) ++ orEmpty (mq_actors rq)) ->
  ~ existsIn p_id (persons db) id ->
  rejects (post_add_movie getFullYear role rq _id now db) db.
Proof.
  intros Hnd Hin Hmiss. unfold post_add_movie.
  destruct (negb (String.eqb role "admin")); [rejected|].
  destruct (_ || _); [rejected|].
  destruct (mq_title rq) as [title|]; [|rejected].
  destruct (mq_releaseDate rq) as [releaseDate|]; [|rejected].
  destruct (Oid.castAll (orEmpty (mq_directors rq))) as [directorIds|] eqn:Ed;
    [|rejected].
  destruct (negb (_ =? _)%nat) eqn:Ld; [rejected|].
  destruct (Oid.castAll (orEmpty (mq_actors rq))) as [actorIds|] eqn:Ea;
    [|rejected].
  destruct (negb (List.length (findIn p_id actorIds (persons db)) =? _)%nat) eqn:La;
    [rejected|].
  exfalso. apply in_app_or in Hin as [Hin | Hin].
  - rewrite (lengths_differ _ _ (findIn_short p_id _ _ _ _ Hnd Ed Hin Hmiss)) in Ld.
    discriminate.
  - rewrite (lengths_differ _ _ (findIn_short p_id _ _ _ _ Hnd Ea Hin Hmiss)) in La.
    discriminate.
Qed.

Lemma in_nonempty {A : Type} (x : A) (l : list A) :
  In x l -> (0 <? List.length l)%nat = true.
Proof. destruct l; [intros [] | reflexivity]. Qed.

Lemma put_movie_rejects (getFullYear : Date -> Z) (role id : string)
    (u : MovieUpdate) (db : Db) (ref : string) :
  NoDup (map p_id (persons db)) ->
  In ref (arrayOrEmpty (mu_directors u) ++ arrayOrEmpty (mu_actors u)) ->
  ~ existsIn p_id (persons db) ref ->
  rejects (put_movie getFullYear role id u db) db.
Proof.
  intros Hnd Hin Hmiss. unfold put_movie.
  destruct (negb (String.eqb role "admin")); [rejected|].
  destruct (Oid.cast id) as [movieId|]; [|rejected].
  destruct (noKeys u); [rejected|].
  destruct (negb (forallb Oid.isValid (arrayOrEmpty (mu_directors u)))) eqn:Vd;
    [rejected|].
  destruct (negb (forallb Oid.isValid (arrayOrEmpty (mu_actors u)))) eqn:Va;
    [rejected|].
  apply negb_false_iff in Vd, Va.
  destruct ((0 <? _)%nat && negb (_ =? _)%nat) eqn:Ld; [rejected|].
  destruct ((0 <? List.length (arrayOrEmpty (mu_actors u)))%nat && _) eqn:La;
    [rejected|].
  exfalso. apply in_app_or in Hin as [Hin | Hin].
  - rewrite (in_nonempty _ _ Hin) in Ld.
    rewrite (lengths_differ _ _
               (findIn_short p_id _ _ _ _ Hnd (castAll_valid _ Vd) Hin Hmiss)) in Ld.
    discriminate.
  - rewrite (in_nonempty _ _ Hin) in La.
    rewrite (lengths_differ _ _
               (findIn_short p_id _ _ _ _ Hnd (castAll_valid _ Va) Hin Hmiss)) in La.
    discriminate.
Qed.

Lemma not_valid_not_exists {A : Type} (id_of : A -> ObjectId) (docs : list A)
    (id : string) :
  Oid.isValid id = false -> ~ existsIn id_of docs id.
Proof.
  intros Hv (d & _ & Hc). unfold Oid.cast in Hc. rewrite Hv in Hc. discriminate.
Qed.

Lemma forallb_valid_In (ids : list string) (id : string) :
  forallb Oid.isValid ids = true -> In id ids -> Oid.isValid id = true.
Proof. intros H Hin. rewrite forallb_forall in H. now apply H. Qed.

Lemma add_news_rejects (role : string) (rq : NewsRequest) (_id : ObjectId)
    (now : Date) (db : Db) (id : string) :
  canonicalIds m_id (movies db) -> canonicalIds p_id (persons db) ->
  (In id (orEmpty (nq_relatedMovies rq)) /\ ~ existsIn m_id (movies db) id)
  \/ (In id (orEmpty (nq_relatedActors rq)) /\ ~ existsIn p_id (persons db) id) ->
  rejects (post_add_news role rq _id now db) db.
Proof.
  intros Hcm Hcp Hmiss. unfold post_add_news.
  destruct (negb (String.eqb role "admin")); [rejected|].
  destruct (negb (truthyStr (nq_title rq))); [rejected|].
  destruct (negb (truthyStr (nq_description rq))); [rejected|].
  destruct (negb (truthyStr (nq_content rq))); [rejected|].
  destruct (_ || _); [rejected|].
  destruct (negb (forallb Oid.isValid (orEmpty (nq_relatedMovies rq)))) eqn:Vm;
    [rejected|].
  destruct (0 <? List.length (invalidMovieIdsOf _ db))%nat eqn:Lm; [rejected|].
  destruct (negb (forallb Oid.isValid (orEmpty (nq_relatedActors rq)))) eqn:Va;
    [rejected|].
  destruct (0 <? List.length (checkObjectIdsExist _ db))%nat eqn:La; [rejected|].
  exfalso. apply negb_false_iff in Vm, Va.
  destruct Hmiss as [[Hin Hm] | [Hin Hm]].
  - pose proof (missing_is_listed m_id (movies db) _ id Hcm
                  (forallb_valid_In _ _ Vm Hin) Hin Hm) as Hl.
    apply in_nonempty in Hl. unfold invalidMovieIdsOf in Lm. congruence.
  - pose proof (missing_is_listed p_id (persons db) _ id Hcp
                  (forallb_valid_In _ _ Va Hin) Hin Hm) as Hl.
    apply in_nonempty in Hl. unfold checkObjectIdsExist in La. congruence.
Qed.

Lemma add_news_lists_missing (role : string) (rq : NewsRequest) (_id : ObjectId)
    (now : Date) (db : Db) (id : string) :
  canonicalIds m_id (movies db) ->
  String.eqb role "admin" = true ->
  truthyStr (nq_title rq) && truthyStr (nq_description rq)
  && truthyStr (nq_content rq) && truthyStr (nq_category rq) = true ->
  includes (match nq_category rq with Some c => c | None => "" end)
    validCategories = true ->
  forallb Oid.isValid (orEmpty (nq_relatedMovies rq)) = true ->
  In id (orEmpty (nq_relatedMovies rq)) -> ~ existsIn m_id (movies db) id ->
  In id (invalidMovieIdsOf (orEmpty (nq_relatedMovies rq)) db)
  /\ post_add_news role rq _id now db
     = (reply 400
          (Message ("The following related movie IDs do not exist: "
                    ++ join (invalidMovieIdsOf (orEmpty (nq_relatedMovies rq)) db))),
        db).
Proof.
  intros Hcm Hrole Hreq Hcat Hv Hin Hmiss.
  repeat (apply andb_true_iff in Hreq as [Hreq ?]).
  assert (Hl : In id (invalidMovieIdsOf (orEmpty (nq_relatedMovies rq)) db)).
  { exact (missing_is_listed m_id (movies db) _ id Hcm
             (forallb_valid_In _ _ Hv Hin) Hin Hmiss). }
  split; [exact Hl|].
  unfold post_add_news. rewrite Hrole, Hreq, H, H0, H1, Hcat, Hv. cbn [negb orb].
  rewrite (in_nonempty _ _ Hl). reflexivity.
Qed.

Lemma update_news_rejects (role id : string) (rq : NewsRequest) (db : Db)
    (ref : string) :
  canonicalIds p_id (persons db) ->
  In ref (orEmpty (nq_relatedActors rq)) -> ~ existsIn p_id (persons db) ref ->
  snd (put_update_news role id rq db) = db
  /\ match fst (put_update_news role id rq db) with
     | Some resp => 400 <= status resp
     | None => True
     end.
Proof.
  intros Hcp Hin Hmiss. unfold put_update_news.
  destruct (negb (String.eqb role "admin")); [rejected|].
  destruct (Oid.cast id) as [newsId|]; [|split; [reflexivity | exact I]].
  destruct (findById n_id newsId (news db)) as [newsArticle|]; [|rejected].
  destruct (truthyStr (nq_category rq) && _); [rejected|].
  destruct (negb (forallb Oid.isValid (orEmpty (nq_relatedMovies rq)))); [rejected|].
  destruct (0 <? List.length (checkObjectIdsExist (orEmpty (nq_relatedMovies rq)) db))%nat;
    [rejected|].
  destruct (negb (forallb Oid.isValid (orEmpty (nq_relatedActors rq)))) eqn:Va;
    [rejected|].
  destruct (_ && _); [rejected|].
  destruct (0 <? List.length (checkObjectIdsExist (orEmpty (nq_relatedActors rq)) db))%nat
    eqn:La; [rejected|].
  exfalso. apply negb_false_iff in Va.
  pose proof (missing_is_listed p_id (persons db) _ ref Hcp
                (forallb_valid_In _ _ Va Hin) Hin Hmiss) as Hl.
  apply in_nonempty in Hl. unfold checkObjectIdsExist in La. congruence.
Qed.

Lemma findById_existsIn {A : Type} (id_of : A -> ObjectId) (docs : list A)
    (id : string) (c : ObjectId) (d : A) :
  Oid.cast id = Some c -> findById id_of c docs = Some d ->
  existsIn id_of docs id.
Proof.
  intros Hc Hf. unfold findById in Hf. apply find_some in Hf as [Hin He].
  apply String.eqb_eq in He. exists d. split; [exact Hin|]. now rewrite Hc, He.
Qed.

Lemma list_add_movie_rejects (caller : ObjectId) (listId movieId : string)
    (db : Db) :
  ~ existsIn m_id (movies db) movieId ->
  rejects (post_list_add_movie caller listId (Some movieId) db) db
  /\ (Oid.isValid movieId = true ->
      fst (post_list_add_movie caller listId (Some movieId) db)
      = reply 404 (Message "Movie not found in the database")).
Proof.
  intros Hmiss. unfold post_list_add_movie.
  destruct (negb (truthyStr (Some movieId))) eqn:Et.
  { split; [rejected|]. intros Hv. exfalso.
    cbn in Et. apply negb_true_iff, negb_false_iff, String.eqb_eq in Et.
    subst. discriminate Hv. }
  destruct (Oid.cast movieId) as [movie|] eqn:Ec.
  - destruct (findById m_id movie (movies db)) as [d|] eqn:Ef.
    + exfalso. apply Hmiss. eapply findById_existsIn; eauto.
    + split; [rejected | reflexivity].
  - split; [rejected|]. intros Hv. unfold Oid.cast in Ec. rewrite Hv in Ec.
    discriminate.
Qed.

(** *** The ids a message names *)

Lemma wellFormed_forallb (ids : list string) :
  wellFormed ids -> forallb Oid.isValid ids = true.
Proof.
  unfold wellFormed. rewrite Forall_forall, forallb_forall. auto.
Qed.

Lemma wellFormed_app (l r : list string) :
  wellFormed (l ++ r) -> wellFormed l /\ wellFormed r.
Proof. unfold wellFormed. apply Forall_app. Qed.

(** With the stored ids in canonical form, the ids the handlers find
    missing are the ids of the request that are not, as they are written,
    the id of a stored document. *)
Lemma missingFrom_notStored {A : Type} (id_of : A -> ObjectId) (docs : list A)
    (ids : list string) :
  canonicalIds id_of docs ->
  missingFrom (map id_of (findIn id_of (castValid ids) docs)) ids
  = notStored id_of docs ids.
Proof.
  intros Hcan. unfold missingFrom, notStored. apply filter_ext_in.
  intros id Hin.
  destruct (in_dec string_dec id (map id_of docs)) as [Hs | Hs].
  - apply negb_false_iff, includes_In.
    apply in_map_iff in Hs as (d & Hd & Hdin).
    apply in_map_iff. exists d. split; [exact Hd|].
    apply filter_In. split; [exact Hdin|]. apply includes_In.
    unfold canonicalIds in Hcan. rewrite Forall_forall in Hcan.
    rewrite <- (Hcan d Hdin), Hd. unfold castValid. now apply in_map.
  - apply negb_true_iff. destruct (includes id _) eqn:E; [|reflexivity].
    exfalso. apply Hs. apply includes_In, in_map_iff in E as (d & Hd & Hdin).
    apply filter_In in Hdin as [Hdin _]. rewrite <- Hd. now apply in_map.
Qed.

Lemma missing_notStored {A : Type} (id_of : A -> ObjectId) (docs : list A)
    (ids : list string) (id : string) :
  canonicalIds id_of docs -> wellFormed ids ->
  In id ids -> ~ existsIn id_of docs id ->
  In id (notStored id_of docs ids).
Proof.
  intros Hcan Hwf Hin Hmiss.
  rewrite <- (missingFrom_notStored id_of docs ids Hcan).
  apply missing_is_listed; auto.
  unfold wellFormed in Hwf. rewrite Forall_forall in Hwf. auto.
Qed.

(** *** The answers to a request that is acceptable but for the reference *)

Lemma completeMovie_checks (rq : MovieRequest) :
  completeMovie rq ->
  negb (truthyStr (mq_title rq)) || negb (truthyArr (mq_genre rq))
  || negb (truthyArr (mq_directors rq)) || negb (isSome (mq_releaseDate rq))
  || negb (truthyNum (mq_runtime rq)) || negb (truthyArr (mq_actors rq))
  || negb (truthyStr (mq_ageRating rq))
  || negb (truthyStr (mq_countryOfOrigin rq))
  || negb (truthyStr (mq_language rq)) = false.
Proof.
  intros (Ht & Hg & Hd & Hr & Hn & Ha & Hage & Hc & Hl).
  rewrite Ht, Hn, Hage, Hc, Hl.
  destruct (mq_genre rq); [|congruence].
  destruct (mq_directors rq); [|congruence].
  destruct (mq_releaseDate rq); [|congruence].
  destruct (mq_actors rq); [|congruence].
  reflexivity.
Qed.

Lemma add_movie_answer (getFullYear : Date -> Z) (rq : MovieRequest)
    (_id : ObjectId) (now : Date) (db : Db) (id : string) :
  NoDup (map p_id (persons db)) ->
  completeMovie rq ->
  wellFormed (orEmpty (mq_directors rq) ++ orEmpty (mq_actors rq)) ->
  In id (orEmpty (mq_directors rq) ++ orEmpty (mq_actors rq)) ->
  ~ existsIn p_id (persons db) id ->
  post_add_movie getFullYear "admin" rq _id now db
  = (reply 400 (Message "One or more directors do not exist"), db)
  \/ post_add_movie getFullYear "admin" rq _id now db
     = (reply 400 (Message "One or more cast members do not exist"), db).
Proof.
  intros Hnd Hcomplete Hwf Hin Hmiss.
  apply wellFormed_app in Hwf as [Hwd Hwa].
  pose proof (castAll_valid _ (wellFormed_forallb _ Hwd)) as Ed.
  pose proof (castAll_valid _ (wellFormed_forallb _ Hwa)) as Ea.
  unfold post_add_movie. rewrite String.eqb_refl. cbn [negb].
  rewrite (completeMovie_checks rq Hcomplete).
  destruct Hcomplete as (Ht & _ & _ & Hr & _).
  destruct (mq_title rq) as [title|]; [|discriminate Ht].
  destruct (mq_releaseDate rq) as [releaseDate|]; [|congruence].
  cbv zeta. rewrite Ed.
  destruct (negb (_ =? _)%nat) eqn:Ld; [now left|].
  rewrite Ea.
  destruct (negb (List.length
                    (findIn p_id (castValid (orEmpty (mq_actors rq)))
                       (persons db)) =? _)%nat) eqn:La;
    [now right|].
  exfalso. apply in_app_or in Hin as [Hin | Hin].
  - rewrite (lengths_differ _ _ (findIn_short p_id _ _ _ _ Hnd Ed Hin Hmiss)) in Ld.
    discriminate.
  - rewrite (lengths_differ _ _ (findIn_short p_id _ _ _ _ Hnd Ea Hin Hmiss)) in La.
    discriminate.
Qed.

Lemma arrayOrEmpty_isSome (x : option OneOrMany) (id : string) :
  In id (arrayOrEmpty x) -> isSome x = true.
Proof. destruct x; [reflexivity | intros []]. Qed.

Lemma noKeys_references (u : MovieUpdate) (id : string) :
  In id (arrayOrEmpty (mu_directors u) ++ arrayOrEmpty (mu_actors u)) ->
  noKeys u = false.
Proof.
  intros Hin. unfold noKeys. apply andb_false_iff. left.
  apply negb_false_iff.
  apply in_app_or in Hin as [Hin | Hin];
    apply arrayOrEmpty_isSome in Hin; rewrite Hin;
    now rewrite ?orb_true_r, ?orb_true_l.
Qed.

Lemma put_movie_answer (getFullYear : Date -> Z) (id : string)
    (u : MovieUpdate) (db : Db) (ref : string) :
  NoDup (map p_id (persons db)) ->
  Oid.isValid id = true ->
  wellFormed (arrayOrEmpty (mu_directors u) ++ arrayOrEmpty (mu_actors u)) ->
  In ref (arrayOrEmpty (mu_directors u) ++ arrayOrEmpty (mu_actors u)) ->
  ~ existsIn p_id (persons db) ref ->
  put_movie getFullYear "admin" id u db
  = (reply 400 (Message "One or more directors do not exist"), db)
  \/ put_movie getFullYear "admin" id u db
     = (reply 400 (Message "One or more actors do not exist"), db).
Proof.
  intros Hnd Hv Hwf Hin Hmiss.
  pose proof (noKeys_references u ref Hin) as Hk.
  apply wellFormed_app in Hwf as [Hwd Hwa].
  apply wellFormed_forallb in Hwd, Hwa.
  unfold put_movie. rewrite String.eqb_refl. cbn [negb].
  unfold Oid.cast. rewrite Hv, Hk. cbv zeta. rewrite Hwd, Hwa. cbn [negb].
  destruct ((0 <? _)%nat && negb (_ =? _)%nat) eqn:Ld; [now left|].
  destruct ((0 <? List.length (arrayOrEmpty (mu_actors u)))%nat && _) eqn:La;
    [now right|].
  exfalso. apply in_app_or in Hin as [Hin | Hin].
  - rewrite (in_nonempty _ _ Hin) in Ld.
    rewrite (lengths_differ _ _
               (findIn_short p_id _ _ _ _ Hnd (castAll_valid _ Hwd) Hin Hmiss)) in Ld.
    discriminate.
  - rewrite (in_nonempty _ _ Hin) in La.
    rewrite (lengths_differ _ _
               (findIn_short p_id _ _ _ _ Hnd (castAll_valid _ Hwa) Hin Hmiss)) in La.
    discriminate.
Qed.

Lemma valid_category (c : string) :
  In c validCategories ->
  truthyStr (Some c) = true /\ includes c validCategories = true.
Proof.
  intros Hin. split; [|now apply includes_In].
  destruct Hin as [<- | [<- | [<- | [<- | [<- | []]]]]]; reflexivity.
Qed.

Lemma add_news_names_movies (rq : NewsRequest) (_id : ObjectId) (now : Date)
    (db : Db) (id : string) :
  canonicalIds m_id (movies db) ->
  completeNews rq -> wellFormed (orEmpty (nq_relatedMovies rq)) ->
  In id (orEmpty (nq_relatedMovies rq)) -> ~ existsIn m_id (movies db) id ->
  In id (notStored m_id (movies db) (orEmpty (nq_relatedMovies rq)))
  /\ post_add_news "admin" rq _id now db
     = (reply 400
          (Message ("The following related movie IDs do not exist: "
                    ++ String.concat ", "
                         (notStored m_id (movies db)
                            (orEmpty (nq_relatedMovies rq))))),
        db).
Proof.
  intros Hcm (Ht & Hd & Hc & (c & Ecat & Hcat)) Hwf Hin Hmiss.
  pose proof (missing_notStored m_id (movies db) _ id Hcm Hwf Hin Hmiss) as Hl.
  split; [exact Hl|].
  destruct (valid_category c Hcat) as [Htc Hic].
  unfold post_add_news. rewrite String.eqb_refl. cbn [negb].
  rewrite Ht, Hd, Hc, Ecat, Htc, Hic. cbn [negb orb].
  rewrite (wellFormed_forallb _ Hwf). cbn [negb]. cbv zeta.
  unfold invalidMovieIdsOf. rewrite (missingFrom_notStored m_id _ _ Hcm).
  now rewrite (in_nonempty _ _ Hl).
Qed.

Lemma add_news_names_actors (rq : NewsRequest) (_id : ObjectId) (now : Date)
    (db : Db) (id : string) :
  canonicalIds m_id (movies db) -> canonicalIds p_id (persons db) ->
  completeNews rq -> wellFormed (orEmpty (nq_relatedMovies rq)) ->
  notStored m_id (movies db) (orEmpty (nq_relatedMovies rq)) = [] ->
  wellFormed (orEmpty (nq_relatedActors rq)) ->
  In id (orEmpty (nq_relatedActors rq)) -> ~ existsIn p_id (persons db) id ->
  In id (notStored p_id (persons db) (orEmpty (nq_relatedActors rq)))
  /\ post_add_news "admin" rq _id now db
     = (reply 400
          (Message ("The following related actor IDs do not exist: "
                    ++ String.concat ", "
                         (notStored p_id (persons db)
                            (orEmpty (nq_relatedActors rq))))),
        db).
Proof.
  intros Hcm Hcp (Ht & Hd & Hc & (c & Ecat & Hcat)) Hwm Hnone Hwa Hin Hmiss.
  pose proof (missing_notStored p_id (persons db) _ id Hcp Hwa Hin Hmiss) as Hl.
  split; [exact Hl|].
  destruct (valid_category c Hcat) as [Htc Hic].
  unfold post_add_news. rewrite String.eqb_refl. cbn [negb].
  rewrite Ht, Hd, Hc, Ecat, Htc, Hic. cbn [negb orb].
  rewrite (wellFormed_forallb _ Hwm). cbn [negb]. cbv zeta.
  unfold invalidMovieIdsOf. rewrite (missingFrom_notStored m_id _ _ Hcm), Hnone.
  cbn [List.length Nat.ltb Nat.leb].
  rewrite (wellFormed_forallb _ Hwa). cbn [negb].
  unfold checkObjectIdsExist. rewrite (missingFrom_notStored p_id _ _ Hcp).
  destruct (notStored p_id (persons db) (orEmpty (nq_relatedActors rq)));
    [destruct Hl | reflexivity].
Qed.

Lemma update_news_answered (role id : string) (rq : NewsRequest) (db : Db)
    (ref : string) :
  canonicalIds p_id (persons db) ->
  In ref (orEmpty (nq_relatedActors rq)) -> ~ existsIn p_id (persons db) ref ->
  snd (put_update_news role id rq db) = db
  /\ (Oid.isValid id = true ->
      exists resp, fst (put_update_news role id rq db) = Some resp
                   /\ 400 <= status resp).
Proof.
  intros Hcp Hin Hmiss.
  destruct (update_news_rejects role id rq db ref Hcp Hin Hmiss) as [Hdb Hst].
  split; [exact Hdb|]. intros Hv.
  destruct (fst (put_update_news role id rq db)) as [resp|] eqn:E; [eauto|].
  exfalso. revert E. unfold put_update_news.
  destruct (negb (String.eqb role "admin")); [discriminate|].
  unfold Oid.cast. rewrite Hv.
  destruct (findById n_id _ (news db)); [|discriminate].
  repeat (match goal with
          | |- context [if ?c then _ else _] => destruct c; [discriminate|]
          end).
  discriminate.
Qed.

Lemma update_news_names_actors (id : string) (newsId : ObjectId)
    (article : News) (rq : NewsRequest) (db : Db) (ref : string) :
  canonicalIds p_id (persons db) ->
  Oid.cast id = Some newsId ->
  findById n_id newsId (news db) = Some article ->
  categoryAcceptable rq ->
  wellFormed (orEmpty (nq_relatedMovies rq)) ->
  notStored p_id (persons db) (orEmpty (nq_relatedMovies rq)) = [] ->
  wellFormed (orEmpty (nq_relatedActors rq)) ->
  In ref (orEmpty (nq_relatedActors rq)) -> ~ existsIn p_id (persons db) ref ->
  In ref (notStored p_id (persons db) (orEmpty (nq_relatedActors rq)))
  /\ put_update_news "admin" id rq db
     = (Some (reply 400
                (Message ("The following related actor IDs do not exist: "
                          ++ String.concat ", "
                               (notStored p_id (persons db)
                                  (orEmpty (nq_relatedActors rq)))))),
        db).
Proof.
  intros Hcp Hc Hf Hcat Hwm Hnone Hwa Hin Hmiss.
  pose proof (missing_notStored p_id (persons db) _ ref Hcp Hwa Hin Hmiss) as Hl.
  split; [exact Hl|].
  assert (Hcheck : truthyStr (nq_category rq)
                   && negb (includes (match nq_category rq with
                                      | Some c => c
                                      | None => ""
                                      end) validCategories) = false).
  { unfold categoryAcceptable in Hcat.
    destruct (nq_category rq) as [c|]; [|reflexivity].
    destruct Hcat as [-> | Hv]; [reflexivity|].
    destruct (valid_category c Hv) as [_ ->]. apply andb_false_r. }
  assert (Hactors : truthyArr (nq_relatedActors rq) = true).
  { destruct (nq_relatedActors rq); [reflexivity | destruct Hin]. }
  unfold put_update_news. rewrite String.eqb_refl. cbn [negb].
  rewrite Hc, Hf, Hcheck.
  rewrite (wellFormed_forallb _ Hwm). cbn [negb]. cbv zeta.
  unfold checkObjectIdsExist. rewrite !(missingFrom_notStored p_id _ _ Hcp).
  rewrite Hnone. cbn [List.length Nat.ltb Nat.leb].
  rewrite (wellFormed_forallb _ Hwa), Hactors. cbn [negb].
  rewrite !andb_false_r.
  destruct (notStored p_id (persons db) (orEmpty (nq_relatedActors rq)));
    [destruct Hl | reflexivity].
Qed.

(** C4, amended: let [ref] be an id of the request that denotes no document
    of the referenced collection.  Creating and updating a movie (director
    and actor ids, in Persons), creating a news article (movie ids in
    Movies, actor ids in Persons) and adding a movie to a custom list (in
    Movies) answer with an error status and leave the database as it was;
    so does updating a news article (actor ids, in Persons), which gives no
    answer at all when the id of the article is malformed.  When the request
    is acceptable but for the reference, the movie handlers answer 400 with
    a message that names no id, the news handlers answer 400 with a message
    that names the ids of the request that are no stored id, [ref] among
    them, and the custom list answers 404. *)
Theorem C4_missing_reference_is_rejected (getFullYear : Date -> Z)
    (caller : ObjectId) (movieRq : MovieRequest) (movieUp : MovieUpdate)
    (newsRq : NewsRequest) (target listId : string) (_id : ObjectId)
    (now : Date) (db : Db) (ref : string) :
  NoDup (map p_id (persons db)) ->
  canonicalIds m_id (movies db) -> canonicalIds p_id (persons db) ->
  (In ref (orEmpty (mq_directors movieRq) ++ orEmpty (mq_actors movieRq)) ->
   ~ existsIn p_id (persons db) ref ->
   (forall role,
       rejects (post_add_movie getFullYear role movieRq _id now db) db)
   /\ (completeMovie movieRq ->
       wellFormed (orEmpty (mq_directors movieRq)
                   ++ orEmpty (mq_actors movieRq)) ->
       post_add_movie getFullYear "admin" movieRq _id now db
       = (reply 400 (Message "One or more directors do not exist"), db)
       \/ post_add_movie getFullYear "admin" movieRq _id now db
          = (reply 400 (Message "One or more cast members do not exist"), db)))
  /\ (In ref (arrayOrEmpty (mu_directors movieUp)
              ++ arrayOrEmpty (mu_actors movieUp)) ->
      ~ existsIn p_id (persons db) ref ->
      (forall role, rejects (put_movie getFullYear role target movieUp db) db)
      /\ (Oid.isValid target = true ->
          wellFormed (arrayOrEmpty (mu_directors movieUp)
                      ++ arrayOrEmpty (mu_actors movieUp)) ->
          put_movie getFullYear "admin" target movieUp db
          = (reply 400 (Message "One or more directors do not exist"), db)
          \/ put_movie getFullYear "admin" target movieUp db
             = (reply 400 (Message "One or more actors do not exist"), db)))
  /\ (In ref (orEmpty (nq_relatedMovies newsRq)) ->
      ~ existsIn m_id (movies db) ref ->
      (forall role, rejects (post_add_news role newsRq _id now db) db)
      /\ (completeNews newsRq ->
          wellFormed (orEmpty (nq_relatedMovies newsRq)) ->
          In ref (notStored m_id (movies db) (orEmpty (nq_relatedMovies newsRq)))
          /\ post_add_news "admin" newsRq _id now db
             = (reply 400
                  (Message
                     ("The following related movie IDs do not exist: "
                      ++ String.concat ", "
                           (notStored m_id (movies db)
                              (orEmpty (nq_relatedMovies newsRq))))),
                db)))
  /\ (In ref (orEmpty (nq_relatedActors newsRq)) ->
      ~ existsIn p_id (persons db) ref ->
      (forall role, rejects (post_add_news role newsRq _id now db) db)
      /\ (completeNews newsRq ->
          wellFormed (orEmpty (nq_relatedMovies newsRq)) ->
          notStored m_id (movies db) (orEmpty (nq_relatedMovies newsRq)) = [] ->
          wellFormed (orEmpty (nq_relatedActors newsRq)) ->
          In ref (notStored p_id (persons db) (orEmpty (nq_relatedActors newsRq)))
          /\ post_add_news "admin" newsRq _id now db
             = (reply 400
                  (Message
                     ("The following related actor IDs do not exist: "
                      ++ String.concat ", "
                           (notStored p_id (persons db)
                              (orEmpty (nq_relatedActors newsRq))))),
                db))
      /\ (forall role,
            snd (put_update_news role target newsRq db) = db
            /\ (Oid.isValid target = true ->
                exists resp,
                  fst (put_update_news role target newsRq db) = Some resp
                  /\ 400 <= status resp))
      /\ (forall newsId article,
            Oid.cast target = Some newsId ->
            findById n_id newsId (news db) = Some article ->
            categoryAcceptable newsRq ->
            wellFormed (orEmpty (nq_relatedMovies newsRq)) ->
            notStored p_id (persons db) (orEmpty (nq_relatedMovies newsRq)) = [] ->
            wellFormed (orEmpty (nq_relatedActors newsRq)) ->
            In ref (notStored p_id (persons db)
                      (orEmpty (nq_relatedActors newsRq)))
            /\ put_update_news "admin" target newsRq db
               = (Some (reply 400
                          (Message
                             ("The following related actor IDs do not exist: "
                              ++ String.concat ", "
                                   (notStored p_id (persons db)
                                      (orEmpty (nq_relatedActors newsRq)))))),
                  db)))
  /\ (~ existsIn m_id (movies db) ref ->
      rejects (post_list_add_movie caller listId (Some ref) db) db
      /\ (Oid.isValid ref = true ->
          fst (post_list_add_movie caller listId (Some ref) db)
          = reply 404 (Message "Movie not found in the database"))).
Proof.
  intros Hnd Hcm Hcp.
  split.
  { intros Hin Hm. split.
    - intros role. exact (add_movie_rejects _ _ _ _ _ _ _ Hnd Hin Hm).
    - intros Hc Hwf. exact (add_movie_answer _ _ _ _ _ _ Hnd Hc Hwf Hin Hm). }
  split.
  { intros Hin Hm. split.
    - intros role. exact (put_movie_rejects _ _ _ _ _ _ Hnd Hin Hm).
    - intros Hv Hwf. exact (put_movie_answer _ _ _ _ _ Hnd Hv Hwf Hin Hm). }
  split.
  { intros Hin Hm. split.
    - intros role.
      apply (add_news_rejects role newsRq _id now db ref Hcm Hcp). left. auto.
    - intros Hc Hwf.
      exact (add_news_names_movies _ _ _ _ _ Hcm Hc Hwf Hin Hm). }
  split.
  { intros Hin Hm. split.
    - intros role.
      apply (add_news_rejects role newsRq _id now db ref Hcm Hcp). right. auto.
    - split.
      + intros Hc Hwm Hnone Hwa.
        exact (add_news_names_actors _ _ _ _ _ Hcm Hcp Hc Hwm Hnone Hwa Hin Hm).
      + split.
        * intros role. exact (update_news_answered _ _ _ _ _ Hcp Hin Hm).
        * intros newsId article Hc Hf Hcat Hwm Hnone Hwa.
          exact (update_news_names_actors _ _ _ _ _ _ Hcp Hc Hf Hcat Hwm Hnone
                   Hwa Hin Hm). }
  intros Hm. exact (list_add_movie_rejects _ _ _ _ Hm).
Qed.

Lemma ghost_is_no_person : ~ existsIn p_id (persons Sample.db) Sample.ghost.
Proof. intros (d & [<- | []] & Hc). discriminate Hc. Qed.

Lemma ghost_is_no_movie : ~ existsIn m_id (movies Sample.db) Sample.ghost.
Proof. intros (d & [<- | [<- | []]] & Hc); discriminate Hc. Qed.

Lemma C4_witness :
  post_add_movie (fun _ => 1998) "admin" SampleRequests.addMovie Sample.fresh
    1000 Sample.db
  = (reply 400 (Message "One or more directors do not exist"), Sample.db)
  /\ put_movie (fun _ => 1998) "admin" Sample.movieA SampleRequests.updateMovie
       Sample.db
     = (reply 400 (Message "One or more actors do not exist"), Sample.db)
  /\ post_add_news "admin" SampleRequests.addNews Sample.fresh 1000 Sample.db
     = (reply 400
          (Message
             "The following related movie IDs do not exist: 507f1f77bcf86cd7994390ff"),
        Sample.db)
  /\ post_add_news "admin" SampleRequests.completeActorNews Sample.fresh 1000
       Sample.db
     = (reply 400
          (Message
             "The following related actor IDs do not exist: 507f1f77bcf86cd7994390ff"),
        Sample.db)
  /\ put_update_news "admin" Sample.newsA SampleRequests.actorNews Sample.db
     = (Some (reply 400
                (Message
                   "The following related actor IDs do not exist: 507f1f77bcf86cd7994390ff")),
        Sample.db)
  /\ fst (post_list_add_movie Sample.alice Sample.listA (Some Sample.ghost)
            Sample.db)
     = reply 404 (Message "Movie not found in the database").
Proof.
  assert (Hnd : NoDup (map p_id (persons Sample.db))).
  { repeat constructor. intros []. }
  assert (Hcm : canonicalIds m_id (movies Sample.db)).
  { repeat constructor. }
  assert (Hcp : canonicalIds p_id (persons Sample.db)).
  { repeat constructor. }
  destruct (C4_missing_reference_is_rejected (fun _ => 1998) Sample.alice
              SampleRequests.addMovie SampleRequests.updateMovie
              SampleRequests.addNews Sample.movieA Sample.listA Sample.fresh 1000
              Sample.db Sample.ghost Hnd Hcm Hcp)
    as (Hadd & Hput & Hnews & _ & Hlist).
  destruct (C4_missing_reference_is_rejected (fun _ => 1998) Sample.alice
              SampleRequests.addMovie SampleRequests.updateMovie
              SampleRequests.completeActorNews Sample.newsA Sample.listA
              Sample.fresh 1000 Sample.db Sample.ghost Hnd Hcm Hcp)
    as (_ & _ & _ & Hcreate & _).
  destruct (C4_missing_reference_is_rejected (fun _ => 1998) Sample.alice
              SampleRequests.addMovie SampleRequests.updateMovie
              SampleRequests.actorNews Sample.newsA Sample.listA
              Sample.fresh 1000 Sample.db Sample.ghost Hnd Hcm Hcp)
    as (_ & _ & _ & Hupdate & _).
  split.
  { destruct (Hadd (or_introl eq_refl) ghost_is_no_person) as [_ Hexact].
    destruct Hexact as [H | H].
    - repeat split; try reflexivity; discriminate.
    - repeat constructor.
    - exact H.
    - vm_compute in H. discriminate H. }
  split.
  { destruct (Hput (or_introl eq_refl) ghost_is_no_person) as [_ Hexact].
    destruct (Hexact eq_refl) as [H | H].
    - repeat constructor.
    - vm_compute in H. discriminate H.
    - exact H. }
  split.
  { destruct (Hnews (or_intror (or_introl eq_refl)) ghost_is_no_movie)
      as [_ Hexact].
    refine (proj2 (Hexact _ _)).
    - repeat split; try reflexivity. exists "Movies". split; [reflexivity | now left].
    - repeat constructor. }
  split.
  { destruct (Hcreate (or_introl eq_refl) ghost_is_no_person)
      as (_ & Hexact & _).
    refine (proj2 (Hexact _ _ eq_refl _)).
    - repeat split; try reflexivity.
      exists "Actors". split; [reflexivity | right; now left].
    - repeat constructor.
    - repeat constructor. }
  split.
  { destruct (Hupdate (or_introl eq_refl) ghost_is_no_person)
      as (_ & _ & _ & Hexact).
    refine (proj2 (Hexact Sample.newsA _ eq_refl eq_refl I _ eq_refl _)).
    - constructor.
    - repeat constructor. }
  exact (proj2 (Hlist ghost_is_no_movie) eq_refl).
Defined.

(** C4 fails as stated: [POST /api/wishlist/add] with the id of no movie is
    answered 200 and the id is appended to the wishlist; and the answer of
    the movie creation to an unknown director names no id. *)
Lemma C4_wishlist_accepts_unknown_movie :
  ~ existsIn m_id (movies Sample.db) Sample.ghost
  /\ status (fst (post_wishlist_add Sample.alice (Some Sample.ghost) Sample.db))
     = 200
  /\ option_map u_wishlist
       (findById u_id Sample.alice
          (users (snd (post_wishlist_add Sample.alice (Some Sample.ghost)
                         Sample.db))))
     = Some [Sample.ghost]
  /\ ~ rejects (post_wishlist_add Sample.alice (Some Sample.ghost) Sample.db)
        Sample.db
  /\ fst (post_add_movie (fun _ => 1998) "admin" SampleRequests.addMovie
            Sample.fresh 1000 Sample.db)
     = reply 400 (Message "One or more directors do not exist").
Proof.
  split; [exact ghost_is_no_movie|]. split; [reflexivity|].
  split; [reflexivity|]. split; [|reflexivity].
  intros [_ Hs]. vm_compute in Hs. apply Hs. reflexivity.
Qed.

(** ** The notification job *)

Lemma NoDup_map_eq {A B : Type} (f : A -> B) (l : list A) (x y : A) :
  NoDup (map f l) -> In x l -> In y l -> f x = f y -> x = y.
Proof.
  induction l as [|a r IH]; cbn; [tauto|].
  intros Hnd Hx Hy Hf. inversion Hnd as [|? ? Hnotin Hnd']; subst.
  destruct Hx as [-> | Hx], Hy as [-> | Hy]; auto.
  - exfalso. apply Hnotin. rewrite Hf. now apply in_map.
  - exfalso. apply Hnotin. rewrite <- Hf. now apply in_map.
Qed.

Lemma in_checkUpcomingMovies (now nextMonth : Date) (db : Db) (e : Email) :
  In e (checkUpcomingMovies now nextMonth db) <->
  exists u, In u (users db)
            /\ u_sendNotifications u = true
            /\ u_email u <> ""
            /\ relevantMoviesFor now nextMonth db u <> []
            /\ e = {| e_to := u_email u;
                      e_subject := "Upcoming Movies Notification";
                      e_username := u_username u;
                      e_movies := relevantMoviesFor now nextMonth db u |}.
Proof.
  unfold checkUpcomingMovies, notifiableUsers. rewrite in_flat_map. split.
  - intros ([u favs] & Hin & He).
    apply in_map_iff in Hin as (u' & Heq & Hin). injection Heq as -> <-.
    apply filter_In in Hin as [Hin Hflag].
    cbn [user_type] in He.
    fold (relevantMoviesFor now nextMonth db u) in He.
    destruct (0 <? List.length (relevantMoviesFor now nextMonth db u))%nat eqn:El;
      [|destruct He].
    unfold sendNotification in He.
    destruct (u_sendNotifications u) eqn:Es; [|destruct He].
    destruct (String.eqb (u_email u) "") eqn:Em; [destruct He|].
    destruct He as [<- | []].
    exists u. repeat split; auto.
    + now apply String.eqb_neq.
    + intros Hnil. rewrite Hnil in El. discriminate.
  - intros (u & Hin & Hs & Hm & Hrel & ->).
    exists (u, populate p_id (persons db) (u_favoriteActors u)). split.
    + apply in_map_iff. exists u. split; [reflexivity|].
      apply filter_In. split; [exact Hin|]. rewrite Hs. apply orb_true_r.
    + cbn [user_type]. fold (relevantMoviesFor now nextMonth db u).
      destruct (relevantMoviesFor now nextMonth db u) eqn:Er; [congruence|].
      cbn [List.length Nat.ltb Nat.leb]. unfold sendNotification.
      rewrite Hs. apply String.eqb_neq in Hm. rewrite Hm. now left.
Qed.

Lemma populate_In {A : Type} (id_of : A -> ObjectId) (docs : list A)
    (ids : list ObjectId) (d : A) :
  In d (populate id_of docs ids)
  <-> exists i, In i ids /\ findById id_of i docs = Some d.
Proof.
  unfold populate. rewrite in_flat_map. split.
  - intros (i & Hi & Hd). exists i. split; [exact Hi|].
    destruct (findById id_of i docs); [|destruct Hd].
    destruct Hd as [-> | []]. reflexivity.
  - intros (i & Hi & Hf). exists i. split; [exact Hi|]. rewrite Hf. now left.
Qed.

Lemma findById_stored {A : Type} (id_of : A -> ObjectId) (docs : list A) (d : A) :
  In d docs -> exists d', findById id_of (id_of d) docs = Some d'.
Proof.
  intros Hin. unfold findById.
  destruct (find _ docs) as [d'|] eqn:E; [eauto|].
  apply (find_none _ _ E) in Hin. rewrite String.eqb_refl in Hin. discriminate.
Qed.

(** The filter of the job, read on the stored documents: the movie has a
    favourite genre of the user, or an actor who is a stored person and a
    favourite actor of the user. *)
Lemma relevantTo_spec (db : Db) (u : User) (m : Movie) :
  relevantTo (u_favoriteGenres u)
    (populate p_id (persons db) (u_favoriteActors u))
    (m, populate p_id (persons db) (m_actors m)) = true
  <-> (exists g, In g (m_genre m) /\ In g (u_favoriteGenres u))
      \/ (exists p, In p (persons db) /\ In (p_id p) (m_actors m)
                    /\ In (p_id p) (u_favoriteActors u)).
Proof.
  unfold relevantTo. cbn [fst snd]. rewrite orb_true_iff, !existsb_exists. split.
  - intros [(g & Hg & Hi) | (actor & Ha & Hex)].
    + left. exists g. split; [exact Hg | now apply includes_In].
    + right. apply existsb_exists in Hex as (fav & Hfav & He).
      apply String.eqb_eq in He.
      apply populate_In in Ha as (a & Hain & Hfa).
      apply populate_In in Hfav as (f & Hfin & Hff).
      apply findById_id in Hfa as [Hida Hina].
      apply findById_id in Hff as [Hidf _].
      exists actor. split; [exact Hina|]. split; [now rewrite Hida|].
      now rewrite <- He, Hidf.
  - intros [(g & Hg & Hi) | (p & Hp & Hma & Hfa)].
    + left. exists g. split; [exact Hg | now apply includes_In].
    + right. destruct (findById_stored p_id (persons db) p Hp) as [p' Hp'].
      exists p'. split; [apply populate_In; eauto|].
      apply existsb_exists. exists p'.
      split; [apply populate_In; eauto | apply String.eqb_refl].
Qed.

Lemma in_relevantMoviesFor (now nextMonth : Date) (db : Db) (u : User)
    (m : Movie) (ps : list Person) :
  In (m, ps) (relevantMoviesFor now nextMonth db u)
  <-> relevantMovie now nextMonth db u m
      /\ ps = populate p_id (persons db) (m_actors m).
Proof.
  unfold relevantMoviesFor, upcomingMoviesOf, relevantMovie.
  rewrite filter_In, in_map_iff. split.
  - intros [(m' & Heq & Hin) Hrel]. injection Heq as -> <-.
    apply filter_In in Hin as [Hin Hd].
    apply relevantTo_spec in Hrel.
    split; [|reflexivity]. split; [exact Hin|]. split; [|exact Hrel].
    destruct (m_releaseDate m) as [d|]; [|discriminate].
    exists d. split; [reflexivity|].
    apply andb_true_iff in Hd as [H1 H2]. lia.
  - intros [(Hin & (d & Hd & Hw) & Hrel) ->]. split.
    + exists m. split; [reflexivity|]. apply filter_In. split; [exact Hin|].
      rewrite Hd. apply andb_true_iff. lia.
    + now apply relevantTo_spec.
Qed.

Lemma relevantMoviesFor_nonempty (now nextMonth : Date) (db : Db) (u : User) :
  relevantMoviesFor now nextMonth db u <> []
  <-> exists m, relevantMovie now nextMonth db u m.
Proof.
  split.
  - destruct (relevantMoviesFor now nextMonth db u) as [|[m ps] r] eqn:E;
      [congruence|].
    intros _. exists m.
    apply (in_relevantMoviesFor now nextMonth db u m ps). rewrite E. now left.
  - intros (m & Hm) Hnil.
    assert (H : In (m, populate p_id (persons db) (m_actors m))
                  (relevantMoviesFor now nextMonth db u))
      by (apply in_relevantMoviesFor; auto).
    rewrite Hnil in H. destruct H.
Qed.

(** C5, amended: the job dispatches an e-mail to a stored user who is no
    admin exactly when the user has [sendNotifications] set, an e-mail
    address, and a relevant movie: a stored movie released between [now] and
    [nextMonth] that has a favourite genre of the user, or a favourite actor
    of the user among its actors.  The e-mail lists the relevant movies and
    no other. *)
Theorem C5_notification_recipients (now nextMonth : Date) (db : Db) (u : User) :
  In u (users db) ->
  NoDup (map u_email (users db)) ->
  u_role u <> "admin" ->
  (receives now nextMonth db u <->
   u_sendNotifications u = true /\ u_email u <> ""
   /\ exists m, relevantMovie now nextMonth db u m)
  /\ (forall e,
        In e (checkUpcomingMovies now nextMonth db) -> e_to e = u_email u ->
        forall m, In m (map fst (e_movies e))
                  <-> relevantMovie now nextMonth db u m).
Proof.
  intros Hin Hnd _. split; [unfold receives; split|].
  - intros (e & He & Hto).
    apply in_checkUpcomingMovies in He as (u' & Hin' & Hs & Hm & Hrel & ->).
    cbn in Hto.
    assert (u' = u) by (eapply NoDup_map_eq; eauto). subst u'.
    apply relevantMoviesFor_nonempty in Hrel. auto.
  - intros (Hs & Hm & Hrel). apply relevantMoviesFor_nonempty in Hrel.
    eexists. split.
    + apply in_checkUpcomingMovies. exists u. repeat split; eauto.
    + reflexivity.
  - intros e He Hto m.
    apply in_checkUpcomingMovies in He as (u' & Hin' & Hs & Hm & Hrel & ->).
    cbn in Hto.
    assert (u' = u) by (eapply NoDup_map_eq; eauto). subst u'.
    cbn [e_movies]. rewrite in_map_iff. split.
    + intros ([m' ps] & Hfst & Hmem). cbn in Hfst. subst m'.
      now apply in_relevantMoviesFor in Hmem.
    + intros Hrm. exists (m, populate p_id (persons db) (m_actors m)).
      split; [reflexivity|]. now apply in_relevantMoviesFor.
Qed.

Lemma heat_is_relevant (u : User) :
  In "Crime" (u_favoriteGenres u) ->
  exists m, relevantMovie 100 3000 Sample.db u m.
Proof.
  intros Hg.
  exists (Sample.movie Sample.movieB "Heat" ["Crime"] [Sample.pacino] 2000 3).
  split; [right; left; reflexivity|]. split.
  - exists 2000. split; [reflexivity | lia].
  - left. exists "Crime". split; [now left | exact Hg].
Qed.

Lemma C5_witness :
  receives 100 3000 Sample.db Sample.bobDoc.
Proof.
  apply (C5_notification_recipients 100 3000 Sample.db Sample.bobDoc).
  - right; left; reflexivity.
  - repeat constructor; cbn; intuition discriminate.
  - discriminate.
  - split; [reflexivity|]. split; [discriminate|].
    apply heat_is_relevant. now left.
Defined.

(** C5 fails as stated: a user who is no admin, has
    [remindersForNewReleases] set (and [sendNotifications] not) and a
    relevant upcoming movie is sent nothing. *)
Lemma C5_reminders_only_gets_no_mail :
  shouldReceive 100 3000 Sample.db Sample.aliceDoc
  /\ ~ receives 100 3000 Sample.db Sample.aliceDoc.
Proof.
  split.
  - split; [discriminate|]. split; [reflexivity|].
    apply heat_is_relevant. now left.
  - intros (e & He & Hto). vm_compute in He.
    destruct He as [<- | [<- | []]]; discriminate.
Qed.

(** The test on [user.type] lets no user through: an admin with a relevant
    movie is sent the e-mail. *)
Lemma admin_is_not_skipped :
  u_role Sample.rootDoc = "admin" /\ receives 100 3000 Sample.db Sample.rootDoc.
Proof.
  split; [reflexivity|].
  eexists. split.
  - apply in_checkUpcomingMovies. exists Sample.rootDoc.
    split; [right; right; left; reflexivity|].
    repeat split; discriminate.
  - reflexivity.
Qed.

(** * Further results *)

(** ** Reviews *)

Lemma reviewsOf_movie (movie : ObjectId) (db : Db) (r : Review) :
  In r (reviewsOf movie db) <-> In r (reviews db) /\ r_movie r = movie.
Proof.
  unfold reviewsOf. rewrite filter_In. split; intros [H1 H2]; split; auto.
  - now apply String.eqb_eq.
  - now apply String.eqb_eq.
Qed.

Lemma StronglySorted_impl {A : Type} (R R' : A -> A -> Prop) (l : list A) :
  (forall a b, R a b -> R' a b) -> StronglySorted R l -> StronglySorted R' l.
Proof.
  intros Himp. induction 1 as [|a r Hs IH Hfa]; constructor; [exact IH|].
  eapply Forall_impl; [|exact Hfa]. intros b. apply Himp.
Qed.

(** X1: for a movie that has a stored review, [GET /api/reviews/:movieId]
    answers 200 with the stored reviews of that movie, each once and no
    other, the newest first, each with the user name of its author where
    the user document exists. *)
Theorem get_reviews_newest_first (movieId : string) (movie : ObjectId) (db : Db) :
  Oid.cast movieId = Some movie ->
  (exists r, In r (reviews db) /\ r_movie r = movie) ->
  exists l,
    get_reviews movieId db = reply 200 (ReviewList l)
    /\ Permutation (map fst l)
         (filter (fun r => String.eqb (r_movie r) movie) (reviews db))
    /\ StronglySorted (fun a b => r_createdAt b <= r_createdAt a) (map fst l)
    /\ Forall (fun x => r_movie (fst x) = movie
                        /\ snd x = option_map u_username
                                     (findById u_id (r_user (fst x)) (users db)))
         l.
Proof.
  intros Hc (r0 & Hr0 & Hm0).
  assert (Hne : reviewsOf movie db <> []).
  { intros Hnil.
    pose proof (proj2 (reviewsOf_movie movie db r0) (conj Hr0 Hm0)) as Hin.
    rewrite Hnil in Hin. destruct Hin. }
  unfold get_reviews. rewrite Hc.
  set (found := sortBy _ (reviewsOf movie db)).
  assert (Hperm : Permutation found (reviewsOf movie db)) by apply sortBy_perm.
  destruct (List.length found =? 0)%nat eqn:El.
  { apply Nat.eqb_eq in El. apply length_zero_iff_nil in El. rewrite El in Hperm.
    apply Permutation_nil in Hperm. congruence. }
  exists (map (populateUser db) found). split; [reflexivity|].
  assert (Hfst : map fst (map (populateUser db) found) = found).
  { rewrite map_map. cbn. apply map_id. }
  rewrite Hfst. split; [exact Hperm|]. split.
  - assert (Htot : forall a b : Review,
               (r_createdAt b <=? r_createdAt a) = false ->
               (r_createdAt a <=? r_createdAt b) = true).
    { intros a b H. apply Z.leb_gt in H. apply Z.leb_le. lia. }
    pose proof (sortBy_sorted (fun a b => r_createdAt b <=? r_createdAt a)
                  Htot (reviewsOf movie db)) as Hs.
    fold found in Hs. apply Sorted_StronglySorted in Hs.
    + eapply StronglySorted_impl; [|exact Hs]. cbn. intros a b Hab.
      now apply Z.leb_le.
    + intros a b c H1 H2. apply Z.leb_le in H1, H2. apply Z.leb_le. lia.
  - apply Forall_forall. intros x Hx. apply in_map_iff in Hx as (r & <- & Hr).
    cbn. split; [|reflexivity].
    apply (Permutation_in _ Hperm) in Hr. now apply reviewsOf_movie in Hr.
Qed.

Lemma get_reviews_newest_first_witness :
  exists l,
    get_reviews Sample.movieB Sample.db = reply 200 (ReviewList l)
    /\ Permutation (map fst l)
         (filter (fun r => String.eqb (r_movie r) Sample.movieB)
            (reviews Sample.db))
    /\ StronglySorted (fun a b => r_createdAt b <= r_createdAt a) (map fst l)
    /\ Forall (fun x => r_movie (fst x) = Sample.movieB
                        /\ snd x = option_map u_username
                                     (findById u_id (r_user (fst x))
                                        (users Sample.db))) l.
Proof.
  apply (get_reviews_newest_first Sample.movieB Sample.movieB Sample.db eq_refl).
  eexists. split; [left; reflexivity | reflexivity].
Defined.

Lemma updateMovieRating_value (movieId : ObjectId) (db db2 : Db) (m0 : Movie) :
  updateMovieRating movieId db = (None, db2) ->
  findById m_id movieId (movies db) = Some m0 ->
  exists avg,
    averageOf (reviewsOf movieId db2) = Some avg
    /\ findById m_id movieId (movies db2) = Some (set_averageRating avg m0).
Proof.
  unfold updateMovieRating.
  destruct (averageOf (reviewsOf movieId db)) as [avg|] eqn:E; [|discriminate].
  intros H Hm. injection H as <-. exists avg. split.
  - now rewrite reviewsOf_with_movies.
  - cbn [with_movies movies]. rewrite findById_updateById by reflexivity.
    now rewrite Hm.
Qed.

Lemma get_average_of (movie : string) (movieId : ObjectId) (db : Db) (avg : Q) :
  Oid.cast movie = Some movieId ->
  averageOf (reviewsOf movieId db) = Some avg ->
  get_average movie db = reply 200 (Average avg).
Proof.
  intros Hc Ha. unfold get_average. rewrite Hc, Ha.
  destruct (reviewsOf movieId db); [discriminate Ha | reflexivity].
Qed.

(** X2: the two places that report an average agree: after a review create
    answered 201 or a review update answered 200,
    [GET /api/reviews/average/:movieId] for the movie of the review answers
    200 with the average that is stored on the movie. *)
Theorem average_endpoint_matches_stored (caller : ObjectId) (rq : ReviewRequest)
    (_id : ObjectId) (reviewId : string) (now : Date) (db : Db) :
  (status (fst (post_review caller rq _id now db)) = 201 ->
   exists movie movieId m,
     rq_movie rq = Some movie /\ Oid.cast movie = Some movieId
     /\ findById m_id movieId (movies (snd (post_review caller rq _id now db)))
        = Some m
     /\ get_average movie (snd (post_review caller rq _id now db))
        = reply 200 (Average (m_averageRating m)))
  /\ (status (fst (put_review caller reviewId rq now db)) = 200 ->
      exists id review m,
        Oid.cast reviewId = Some id
        /\ findById r_id id (reviews db) = Some review
        /\ findById m_id (r_movie review)
             (movies (snd (put_review caller reviewId rq now db))) = Some m
        /\ forall movie,
             Oid.cast movie = Some (r_movie review) ->
             get_average movie (snd (put_review caller reviewId rq now db))
             = reply 200 (Average (m_averageRating m))).
Proof.
  split.
  - destruct (post_review caller rq _id now db) as [resp db'] eqn:E.
    cbn [fst snd]. intros Hs.
    destruct (post_review_created _ _ _ _ _ _ _ E Hs)
      as (movie & rating & movieId & newReview & db1 & Hm & _ & Hc & Hsave & Hupd & _).
    apply saveNewReview_ok in Hsave as (_ & Hrm & Hpost).
    apply postSave_ok in Hpost as [_ [m0 Hm0]]. rewrite Hrm in Hm0.
    destruct (updateMovieRating_value _ _ _ _ Hupd Hm0) as (avg & Ha & Hf).
    exists movie, movieId, (set_averageRating avg m0).
    repeat split; auto. now apply (get_average_of movie movieId).
  - destruct (put_review caller reviewId rq now db) as [resp db'] eqn:E.
    cbn [fst snd]. intros Hs.
    destruct (put_review_updated _ _ _ _ _ _ _ E Hs)
      as (id & review & rating & text & db1 & Hc & Hf & _ & Hsave & Hupd & _).
    apply saveReview_ok in Hsave as [_ [m0 Hm0]]. cbn [r_movie set_review] in Hm0.
    destruct (updateMovieRating_value _ _ _ _ Hupd Hm0) as (avg & Ha & Hfm).
    exists id, review, (set_averageRating avg m0).
    repeat split; auto. intros movie Hcm.
    now apply (get_average_of movie (r_movie review)).
Qed.

Lemma average_endpoint_matches_stored_witness :
  exists movie movieId m,
    rq_movie Sample.withText = Some movie /\ Oid.cast movie = Some movieId
    /\ findById m_id movieId
         (movies (snd (post_review Sample.alice Sample.withText Sample.fresh 1000
                         Sample.db))) = Some m
    /\ get_average movie
         (snd (post_review Sample.alice Sample.withText Sample.fresh 1000
                 Sample.db))
       = reply 200 (Average (m_averageRating m)).
Proof.
  apply (average_endpoint_matches_stored Sample.alice Sample.withText
           Sample.fresh Sample.reviewB 1000 Sample.db).
  reflexivity.
Defined.

(** *** Ratings stay in range *)

Lemma ratingSum_bounds (rs : list Review) :
  Forall (fun r => inRange (r_rating r)) rs ->
  (inject_Z (Z.of_nat (List.length rs)) <= ratingSum rs
   /\ ratingSum rs <= 5 * inject_Z (Z.of_nat (List.length rs)))%Q.
Proof.
  induction 1 as [|r rs [H1 H5] _ [IH1 IH5]].
  - unfold ratingSum. cbn [List.length fold_right].
    change (inject_Z (Z.of_nat 0)) with 0%Q. split; lra.
  - unfold ratingSum in *. cbn [List.length fold_right].
    rewrite Nat2Z.inj_succ, <- Z.add_1_r, inject_Z_plus.
    change (inject_Z 1) with 1%Q. split; lra.
Qed.

Lemma mean_in_range (q : Q) (rs : list Review) :
  isMeanOf q rs -> Forall (fun r => inRange (r_rating r)) rs -> inRange q.
Proof.
  intros [Hne Hq] Hall. destruct (ratingSum_bounds rs Hall) as [H1 H5].
  assert (Hn : (1 <= inject_Z (Z.of_nat (List.length rs)))%Q).
  { destruct rs; [congruence|]. cbn [List.length].
    rewrite Nat2Z.inj_succ, <- Z.add_1_r, inject_Z_plus.
    change (inject_Z 1) with 1%Q.
    assert (0 <= inject_Z (Z.of_nat (List.length rs)))%Q.
    { change 0%Q with (inject_Z 0). rewrite <- Zle_Qle. lia. }
    lra. }
  set (n := inject_Z (Z.of_nat (List.length rs))) in *.
  rewrite <- Hq in H1, H5. unfold inRange. split; nra.
Qed.

Lemma validateReview_inRange (q : Q) (text : option string) :
  validateReview (Some q) text = None -> inRange q.
Proof.
  unfold validateReview, Qltb.
  destruct (Qle_bool 1 q) eqn:E1; cbn; [|discriminate].
  destruct (Qle_bool q 5) eqn:E5; cbn; [|discriminate].
  intros _. split; now apply Qle_bool_iff.
Qed.

Lemma saveNewReview_range (user movie _id : ObjectId) (rating : option Q)
    (reviewText : option string) (now : Date) (db db1 : Db) (res : Exn + Review) :
  saveNewReview user movie _id rating reviewText now db = (res, db1) ->
  reviews db1 = reviews db
  \/ exists r, reviews db1 = (reviews db ++ [r])%list /\ inRange (r_rating r).
Proof.
  unfold saveNewReview.
  destruct (validateReview rating reviewText) eqn:Ev;
    [intros H; injection H as <- <-; now left|].
  destruct rating as [q|]; [|intros H; injection H as <- <-; now left].
  destruct reviewText as [text|]; [|intros H; injection H as <- <-; now left].
  destruct (findById r_id _id (reviews db));
    [intros H; injection H as <- <-; now left|].
  destruct (postSave _ _) as [oe db2] eqn:E.
  apply postSave_reviews in E. cbn [with_reviews reviews] in E.
  intros H. right. eexists. split.
  - destruct oe; injection H as <- <-; exact E.
  - cbn. eapply validateReview_inRange; eauto.
Qed.

Lemma Forall_updateById {A : Type} (id_of : A -> ObjectId) (P : A -> Prop)
    (id : ObjectId) (f : A -> A) (docs : list A) :
  (forall x, P x -> P (f x)) -> Forall P docs ->
  Forall P (updateById id_of id f docs).
Proof.
  intros Hf. induction 1 as [|x r Hx Hr IH]; cbn; [constructor|].
  destruct (String.eqb (id_of x) id); constructor; auto.
Qed.

Lemma post_review_range (caller : ObjectId) (rq : ReviewRequest)
    (_id : ObjectId) (now : Date) (db : Db) :
  ratingsInRange db -> ratingsInRange (snd (post_review caller rq _id now db)).
Proof.
  intros Hr. unfold post_review.
  destruct (_ || _); [exact Hr|].
  destruct (rq_movie rq) as [movie|]; [|exact Hr].
  destruct (rq_rating rq) as [rating|]; [|exact Hr].
  destruct (_ || _); [exact Hr|].
  destruct (Oid.cast movie) as [movieId|]; [|exact Hr].
  destruct (findById m_id movieId (movies db)); [|exact Hr].
  destruct (findById u_id caller (users db)); [|exact Hr].
  destruct (find _ (reviews db)); [exact Hr|].
  destruct (saveNewReview _ _ _ _ _ _ _) as [res db1] eqn:Es.
  apply saveNewReview_range in Es.
  assert (H1 : ratingsInRange db1).
  { unfold ratingsInRange in *. destruct Es as [-> | (r & -> & Hq)]; [exact Hr|].
    apply Forall_app. split; [exact Hr | now constructor]. }
  destruct res as [err|newReview]; [exact H1|].
  destruct (updateMovieRating movieId db1) as [oe db2] eqn:Eu.
  apply updateMovieRating_reviews in Eu.
  unfold ratingsInRange in *. destruct oe; cbn [snd]; now rewrite Eu.
Qed.

Lemma put_review_range (caller : ObjectId) (reviewId : string)
    (rq : ReviewRequest) (now : Date) (db : Db) :
  ratingsInRange db -> ratingsInRange (snd (put_review caller reviewId rq now db)).
Proof.
  intros Hr. unfold put_review.
  destruct (negb (truthyNum (rq_rating rq)) && negb (truthyStr (rq_reviewText rq)));
    [exact Hr|].
  destruct (truthyNum (rq_rating rq) && _); [exact Hr|].
  destruct (Oid.cast reviewId) as [id|]; [|exact Hr].
  destruct (findById r_id id (reviews db)) as [review|]; [|exact Hr].
  destruct (negb (String.eqb (r_user review) caller)); [exact Hr|].
  match goal with |- context [saveReview ?r db] => set (review' := r) end.
  assert (H1 : ratingsInRange (snd (saveReview review' db))).
  { unfold saveReview.
    destruct (validateReview _ _) eqn:Ev; [exact Hr|].
    destruct (postSave _ _) as [oe db1] eqn:Ep. apply postSave_reviews in Ep.
    cbn [snd]. unfold ratingsInRange in *. rewrite Ep. cbn [with_reviews reviews].
    apply Forall_updateById; [|exact Hr].
    intros _ _. eapply validateReview_inRange; eauto. }
  destruct (saveReview review' db) as [[e|] db1]; [exact H1|].
  cbn [snd] in H1.
  destruct (updateMovieRating _ db1) as [oe db2] eqn:Eu.
  apply updateMovieRating_reviews in Eu.
  unfold ratingsInRange in *. destruct oe; cbn [snd]; now rewrite Eu.
Qed.

Lemma reviewsOf_range (movie : ObjectId) (db : Db) :
  ratingsInRange db -> Forall (fun r => inRange (r_rating r)) (reviewsOf movie db).
Proof.
  unfold ratingsInRange, reviewsOf. rewrite !Forall_forall.
  intros H r Hr. apply filter_In in Hr as [Hr _]. now apply H.
Qed.

(** X3: the ratings stay within the bounds of the schema: when every stored
    rating lies between 1 and 5, it does so after a POST or a PUT of a
    review, whatever the answer, and the average that a successful write
    stores on the movie lies between 1 and 5 as well. *)
Theorem ratings_and_average_stay_in_range (caller : ObjectId)
    (rq : ReviewRequest) (_id : ObjectId) (reviewId : string) (now : Date)
    (db : Db) :
  ratingsInRange db ->
  ratingsInRange (snd (post_review caller rq _id now db))
  /\ ratingsInRange (snd (put_review caller reviewId rq now db))
  /\ (status (fst (post_review caller rq _id now db)) = 201 ->
      exists movie movieId m,
        rq_movie rq = Some movie /\ Oid.cast movie = Some movieId
        /\ findById m_id movieId (movies (snd (post_review caller rq _id now db)))
           = Some m
        /\ inRange (m_averageRating m))
  /\ (status (fst (put_review caller reviewId rq now db)) = 200 ->
      exists id review m,
        Oid.cast reviewId = Some id
        /\ findById r_id id (reviews db) = Some review
        /\ findById m_id (r_movie review)
             (movies (snd (put_review caller reviewId rq now db))) = Some m
        /\ inRange (m_averageRating m)).
Proof.
  intros Hr.
  pose proof (post_review_range caller rq _id now db Hr) as Hpost.
  pose proof (put_review_range caller reviewId rq now db Hr) as Hput.
  split; [exact Hpost|]. split; [exact Hput|]. split.
  - destruct (post_review caller rq _id now db) as [resp db'] eqn:E.
    cbn [fst snd] in *. intros Hs.
    destruct (post_review_created _ _ _ _ _ _ _ E Hs)
      as (movie & rating & movieId & newReview & db1 & Hm & _ & Hc & Hsave & Hupd & _).
    apply saveNewReview_ok in Hsave as (_ & Hrm & Hp).
    apply postSave_ok in Hp as [_ [m0 Hm0]]. rewrite Hrm in Hm0.
    destruct (updateMovieRating_ok _ _ _ _ Hupd Hm0) as [_ (m & Hf & Hmean)].
    exists movie, movieId, m. repeat split; auto;
      apply (mean_in_range _ _ Hmean (reviewsOf_range movieId db' Hpost)).
  - destruct (put_review caller reviewId rq now db) as [resp db'] eqn:E.
    cbn [fst snd] in *. intros Hs.
    destruct (put_review_updated _ _ _ _ _ _ _ E Hs)
      as (id & review & rating & text & db1 & Hc & Hf & _ & Hsave & Hupd & _).
    apply saveReview_ok in Hsave as [_ [m0 Hm0]]. cbn [r_movie set_review] in Hm0.
    destruct (updateMovieRating_ok _ _ _ _ Hupd Hm0) as [_ (m & Hfm & Hmean)].
    exists id, review, m. repeat split; auto;
      apply (mean_in_range _ _ Hmean (reviewsOf_range _ db' Hput)).
Qed.

Lemma sample_ratings_in_range : ratingsInRange Sample.db.
Proof. repeat constructor; cbn; discriminate. Qed.

Lemma ratings_and_average_stay_in_range_witness :
  ratingsInRange
    (snd (post_review Sample.alice Sample.withText Sample.fresh 1000 Sample.db))
  /\ exists movie movieId m,
       rq_movie Sample.withText = Some movie /\ Oid.cast movie = Some movieId
       /\ findById m_id movieId
            (movies (snd (post_review Sample.alice Sample.withText Sample.fresh
                            1000 Sample.db))) = Some m
       /\ inRange (m_averageRating m).
Proof.
  destruct (ratings_and_average_stay_in_range Sample.alice Sample.withText
              Sample.fresh Sample.reviewB 1000 Sample.db sample_ratings_in_range)
    as (H1 & _ & H3 & _).
  split; [exact H1 | apply H3; reflexivity].
Defined.

(** *** What a review write leaves alone *)

Section UpdateFacts.
Context {A : Type} (id_of : A -> ObjectId).


Lemma nth_error_updateById_found (id : ObjectId) (f : A -> A) (docs : list A)
    (d : A) (i : nat) (x : A) :
  findById id_of id docs = Some d ->
  nth_error docs i = Some x -> x <> d ->
  nth_error (updateById id_of id f docs) i = Some x.
Proof.
  revert i. induction docs as [|y r IH]; intros i Hf Hn Hx;
    [destruct i; discriminate|].
  cbn in *. destruct (String.eqb (id_of y) id) eqn:E.
  - injection Hf as ->. destruct i; cbn in *; [|exact Hn].
    injection Hn as ->. contradiction.
  - destruct i; cbn in *; [exact Hn | now apply IH].
Qed.
End UpdateFacts.

Lemma put_review_at_own (caller : ObjectId) (reviewId : string)
    (rq : ReviewRequest) (now : Date) (db : Db) :
  reviews (snd (put_review caller reviewId rq now db)) = reviews db
  \/ exists id review new,
       findById r_id id (reviews db) = Some review
       /\ r_user review = caller
       /\ reviews (snd (put_review caller reviewId rq now db))
          = updateById r_id id (fun _ => new) (reviews db).
Proof.
  unfold put_review.
  destruct (negb (truthyNum (rq_rating rq)) && negb (truthyStr (rq_reviewText rq)));
    [now left|].
  destruct (truthyNum (rq_rating rq) && _); [now left|].
  destruct (Oid.cast reviewId) as [id|]; [|now left].
  destruct (findById r_id id (reviews db)) as [review|] eqn:Ef; [|now left].
  destruct (negb (String.eqb (r_user review) caller)) eqn:Eu; [now left|].
  apply negb_false_iff, String.eqb_eq in Eu.
  match goal with |- context [saveReview ?r db] => set (review' := r) end.
  destruct (saveReview review' db) as [oe db1] eqn:Es.
  assert (Hd : reviews (snd (match oe with
                             | Some err => (reply 500 (Failure "Error updating review" err), db1)
                             | None =>
                                 match updateMovieRating (r_movie review') db1 with
                                 | (Some err, db2) => (reply 500 (Failure "Error updating review" err), db2)
                                 | (None, db2) => (reply 200 (ReviewBody "Review updated successfully" review'), db2)
                                 end
                             end)) = reviews db1).
  { destruct oe; [reflexivity|].
    destruct (updateMovieRating _ db1) as [oe2 db2] eqn:E2.
    apply updateMovieRating_reviews in E2. destruct oe2; exact E2. }
  rewrite Hd. apply saveReview_reviews in Es as [-> | ->]; [now left|].
  right. exists id, review, review'. repeat split; auto.
  unfold store. subst review'. cbn [r_id set_review].
  apply findById_id in Ef as [-> _]. reflexivity.
Qed.

(** X4: [PUT /api/reviews/:reviewId] leaves the reviews of other authors
    alone: a stored review whose author is not the caller is the same
    afterwards, at the same place; and aimed at such a review the request
    changes nothing in the database and is answered 400 or 403. *)
Theorem put_review_spares_other_authors (caller : ObjectId) (reviewId : string)
    (rq : ReviewRequest) (now : Date) (db : Db) (i : nat) (r : Review) :
  nth_error (reviews db) i = Some r -> r_user r <> caller ->
  nth_error (reviews (snd (put_review caller reviewId rq now db))) i = Some r
  /\ (forall id,
        Oid.cast reviewId = Some id ->
        findById r_id id (reviews db) = Some r ->
        snd (put_review caller reviewId rq now db) = db
        /\ (status (fst (put_review caller reviewId rq now db)) = 400
            \/ status (fst (put_review caller reviewId rq now db)) = 403)).
Proof.
  intros Hn Hu. split.
  - destruct (put_review_at_own caller reviewId rq now db)
      as [-> | (id & review & new & Hf & Hru & ->)]; [exact Hn|].
    eapply nth_error_updateById_found; eauto. intros ->. contradiction.
  - intros id Hc Hf. unfold put_review.
    destruct (negb (truthyNum (rq_rating rq)) && negb (truthyStr (rq_reviewText rq)));
      [cbn; auto|].
    destruct (truthyNum (rq_rating rq) && _); [cbn; auto|].
    rewrite Hc, Hf.
    apply String.eqb_neq in Hu. rewrite Hu. cbn. auto.
Qed.

Lemma put_review_spares_other_authors_witness :
  nth_error
    (reviews (snd (put_review Sample.bob Sample.reviewB Sample.withText 1000
                     Sample.db))) 0
  = nth_error (reviews Sample.db) 0
  /\ snd (put_review Sample.bob Sample.reviewB Sample.withText 1000 Sample.db)
     = Sample.db.
Proof.
  destruct (put_review_spares_other_authors Sample.bob Sample.reviewB
              Sample.withText 1000 Sample.db 0
              {| r_id := Sample.reviewB; r_user := Sample.alice;
                 r_movie := Sample.movieB; r_rating := 3;
                 r_reviewText := "Tense."; r_createdAt := 10;
                 r_updatedAt := 10 |} eq_refl ltac:(discriminate))
    as [H1 H2].
  split; [exact H1 | exact (proj1 (H2 Sample.reviewB eq_refl eq_refl))].
Defined.












(** ** Wishlist and custom lists *)

Lemma indexOf_includes (s : string) (l : list ObjectId) :
  indexOf s l = None <-> includes s l = false.
Proof.
  unfold includes. induction l as [|x r IH]; cbn; [tauto|].
  destruct (String.eqb s x); cbn; [split; discriminate|].
  destruct (indexOf s r); cbn; [|tauto].
  split; [discriminate|]. intros H. apply IH in H. discriminate.
Qed.



Lemma indexOf_lt (s : string) (l : list ObjectId) (i : nat) :
  indexOf s l = Some i -> (i < List.length l)%nat /\ nth_error l i = Some s.
Proof.
  revert i. induction l as [|x r IH]; cbn; intros i; [discriminate|].
  destruct (String.eqb s x) eqn:E.
  - intros H. injection H as <-. apply String.eqb_eq in E. subst.
    split; [lia | reflexivity].
  - destruct (indexOf s r) as [j|]; cbn; [|discriminate].
    intros H. injection H as <-. destruct (IH j eq_refl). split; [lia | auto].
Qed.

Lemma removeAt_length {A : Type} (i : nat) (l : list A) :
  (i < List.length l)%nat -> S (List.length (removeAt i l)) = List.length l.
Proof.
  intros H. unfold removeAt. rewrite length_app, length_firstn, length_skipn. lia.
Qed.

Lemma removeAt_NoDup {A : Type} (i : nat) (l : list A) (x : A) :
  NoDup l -> nth_error l i = Some x ->
  NoDup (removeAt i l) /\ ~ In x (removeAt i l).
Proof.
  intros Hnd Hn. apply nth_error_split in Hn as (l1 & l2 & -> & <-).
  assert (E : removeAt (List.length l1) (l1 ++ x :: l2) = (l1 ++ l2)%list).
  { unfold removeAt. clear Hnd. induction l1 as [|a r IH]; cbn; [reflexivity|].
    f_equal. exact IH. }
  rewrite E.
  split; [now apply NoDup_remove_1 in Hnd | now apply NoDup_remove_2 in Hnd].
Qed.

Section StoreFacts.
Context {A : Type} (id_of : A -> ObjectId).

End StoreFacts.


Lemma with_users_same (db : Db) : with_users (users db) db = db.
Proof. now destruct db. Qed.

Lemma with_customLists_same (db : Db) : with_customLists (customLists db) db = db.
Proof. now destruct db. Qed.




Lemma post_wishlist_add_cases (caller : ObjectId) (movieId : option string)
    (db : Db) :
  snd (post_wishlist_add caller movieId db) = db
  \/ exists user s movie,
       movieId = Some s
       /\ findById u_id caller (users db) = Some user
       /\ includes s (u_wishlist user) = false
       /\ Oid.cast s = Some movie
       /\ wishlistOf caller (snd (post_wishlist_add caller movieId db))
          = Some (u_wishlist user ++ [movie])%list.
Proof.
  unfold post_wishlist_add.
  destruct (negb (truthyStr movieId)); [now left|].
  destruct movieId as [s|]; [|now left].
  destruct (findById u_id caller (users db)) as [user|] eqn:Hf; [|now left].
  destruct (includes s (u_wishlist user)) eqn:Ei; [now left|].
  destruct (Oid.cast s) as [movie|] eqn:Ec; [|now left].
  right. exists user, s, movie. repeat split; auto.
  apply findById_id in Hf as Hid. destruct Hid as [Hid _].
  unfold wishlistOf, store. cbn [snd with_users users u_id set_wishlist].
  rewrite Hid.
  erewrite findById_replaced; [reflexivity | exact Hid | exact Hf].
Qed.

Lemma delete_wishlist_remove_cases (caller : ObjectId) (movieId : option string)
    (db : Db) :
  (snd (delete_wishlist_remove caller movieId db) = db
   /\ status (fst (delete_wishlist_remove caller movieId db)) <> 200)
  \/ exists user s i,
       movieId = Some s
       /\ findById u_id caller (users db) = Some user
       /\ indexOf s (u_wishlist user) = Some i
       /\ status (fst (delete_wishlist_remove caller movieId db)) = 200
       /\ wishlistOf caller (snd (delete_wishlist_remove caller movieId db))
          = Some (removeAt i (u_wishlist user)).
Proof.
  unfold delete_wishlist_remove.
  destruct (negb (truthyStr movieId)); [left; split; [reflexivity|discriminate]|].
  destruct movieId as [s|]; [|left; split; [reflexivity|discriminate]].
  destruct (findById u_id caller (users db)) as [user|] eqn:Hf;
    [|left; split; [reflexivity|discriminate]].
  destruct (indexOf s (u_wishlist user)) as [i|] eqn:Ei;
    [|left; split; [reflexivity|discriminate]].
  right. exists user, s, i. repeat split; auto.
  apply findById_id in Hf as Hid. destruct Hid as [Hid _].
  unfold wishlistOf, store. cbn [snd with_users users u_id set_wishlist].
  rewrite Hid.
  erewrite findById_replaced; [reflexivity | exact Hid | exact Hf].
Qed.

Lemma NoDup_snoc {A : Type} (l : list A) (x : A) :
  NoDup l -> ~ In x l -> NoDup (l ++ [x]).
Proof.
  intros Hnd Hx. apply NoDup_rev in Hnd.
  rewrite <- (rev_involutive (l ++ [x])). apply NoDup_rev.
  rewrite rev_app_distr. cbn. constructor; [|exact Hnd].
  now rewrite <- in_rev.
Qed.

(** X7: a wishlist without duplicates keeps none: it has none after an add
    of an id in canonical form and none after a remove, whatever the
    answers; a remove answered 200 takes one entry away, the id was in the
    wishlist and is in it no longer. *)
Theorem wishlist_stays_duplicate_free (caller : ObjectId) (movieId : string)
    (db : Db) (w : list ObjectId) :
  wishlistOf caller db = Some w -> NoDup w ->
  (Oid.cast movieId = Some movieId ->
   exists w1,
     wishlistOf caller (snd (post_wishlist_add caller (Some movieId) db))
     = Some w1
     /\ NoDup w1)
  /\ (exists w2,
        wishlistOf caller (snd (delete_wishlist_remove caller (Some movieId) db))
        = Some w2
        /\ NoDup w2
        /\ (status (fst (delete_wishlist_remove caller (Some movieId) db)) = 200
            -> S (List.length w2) = List.length w
               /\ In movieId w /\ ~ In movieId w2)).
Proof.
  intros Hw Hnd. split.
  - intros Hc.
    destruct (post_wishlist_add_cases caller (Some movieId) db)
      as [-> | (user & s & movie & Hs & Hf & Hi & Hc' & Hw1)].
    + exists w. auto.
    + injection Hs as <-. rewrite Hc in Hc'. injection Hc' as <-.
      unfold wishlistOf in Hw. rewrite Hf in Hw. injection Hw as <-.
      eexists. split; [exact Hw1|]. apply NoDup_snoc; [exact Hnd|].
      intros Hin. apply includes_In in Hin. congruence.
  - destruct (delete_wishlist_remove_cases caller (Some movieId) db)
      as [[-> Hs] | (user & s & i & Hs & Hf & Hi & Hst & Hw2)].
    + exists w. repeat split; auto; contradiction.
    + injection Hs as <-.
      unfold wishlistOf in Hw. rewrite Hf in Hw. injection Hw as <-.
      destruct (indexOf_lt _ _ _ Hi) as [Hlt Hn].
      destruct (removeAt_NoDup i _ _ Hnd Hn) as [Hnd2 Hnot].
      eexists. split; [exact Hw2|]. split; [exact Hnd2|]. intros _.
      split; [now apply removeAt_length|]. split; [|exact Hnot].
      eapply nth_error_In; eauto.
Qed.

Lemma wishlist_stays_duplicate_free_witness :
  exists w1,
    wishlistOf Sample.alice
      (snd (post_wishlist_add Sample.alice (Some Sample.movieA) Sample.db))
    = Some w1
    /\ NoDup w1.
Proof.
  apply (proj1 (wishlist_stays_duplicate_free Sample.alice Sample.movieA
                  Sample.db [] eq_refl (NoDup_nil _))).
  reflexivity.
Defined.

(** *** Custom lists *)

Section DeleteFacts.
Context {A : Type} (id_of : A -> ObjectId).

Lemma deleteById_incl (id : ObjectId) (docs : list A) :
  incl (deleteById id_of id docs) docs.
Proof.
  induction docs as [|x r IH]; cbn; [easy|].
  destruct (String.eqb (id_of x) id).
  - now apply incl_tl.
  - apply incl_cons; [now left | now apply incl_tl].
Qed.

Lemma deleteById_NoDup_map {B : Type} (g : A -> B) (id : ObjectId)
    (docs : list A) :
  NoDup (map g docs) -> NoDup (map g (deleteById id_of id docs)).
Proof.
  induction docs as [|x r IH]; cbn; [auto|].
  intros Hnd. inversion Hnd as [|? ? Hnot Hnd']; subst.
  destruct (String.eqb (id_of x) id); [exact Hnd'|].
  cbn. constructor; [|now apply IH].
  intros Hin. apply Hnot. apply in_map_iff in Hin as (y & Hy & Hin).
  rewrite <- Hy. apply in_map. now apply (deleteById_incl id r).
Qed.

Lemma deleteById_found (id : ObjectId) (docs : list A) (d : A) :
  findById id_of id docs = Some d ->
  S (List.length (deleteById id_of id docs)) = List.length docs.
Proof.
  induction docs as [|x r IH]; cbn; [discriminate|].
  destruct (String.eqb (id_of x) id); cbn; [reflexivity|].
  intros H. now rewrite IH.
Qed.

Lemma deleteById_In (id : ObjectId) (docs : list A) (c : A) :
  NoDup (map id_of docs) ->
  (In c (deleteById id_of id docs) <-> In c docs /\ id_of c <> id).
Proof.
  induction docs as [|x r IH]; cbn; [tauto|].
  intros Hnd. inversion Hnd as [|? ? Hnot Hnd']; subst.
  destruct (String.eqb (id_of x) id) eqn:E.
  - apply String.eqb_eq in E. split.
    + intros Hin. split; [now right|]. intros Hc. apply Hnot.
      rewrite E, <- Hc. now apply in_map.
    + intros [[-> | Hin] Hne]; [contradiction | exact Hin].
  - apply String.eqb_neq in E. cbn. rewrite (IH Hnd'). split.
    + intros [-> | [Hin Hne]]; auto.
    + intros [[-> | Hin] Hne]; auto.
Qed.
End DeleteFacts.

Lemma store_same_names (c c' : CustomList) (lid : ObjectId) (cs : list CustomList) :
  findById c_id lid cs = Some c ->
  c_id c' = c_id c -> c_user c' = c_user c -> c_name c' = c_name c ->
  map (fun x => (c_user x, c_name x)) (store c_id c' cs)
  = map (fun x => (c_user x, c_name x)) cs.
Proof.
  intros Hf Hid Hu Hn. unfold store.
  apply findById_id in Hf as Hi. destruct Hi as [Hi _].
  rewrite Hid, Hi.
  eapply updateById_found_map; [exact Hf|]. cbn. now rewrite Hu, Hn.
Qed.

(** X8: when no owner has two custom lists of one name, this is so after
    creating a list, deleting a list, adding a movie to a list, removing a
    movie from a list and updating the description of a list, whatever the
    answers.  (An update of the name is not compared with the other
    lists.) *)
Theorem list_names_stay_unique (caller : ObjectId) (listId : string)
    (name description movieId : option string) (_id : ObjectId) (now : Date)
    (db : Db) :
  uniqueListNames db ->
  uniqueListNames (snd (post_list_create caller name description _id now db))
  /\ uniqueListNames (snd (delete_list caller listId db))
  /\ uniqueListNames (snd (post_list_add_movie caller listId movieId db))
  /\ uniqueListNames (snd (delete_list_remove_movie caller listId movieId db))
  /\ uniqueListNames (snd (put_list_update caller listId None description db)).
Proof.
  intros Hu. unfold uniqueListNames in *. repeat split.
  - unfold post_list_create.
    destruct (negb (truthyStr name)); [exact Hu|].
    destruct name as [listName|]; [|exact Hu].
    destruct (find _ (customLists db)) eqn:Ef; [exact Hu|].
    destruct (findById c_id _id (customLists db)); [exact Hu|].
    cbn [snd with_customLists customLists]. rewrite map_app. cbn [map].
    apply NoDup_snoc; [exact Hu|]. cbn.
    intros Hin. apply in_map_iff in Hin as (c & Hc & Hin).
    injection Hc as Hcu Hcn. apply (find_none _ _ Ef) in Hin.
    rewrite Hcu, Hcn, !String.eqb_refl in Hin. discriminate.
  - unfold delete_list.
    destruct (Oid.cast listId) as [lid|]; [|exact Hu].
    destruct (findById c_id lid (customLists db)) as [c|]; [|exact Hu].
    destruct (negb (String.eqb (c_user c) caller)); [exact Hu|].
    cbn [snd with_customLists customLists]. now apply deleteById_NoDup_map.
  - unfold post_list_add_movie.
    destruct (negb (truthyStr movieId)); [exact Hu|].
    destruct movieId as [s|]; [|exact Hu].
    destruct (Oid.cast s) as [movie|]; [|exact Hu].
    destruct (findById m_id movie (movies db)); [|exact Hu].
    destruct (Oid.cast listId) as [lid|]; [|exact Hu].
    destruct (findById c_id lid (customLists db)) as [c|] eqn:Ef; [|exact Hu].
    destruct (negb (String.eqb (c_user c) caller)); [exact Hu|].
    destruct (includes s (c_movies c)); [exact Hu|].
    cbn [snd with_customLists customLists].
    erewrite store_same_names; [exact Hu | exact Ef | reflexivity..].
  - unfold delete_list_remove_movie.
    destruct (negb (truthyStr movieId)); [exact Hu|].
    destruct movieId as [s|]; [|exact Hu].
    destruct (Oid.cast listId) as [lid|]; [|exact Hu].
    destruct (findById c_id lid (customLists db)) as [c|] eqn:Ef; [|exact Hu].
    destruct (negb (String.eqb (c_user c) caller)); [exact Hu|].
    destruct (indexOf s (c_movies c)); [|exact Hu].
    cbn [snd with_customLists customLists].
    erewrite store_same_names; [exact Hu | exact Ef | reflexivity..].
  - unfold put_list_update.
    destruct (_ && _); [exact Hu|].
    destruct (String.eqb listId ""); [exact Hu|].
    destruct (Oid.cast listId) as [lid|]; [|exact Hu].
    destruct (findById c_id lid (customLists db)) as [c|] eqn:Ef; [|exact Hu].
    destruct (negb (String.eqb (c_user c) caller)); [exact Hu|].
    cbn [snd with_customLists customLists].
    erewrite store_same_names; [exact Hu | exact Ef | reflexivity..].
Qed.

Lemma list_names_stay_unique_witness :
  uniqueListNames
    (snd (post_list_create Sample.alice (Some "Watch later") None Sample.fresh
            1000 Sample.db))
  /\ uniqueListNames (snd (delete_list Sample.alice Sample.listA Sample.db)).
Proof.
  assert (Hu : uniqueListNames Sample.db).
  { repeat constructor. intros []. }
  destruct (list_names_stay_unique Sample.alice Sample.listA
              (Some "Watch later") None None Sample.fresh 1000 Sample.db Hu)
    as (H1 & H2 & _).
  split; [exact H1 | exact H2].
Defined.

(** X9: a custom list is changed by its owner only: for a caller who is not
    the owner of the stored list, the deletion is answered 403, and the
    update, the addition of a movie and the removal of a movie are answered
    with an error status; the database stays as it was. *)
Theorem lists_are_changed_by_their_owner_only (caller : ObjectId)
    (listId : string) (lid : ObjectId) (name description movieId : option string)
    (db : Db) (c : CustomList) :
  Oid.cast listId = Some lid ->
  findById c_id lid (customLists db) = Some c ->
  c_user c <> caller ->
  delete_list caller listId db
  = (reply 403 (Message "You are not authorized to delete this custom list"), db)
  /\ rejects (put_list_update caller listId name description db) db
  /\ rejects (post_list_add_movie caller listId movieId db) db
  /\ rejects (delete_list_remove_movie caller listId movieId db) db.
Proof.
  intros Hc Hf Hu. apply String.eqb_neq in Hu.
  split; [unfold delete_list; now rewrite Hc, Hf, Hu|].
  split; [|split].
  - unfold put_list_update.
    destruct (_ && _); [split; [reflexivity | cbn; lia]|].
    destruct (String.eqb listId ""); [split; [reflexivity | cbn; lia]|].
    rewrite Hc, Hf, Hu. split; [reflexivity | cbn; lia].
  - unfold post_list_add_movie.
    destruct (negb (truthyStr movieId)); [split; [reflexivity | cbn; lia]|].
    destruct movieId as [s|]; [|split; [reflexivity | cbn; lia]].
    destruct (Oid.cast s) as [movie|]; [|split; [reflexivity | cbn; lia]].
    destruct (findById m_id movie (movies db)); [|split; [reflexivity | cbn; lia]].
    rewrite Hc, Hf, Hu. split; [reflexivity | cbn; lia].
  - unfold delete_list_remove_movie.
    destruct (negb (truthyStr movieId)); [split; [reflexivity | cbn; lia]|].
    destruct movieId as [s|]; [|split; [reflexivity | cbn; lia]].
    rewrite Hc, Hf, Hu. split; [reflexivity | cbn; lia].
Qed.

Lemma lists_are_changed_by_their_owner_only_witness :
  delete_list Sample.bob Sample.listA Sample.db
  = (reply 403 (Message "You are not authorized to delete this custom list"),
     Sample.db)
  /\ rejects (post_list_add_movie Sample.bob Sample.listA (Some Sample.movieA)
                Sample.db) Sample.db.
Proof.
  destruct (lists_are_changed_by_their_owner_only Sample.bob Sample.listA
              Sample.listA None None (Some Sample.movieA) Sample.db
              {| c_id := Sample.listA; c_user := Sample.alice; c_name := "Mine";
                 c_description := ""; c_movies := []; c_createdAt := 0 |}
              eq_refl eq_refl ltac:(discriminate))
    as (H1 & _ & H3 & _).
  split; [exact H1 | exact H3].
Defined.






(** ** Pages *)

Lemma firstn_then_firstn {A : Type} (a b : nat) (l : list A) :
  (firstn a l ++ firstn b (skipn a l))%list = firstn (a + b) l.
Proof.
  revert l. induction a as [|a IH]; intros [|x l]; cbn;
    rewrite ?firstn_nil; try reflexivity.
  f_equal. apply IH.
Qed.

Lemma pages_concat {A : Type} (docs : list A) (l : Z) (k : nat) :
  1 <= l ->
  List.concat (map (fun i => pageOf (Z.of_nat (S i)) l docs) (seq 0 k))
  = firstn (k * Z.to_nat l) docs.
Proof.
  intros Hl. induction k as [|k IH]; [reflexivity|].
  rewrite seq_S, map_app, concat_app, IH. cbn [map List.concat plus].
  rewrite app_nil_r. unfold pageOf.
  replace (Z.to_nat ((Z.of_nat (S k) - 1) * l)) with (k * Z.to_nat l)%nat by nia.
  rewrite firstn_then_firstn. f_equal. lia.
Qed.

(** X11: the pages of a listing make up the matching documents: with
    [limit >= 1], the windows the queries fetch with skip
    [(page - 1) * limit] and limit [limit] for the pages 1 to
    [ceil(count / limit)], put one after the other, are the matching
    documents, none left out and none twice. *)
Theorem pages_cover_the_documents {A : Type} (docs : list A) (l k : Z) :
  1 <= l -> isCeil (Z.of_nat (List.length docs)) l k ->
  exists pages,
    List.length pages = Z.to_nat k
    /\ (forall i w,
          nth_error pages i = Some w ->
          window docs (Js.offset (Some (Z.of_nat (S i))) (Some l)) (Some l)
          = Some w)
    /\ List.concat pages = docs.
Proof.
  intros Hl Hk.
  exists (map (fun i => pageOf (Z.of_nat (S i)) l docs) (seq 0 (Z.to_nat k))).
  split; [now rewrite length_map, length_seq|]. split.
  - intros i w Hn. rewrite nth_error_map in Hn.
    destruct (nth_error (seq 0 (Z.to_nat k)) i) as [j|] eqn:Ej; [|discriminate].
    injection Hn as <-.
    assert (Hi : (i < Z.to_nat k)%nat).
    { pose proof (proj1 (nth_error_Some (seq 0 (Z.to_nat k)) i)) as H.
      rewrite length_seq in H. apply H. rewrite Ej. discriminate. }
    rewrite (nth_error_nth' _ 0%nat) in Ej by now rewrite length_seq.
    rewrite seq_nth in Ej by exact Hi. injection Ej as <-. cbn [plus].
    apply window_pageOf; lia.
  - rewrite (pages_concat docs l (Z.to_nat k) Hl).
    apply firstn_all2. unfold isCeil in Hk. nia.
Qed.

Lemma pages_cover_the_documents_witness :
  exists pages,
    List.length pages = 3%nat
    /\ (forall i w,
          nth_error pages i = Some w ->
          window [1; 2; 3; 4; 5; 6; 7]%nat
            (Js.offset (Some (Z.of_nat (S i))) (Some 3)) (Some 3) = Some w)
    /\ List.concat pages = [1; 2; 3; 4; 5; 6; 7]%nat.
Proof.
  apply (pages_cover_the_documents [1; 2; 3; 4; 5; 6; 7]%nat 3 3).
  - lia.
  - unfold isCeil. cbn. lia.
Defined.

(** ** Deletions *)

Lemma with_movies_same (db : Db) : with_movies (movies db) db = db.
Proof. now destruct db. Qed.

(** X12: when the owner deletes one of their custom lists, the ids of the
    lists being unique, the answer is 200, that list is gone, every other
    list is kept and nothing else in the database changes. *)
Theorem delete_list_removes_that_list (caller : ObjectId) (listId : string)
    (lid : ObjectId) (db : Db) (c : CustomList) :
  NoDup (map c_id (customLists db)) ->
  Oid.cast listId = Some lid ->
  findById c_id lid (customLists db) = Some c ->
  c_user c = caller ->
  fst (delete_list caller listId db)
  = reply 200 (Message "Custom list deleted successfully")
  /\ (forall x,
        In x (customLists (snd (delete_list caller listId db)))
        <-> In x (customLists db) /\ c_id x <> lid)
  /\ S (List.length (customLists (snd (delete_list caller listId db))))
     = List.length (customLists db)
  /\ with_customLists (customLists db) (snd (delete_list caller listId db)) = db.
Proof.
  intros Hnd Hc Hf Hu. unfold delete_list. rewrite Hc, Hf, Hu, String.eqb_refl.
  cbn [negb fst snd with_customLists customLists].
  split; [reflexivity|]. split; [intros x; now apply deleteById_In|].
  split; [now apply (deleteById_found c_id lid _ c) | now destruct db].
Qed.

Lemma delete_list_removes_that_list_witness :
  fst (delete_list Sample.alice Sample.listA Sample.db)
  = reply 200 (Message "Custom list deleted successfully")
  /\ customLists (snd (delete_list Sample.alice Sample.listA Sample.db)) = [].
Proof.
  destruct (delete_list_removes_that_list Sample.alice Sample.listA Sample.listA
              Sample.db
              {| c_id := Sample.listA; c_user := Sample.alice; c_name := "Mine";
                 c_description := ""; c_movies := []; c_createdAt := 0 |}
              ltac:(repeat constructor; intros []) eq_refl eq_refl eq_refl)
    as (H1 & _ & H3 & _).
  split; [exact H1|].
  destruct (customLists (snd (delete_list Sample.alice Sample.listA Sample.db)));
    [reflexivity | discriminate H3].
Defined.

(** X13: [DELETE /api/moviesCRUD/:id] touches the movie collection only:
    reviews, wishlists, custom lists, news and filmographies keep their
    references to a deleted movie, and [GET /api/reviews/:movieId] answers
    for it as before.  An answer 200 is given to an admin only, for a stored
    movie, which is then one movie less. *)
Theorem delete_movie_leaves_references (role id : string) (db : Db) :
  with_movies (movies db) (snd (delete_movie role id db)) = db
  /\ (forall movieId,
        get_reviews movieId (snd (delete_movie role id db))
        = get_reviews movieId db)
  /\ (status (fst (delete_movie role id db)) = 200 ->
      role = "admin"
      /\ exists movieId m,
           Oid.cast id = Some movieId
           /\ findById m_id movieId (movies db) = Some m
           /\ fst (delete_movie role id db)
              = reply 200 (MovieBody "Movie deleted successfully" m)
           /\ S (List.length (movies (snd (delete_movie role id db))))
              = List.length (movies db)).
Proof.
  unfold delete_movie.
  destruct (negb (String.eqb role "admin")) eqn:Er.
  { split; [apply with_movies_same|]. split; [reflexivity | discriminate]. }
  apply negb_false_iff, String.eqb_eq in Er.
  destruct (Oid.cast id) as [movieId|] eqn:Ec.
  2: { split; [apply with_movies_same|]. split; [reflexivity | discriminate]. }
  destruct (findById m_id movieId (movies db)) as [m|] eqn:Ef.
  2: { split; [apply with_movies_same|]. split; [reflexivity | discriminate]. }
  cbn [fst snd]. split; [now destruct db|]. split; [reflexivity|].
  intros _. split; [exact Er|]. exists movieId, m.
  repeat split; auto. cbn [with_movies movies].
  now apply (deleteById_found m_id movieId _ m).
Qed.

Lemma delete_movie_leaves_references_witness :
  exists movieId m,
    Oid.cast Sample.movieB = Some movieId
    /\ findById m_id movieId (movies Sample.db) = Some m
    /\ fst (delete_movie "admin" Sample.movieB Sample.db)
       = reply 200 (MovieBody "Movie deleted successfully" m)
    /\ S (List.length (movies (snd (delete_movie "admin" Sample.movieB
                                      Sample.db))))
       = List.length (movies Sample.db).
Proof.
  exact (proj2 (proj2 (proj2 (delete_movie_leaves_references "admin"
                                Sample.movieB Sample.db)) eq_refl)).
Defined.

(** ** News *)

Lemma notStored_nil {A : Type} (id_of : A -> ObjectId) (docs : list A)
    (ids : list string) (id : string) :
  notStored id_of docs ids = [] -> In id ids -> In id (map id_of docs).
Proof.
  intros Hnil Hin. unfold notStored in Hnil.
  destruct (in_dec string_dec id (map id_of docs)) as [H | H] eqn:E; [exact H|].
  assert (Hf : In id (filter (fun id => if in_dec string_dec id (map id_of docs)
                                        then false else true) ids)).
  { apply filter_In. split; [exact Hin|]. now rewrite E. }
  rewrite Hnil in Hf. destruct Hf.
Qed.

Lemma nothing_missing {A : Type} (id_of : A -> ObjectId) (docs : list A)
    (ids : list string) (i : ObjectId) :
  canonicalIds id_of docs ->
  (0 <? List.length
          (missingFrom (map id_of (findIn id_of (castValid ids) docs)) ids))%nat
  = false ->
  In i (castValid ids) -> exists d, In d docs /\ id_of d = i.
Proof.
  intros Hcan Hl Hin.
  rewrite (missingFrom_notStored id_of docs ids Hcan) in Hl.
  destruct (notStored id_of docs ids) eqn:En; [|discriminate Hl].
  unfold castValid in Hin. apply in_map_iff in Hin as (s & <- & Hs).
  pose proof (notStored_nil id_of docs ids s En Hs) as Hst.
  apply in_map_iff in Hst as (d & Hd & Hdin).
  exists d. split; [exact Hdin|].
  unfold canonicalIds in Hcan. rewrite Forall_forall in Hcan.
  now rewrite <- Hd, (Hcan d Hdin).
Qed.

(** X14: a news article is created only with references that exist: when
    [POST /api/news/add-news] is answered 201, the caller is an admin, the
    article is appended to the collection, each of its related movies is the
    id of a stored movie and each of its related actors the id of a stored
    person (the stored ids being in canonical form). *)
Theorem created_news_has_stored_references (role : string) (rq : NewsRequest)
    (_id : ObjectId) (now : Date) (db : Db) :
  canonicalIds m_id (movies db) -> canonicalIds p_id (persons db) ->
  status (fst (post_add_news role rq _id now db)) = 201 ->
  role = "admin"
  /\ exists article,
       news (snd (post_add_news role rq _id now db))
       = (news db ++ [article])%list
       /\ n_id article = _id
       /\ (forall id, In id (n_relatedMovies article) ->
                      exists m, In m (movies db) /\ m_id m = id)
       /\ (forall id, In id (n_relatedActors article) ->
                      exists p, In p (persons db) /\ p_id p = id).
Proof.
  intros Hcm Hcp. unfold post_add_news.
  destruct (negb (String.eqb role "admin")) eqn:Er; [discriminate|].
  apply negb_false_iff, String.eqb_eq in Er.
  destruct (negb (truthyStr (nq_title rq))); [discriminate|].
  destruct (negb (truthyStr (nq_description rq))); [discriminate|].
  destruct (negb (truthyStr (nq_content rq))); [discriminate|].
  destruct (_ || _); [discriminate|].
  destruct (negb (forallb Oid.isValid (orEmpty (nq_relatedMovies rq))));
    [discriminate|].
  cbv zeta.
  destruct (0 <? List.length (invalidMovieIdsOf _ db))%nat eqn:Lm; [discriminate|].
  destruct (negb (forallb Oid.isValid (orEmpty (nq_relatedActors rq))));
    [discriminate|].
  destruct (0 <? List.length (checkObjectIdsExist _ db))%nat eqn:La; [discriminate|].
  destruct (nq_title rq) as [title|]; [|discriminate].
  destruct (nq_description rq) as [description|]; [|discriminate].
  destruct (nq_content rq) as [content|]; [|discriminate].
  destruct (nq_category rq) as [category|]; [|discriminate].
  destruct (findById n_id _id (news db)); [discriminate|].
  intros _. split; [exact Er|]. eexists. split; [reflexivity|].
  split; [reflexivity|]. cbn [n_relatedMovies n_relatedActors]. split.
  - intros id Hin. exact (nothing_missing m_id _ _ id Hcm Lm Hin).
  - intros id Hin. exact (nothing_missing p_id _ _ id Hcp La Hin).
Qed.

Lemma created_news_has_stored_references_witness :
  exists article,
    news (snd (post_add_news "admin" SampleRequests.soundNews Sample.fresh 1000
                 Sample.db))
    = (news Sample.db ++ [article])%list
    /\ n_id article = Sample.fresh
    /\ (forall id, In id (n_relatedMovies article) ->
                   exists m, In m (movies Sample.db) /\ m_id m = id)
    /\ (forall id, In id (n_relatedActors article) ->
                   exists p, In p (persons Sample.db) /\ p_id p = id).
Proof.
  apply (created_news_has_stored_references "admin" SampleRequests.soundNews
           Sample.fresh 1000 Sample.db).
  - repeat constructor.
  - repeat constructor.
  - reflexivity.
Defined.

(** X15: [PUT /api/news/update-news/:id] looks the related movies of the
    body up among the persons: when it is answered 200 for a body with
    related movies, the stored article has those ids as its related movies,
    and each of them is the id of a stored person. *)
Theorem news_update_takes_movies_for_persons (role id : string)
    (rq : NewsRequest) (db : Db) (resp : Response) (ids : list string) :
  canonicalIds p_id (persons db) ->
  fst (put_update_news role id rq db) = Some resp -> status resp = 200 ->
  nq_relatedMovies rq = Some ids ->
  exists newsId article,
    Oid.cast id = Some newsId
    /\ findById n_id newsId (news (snd (put_update_news role id rq db)))
       = Some article
    /\ n_relatedMovies article = map Oid.lower ids
    /\ (forall i, In i (n_relatedMovies article) ->
                  exists p, In p (persons db) /\ p_id p = i).
Proof.
  intros Hcp Hr Hs Hm. revert Hr. unfold put_update_news.
  destruct (negb (String.eqb role "admin"));
    [intros H; injection H as <-; discriminate Hs|].
  destruct (Oid.cast id) as [newsId|] eqn:Ec; [|discriminate].
  destruct (findById n_id newsId (news db)) as [newsArticle|] eqn:Ef;
    [|intros H; injection H as <-; discriminate Hs].
  destruct (truthyStr (nq_category rq) && _);
    [intros H; injection H as <-; discriminate Hs|].
  destruct (negb (forallb Oid.isValid (orEmpty (nq_relatedMovies rq))));
    [intros H; injection H as <-; discriminate Hs|].
  cbv zeta.
  destruct (0 <? List.length
                   (checkObjectIdsExist (orEmpty (nq_relatedMovies rq)) db))%nat
    eqn:Lm; [intros H; injection H as <-; discriminate Hs|].
  destruct (negb (forallb Oid.isValid (orEmpty (nq_relatedActors rq))));
    [intros H; injection H as <-; discriminate Hs|].
  destruct (_ && _); [intros H; injection H as <-; discriminate Hs|].
  destruct (0 <? List.length
                   (checkObjectIdsExist (orEmpty (nq_relatedActors rq)) db))%nat;
    [intros H; injection H as <-; discriminate Hs|].
  intros _. cbn [snd with_news news].
  apply findById_id in Ef as Hid. destruct Hid as [Hid _].
  exists newsId. eexists. split; [reflexivity|]. split.
  - unfold store. cbn [n_id]. rewrite Hid.
    eapply findById_replaced; [|exact Ef]. reflexivity.
  - cbn [n_relatedMovies]. rewrite Hm. split; [reflexivity|].
    intros i Hin. rewrite Hm in Lm. cbn [orEmpty] in Lm.
    exact (nothing_missing p_id _ _ i Hcp Lm Hin).
Qed.

Lemma news_update_takes_movies_for_persons_witness :
  exists newsId article,
    Oid.cast Sample.newsA = Some newsId
    /\ findById n_id newsId
         (news (snd (put_update_news "admin" Sample.newsA
                       SampleRequests.personAsMovie Sample.db)))
       = Some article
    /\ n_relatedMovies article = map Oid.lower [Sample.pacino]
    /\ (forall i, In i (n_relatedMovies article) ->
                  exists p, In p (persons Sample.db) /\ p_id p = i).
Proof.
  apply (news_update_takes_movies_for_persons "admin" Sample.newsA
           SampleRequests.personAsMovie Sample.db
           (reply 200
              (NewsBody "News article updated successfully"
                 {| n_id := Sample.newsA; n_title := "T"; n_description := "D";
                    n_content := "C"; n_category := "Movies";
                    n_publishedDate := 0;
                    n_relatedMovies := [Sample.pacino];
                    n_relatedActors := [] |}))).
  - repeat constructor.
  - reflexivity.
  - reflexivity.
  - reflexivity.
Defined.

(** ** Notification settings *)

Lemma In_updateById {A : Type} (id_of : A -> ObjectId) (id : ObjectId)
    (f : A -> A) (docs : list A) (d x : A) :
  NoDup docs -> findById id_of id docs = Some d ->
  In x (updateById id_of id f docs) -> x = f d \/ (In x docs /\ x <> d).
Proof.
  induction docs as [|y r IH]; cbn; [discriminate|].
  intros Hnd Hf Hin. inversion Hnd as [|? ? Hnot Hnd']; subst.
  destruct (String.eqb (id_of y) id) eqn:E.
  - injection Hf as ->. destruct Hin as [<- | Hin]; [now left|].
    right. split; [now right|]. intros ->. contradiction.
  - destruct Hin as [<- | Hin].
    + right. split; [now left|]. intros ->.
      apply findById_id in Hf as [_ Hd]. contradiction.
    + destruct (IH Hnd' Hf Hin) as [-> | [Hx Hne]]; [now left|].
      right. split; [now right | exact Hne].
Qed.

Lemma NoDup_of_map {A B : Type} (f : A -> B) (l : list A) :
  NoDup (map f l) -> NoDup l.
Proof.
  induction l as [|x r IH]; cbn; intros H; [constructor|].
  inversion H as [|? ? Hnot Hnd]; subst. constructor; [|now apply IH].
  intros Hin. apply Hnot. now apply in_map.
Qed.

(** X16: switching the notifications off keeps the job from writing to the
    caller: after [PATCH /api/notifications/settings] with
    [notifications: false], answered with the settings as they are stored,
    no e-mail of the job goes to the address of the caller (the addresses of
    the users being unique). *)
Theorem notifications_off_means_no_mail (caller : ObjectId)
    (remainder : option bool) (db : Db) (user : User) (now nextMonth : Date) :
  NoDup (map u_email (users db)) ->
  findById u_id caller (users db) = Some user ->
  fst (patch_settings caller remainder (Some false) db)
  = SettingsUpdated
      (match remainder with
       | Some b => b
       | None => u_remindersForNewReleases user
       end) false
  /\ (forall e,
        In e (checkUpcomingMovies now nextMonth
                (snd (patch_settings caller remainder (Some false) db))) ->
        e_to e <> u_email user).
Proof.
  intros Hnd Hf.
  assert (Hdb : snd (patch_settings caller remainder (Some false) db)
                = with_users
                    (updateById u_id caller
                       (fun u =>
                          set_flags
                            match remainder with
                            | Some b => b
                            | None => u_remindersForNewReleases u
                            end false u) (users db)) db).
  { unfold patch_settings. destruct remainder; now rewrite Hf. }
  split; [unfold patch_settings; destruct remainder; now rewrite Hf|].
  intros e He. rewrite Hdb in He. clear Hdb.
  apply in_checkUpcomingMovies in He as (u' & Hin & Hs & _ & _ & ->).
  cbn [e_to]. cbn [with_users users] in Hin.
  destruct (In_updateById u_id caller _ (users db) user u'
              (NoDup_of_map u_email _ Hnd) Hf Hin) as [-> | [Hin' Hne]].
  - discriminate Hs.
  - intros Heq. apply Hne.
    apply findById_id in Hf as [_ Huin].
    exact (NoDup_map_eq u_email (users db) u' user Hnd Hin' Huin Heq).
Qed.

Lemma notifications_off_means_no_mail_witness :
  fst (patch_settings Sample.bob None (Some false) Sample.db)
  = SettingsUpdated true false
  /\ (forall e,
        In e (checkUpcomingMovies 100 3000
                (snd (patch_settings Sample.bob None (Some false) Sample.db))) ->
        e_to e <> "bob@x.com").
Proof.
  apply (notifications_off_means_no_mail Sample.bob None Sample.db Sample.bobDoc
           100 3000).
  - repeat constructor; cbn; intuition discriminate.
  - reflexivity.
Defined.

(** ** Administration *)

(** X17: the writes on movies and news are for admins: for every other role
    creating, updating and deleting a movie and creating and updating a news
    article are answered 403 and change nothing, whatever the request. *)
Theorem only_admins_write (getFullYear : Date -> Z) (role : string)
    (movieRq : MovieRequest) (movieUp : MovieUpdate) (newsRq : NewsRequest)
    (target : string) (_id : ObjectId) (now : Date) (db : Db) :
  role <> "admin" ->
  post_add_movie getFullYear role movieRq _id now db
  = (reply 403 (Message "Access denied. You are not an admin."), db)
  /\ put_movie getFullYear role target movieUp db
     = (reply 403 (Message "Access denied. You are not an admin."), db)
  /\ delete_movie role target db
     = (reply 403 (Message "Access denied. You are not an admin."), db)
  /\ post_add_news role newsRq _id now db
     = (reply 403 (Message "Access denied. You are not an admin."), db)
  /\ put_update_news role target newsRq db
     = (Some (reply 403 (Message "Access denied. You are not an admin.")), db).
Proof.
  intros Hr. apply String.eqb_neq in Hr.
  unfold post_add_movie, put_movie, delete_movie, post_add_news, put_update_news.
  rewrite Hr. cbn [negb]. repeat split.
Qed.

Lemma only_admins_write_witness :
  delete_movie "user" Sample.movieA Sample.db
  = (reply 403 (Message "Access denied. You are not an admin."), Sample.db)
  /\ post_add_news "user" SampleRequests.addNews Sample.fresh 1000 Sample.db
     = (reply 403 (Message "Access denied. You are not an admin."), Sample.db).
Proof.
  destruct (only_admins_write (fun _ => 1998) "user" SampleRequests.addMovie
              SampleRequests.updateMovie SampleRequests.addNews Sample.movieA
              Sample.fresh 1000 Sample.db ltac:(discriminate))
    as (_ & _ & H3 & H4 & _).
  split; [exact H3 | exact H4].
Defined.

(** ** Recommendations *)

Lemma window_incl {A : Type} (docs w : list A) (s l : Js.num) :
  window docs s l = Some w -> incl w docs.
Proof.
  unfold window. destruct s as [s|]; [|discriminate].
  destruct l as [l|]; [|discriminate].
  destruct (s <? 0); [discriminate|].
  intros H. injection H as <-. intros x Hx.
  assert (Hs : In x (skipn (Z.to_nat s) docs)).
  { destruct (l =? 0); [exact Hx|].
    rewrite <- (firstn_skipn (Z.to_nat (Z.abs l)) (skipn (Z.to_nat s) docs)).
    apply in_or_app. now left. }
  rewrite <- (firstn_skipn (Z.to_nat s) docs). apply in_or_app. now right.
Qed.

Lemma anyIn_shares (path values : list string) :
  anyIn path values = true <-> shares path values.
Proof.
  unfold anyIn, shares. rewrite existsb_exists. split.
  - intros (x & Hx & Hi). exists x. split; [exact Hx | now apply includes_In].
  - intros (x & Hx & Hi). exists x. split; [exact Hx | now apply includes_In].
Qed.

Lemma anyIn_nil (path : list string) : anyIn path [] = false.
Proof. unfold anyIn. induction path as [|g gs IH]; [reflexivity | exact IH]. Qed.

Lemma no_genre_no_movie (ms : list Movie) :
  filter (fun m => anyIn (m_genre m) []) ms = [].
Proof.
  induction ms as [|m r IH]; [reflexivity|].
  cbn [filter]. now rewrite anyIn_nil.
Qed.

(** X18: what the recommendations hold.  Every movie
    [GET /api/recommendations/similar-movies/:id] answers is a stored movie
    other than the movie asked for, and has a genre, a director or an actor
    in common with it.  Every personalized movie of
    [GET /api/recommendations/personalized] is a stored movie with one of
    the favourite genres of the caller; a caller without favourite genres
    gets an empty personalized block of one page. *)
Theorem recommendations_match_their_criterion (id : string)
    (caller : ObjectId) (page limit : QueryParam) (db : Db) :
  (forall movieId movie b,
      Oid.cast id = Some movieId ->
      findById m_id movieId (movies db) = Some movie ->
      get_similar id page limit db = reply 200 (MoviePage b) ->
      forall m, In m (b_items b) ->
                In m (movies db) /\ m_id m <> movieId
                /\ (shares (m_genre m) (m_genre movie)
                    \/ shares (m_directors m) (m_directors movie)
                    \/ shares (m_actors m) (m_actors movie)))
  /\ (forall user b t,
        findById u_id caller (users db) = Some user ->
        get_personalized caller page limit db = Recommendations b t ->
        (forall m, In m (b_items b) ->
                   In m (movies db)
                   /\ shares (m_genre m) (u_favoriteGenres user))
        /\ (u_favoriteGenres user = [] ->
            b_items b = [] /\ b_totalItems b = 0 /\ b_totalPages b = Some 1)).
Proof.
  split.
  - intros movieId movie b Hc Hf. unfold get_similar. rewrite Hc, Hf.
    unfold listing. destruct (coerce RecSimilar page limit) as [p l].
    destruct (window _ _ _) as [w|] eqn:Ew; [|discriminate].
    intros H. injection H as <-. cbn [b_items]. intros m Hm.
    apply (window_incl _ _ _ _ Ew) in Hm. apply filter_In in Hm as [Hin Hsim].
    split; [exact Hin|]. unfold similarTo in Hsim.
    apply andb_true_iff in Hsim as [Hne Hsh].
    apply findById_id in Hf as [Hid _]. rewrite Hid in Hne.
    split; [now apply negb_true_iff, String.eqb_neq in Hne|].
    rewrite !orb_true_iff, !anyIn_shares in Hsh. tauto.
  - intros user b t Hf. unfold get_personalized. rewrite Hf.
    destruct (coerceClamped page limit) as [p l].
    destruct (window (filter _ (movies db)) _ _) as [w|] eqn:Ew; [|discriminate].
    destruct (window (sortBy _ _) _ _) as [w'|]; [|discriminate].
    intros H. injection H as <- <-. cbn [b_items b_totalItems b_totalPages].
    split.
    + intros m Hm. apply (window_incl _ _ _ _ Ew) in Hm.
      apply filter_In in Hm as [Hin Hg]. split; [exact Hin|].
      now apply anyIn_shares.
    + intros Hnone.
      rewrite Hnone, (no_genre_no_movie (movies db)) in *.
      split; [|split; reflexivity].
      destruct w as [|x w]; [reflexivity|].
      exfalso. apply (window_incl _ _ _ _ Ew x). now left.
Qed.

Lemma recommendations_match_their_criterion_witness :
  exists b t,
    get_personalized Sample.bob (Some "1") (Some "5") Sample.db
    = Recommendations b t
    /\ b_items b <> []
    /\ forall m, In m (b_items b) ->
                 In m (movies Sample.db) /\ shares (m_genre m) ["Crime"].
Proof.
  eexists. eexists. split; [reflexivity|]. split; [discriminate|].
  exact (proj1 (proj2 (recommendations_match_their_criterion Sample.movieA
                         Sample.bob (Some "1") (Some "5") Sample.db)
                  Sample.bobDoc _ _ eq_refl eq_refl)).
Defined.

(** ** Filmographies *)

Lemma findById_updateById_other {A : Type} (id_of : A -> ObjectId)
    (id id' : ObjectId) (f : A -> A) (docs : list A) :
  (forall x, id_of (f x) = id_of x) -> id' <> id ->
  findById id_of id' (updateById id_of id f docs) = findById id_of id' docs.
Proof.
  intros Hf Hne. unfold findById.
  induction docs as [|x r IH]; cbn; [reflexivity|].
  destruct (String.eqb (id_of x) id) eqn:E; cbn.
  - rewrite Hf. apply String.eqb_eq in E. rewrite E.
    apply not_eq_sym, String.eqb_neq in Hne. now rewrite Hne.
  - now rewrite IH.
Qed.

Lemma filmography_after_push (movie : ObjectId) (role : string) (year : Z)
    (ids : list ObjectId) (ps : list Person) (i : ObjectId) :
  option_map p_filmography
    (findById p_id i (pushFilmography movie role year ids ps))
  = option_map
      (fun p => (p_filmography p
                 ++ repeat (filmEntry movie role year) (occurrences i ids))%list)
      (findById p_id i ps).
Proof.
  unfold pushFilmography, occurrences. revert ps.
  induction ids as [|id r IH]; intros ps; cbn [fold_left].
  - cbn. destruct (findById p_id i ps); cbn; [now rewrite app_nil_r | reflexivity].
  - rewrite IH. destruct (string_dec id i) as [-> | Hne].
    + rewrite count_occ_cons_eq by reflexivity.
      rewrite findById_updateById by reflexivity.
      destruct (findById p_id i ps); cbn; [|reflexivity].
      now rewrite <- app_assoc.
    + rewrite count_occ_cons_neq by exact Hne.
      rewrite findById_updateById_other; [reflexivity | reflexivity | congruence].
Qed.

(** X19: a movie that is created enters the filmographies: when
    [POST /api/moviesCRUD/add] is answered 201, the movie is appended to the
    collection with the directors and actors of the request, and the
    filmography of every stored person is the one of before followed by one
    entry (the new movie, [Director], the year of the release date) for each
    time the person is named as a director and then by one entry (the new
    movie, [Actor], that year) for each time the person is named as an
    actor. *)
Theorem created_movie_enters_filmographies (getFullYear : Date -> Z)
    (role : string) (rq : MovieRequest) (_id : ObjectId) (now : Date) (db : Db) :
  status (fst (post_add_movie getFullYear role rq _id now db)) = 201 ->
  exists releaseDate directorIds actorIds m,
    mq_releaseDate rq = Some releaseDate
    /\ Oid.castAll (orEmpty (mq_directors rq)) = Some directorIds
    /\ Oid.castAll (orEmpty (mq_actors rq)) = Some actorIds
    /\ movies (snd (post_add_movie getFullYear role rq _id now db))
       = (movies db ++ [m])%list
    /\ m_id m = _id /\ m_directors m = directorIds /\ m_actors m = actorIds
    /\ forall i,
         option_map p_filmography
           (findById p_id i
              (persons (snd (post_add_movie getFullYear role rq _id now db))))
         = option_map
             (fun p =>
                (p_filmography p
                 ++ repeat (filmEntry _id "Director" (getFullYear releaseDate))
                      (occurrences i directorIds)
                 ++ repeat (filmEntry _id "Actor" (getFullYear releaseDate))
                      (occurrences i actorIds))%list)
             (findById p_id i (persons db)).
Proof.
  unfold post_add_movie.
  destruct (negb (String.eqb role "admin")); [discriminate|].
  destruct (_ || _); [discriminate|].
  destruct (mq_title rq) as [title|]; [|discriminate].
  destruct (mq_releaseDate rq) as [releaseDate|]; [|discriminate].
  cbv zeta.
  destruct (Oid.castAll (orEmpty (mq_directors rq))) as [directorIds|];
    [|discriminate].
  destruct (negb (_ =? _)%nat); [discriminate|].
  destruct (Oid.castAll (orEmpty (mq_actors rq))) as [actorIds|];
    [|discriminate].
  destruct (negb (List.length (findIn p_id actorIds (persons db)) =? _)%nat);
    [discriminate|].
  destruct (validateMovie _); [discriminate|].
  destruct (_ || _); [discriminate|].
  intros _. exists releaseDate, directorIds, actorIds. eexists.
  split; [reflexivity|]. split; [reflexivity|]. split; [reflexivity|].
  cbn [snd with_persons with_movies movies persons].
  split; [reflexivity|]. split; [reflexivity|]. split; [reflexivity|].
  split; [reflexivity|]. intros i.
  rewrite filmography_after_push.
  pose proof (filmography_after_push _id "Director" (getFullYear releaseDate)
                directorIds (persons db) i) as Hd.
  destruct (findById p_id i (pushFilmography _ "Director" _ _ (persons db)))
    as [p1|];
    destruct (findById p_id i (persons db)) as [p0|]; cbn in Hd |- *;
    try discriminate Hd; [|reflexivity].
  injection Hd as ->. now rewrite <- app_assoc.
Qed.

Lemma created_movie_enters_filmographies_witness :
  exists releaseDate directorIds actorIds m,
    mq_releaseDate SampleRequests.newMovie = Some releaseDate
    /\ Oid.castAll (orEmpty (mq_directors SampleRequests.newMovie))
       = Some directorIds
    /\ Oid.castAll (orEmpty (mq_actors SampleRequests.newMovie))
       = Some actorIds
    /\ movies
         (snd (post_add_movie (fun _ => 1998) "admin" SampleRequests.newMovie
                 Sample.fresh 1000 Sample.db))
       = (movies Sample.db ++ [m])%list
    /\ m_id m = Sample.fresh /\ m_directors m = directorIds
    /\ m_actors m = actorIds
    /\ forall i,
         option_map p_filmography
           (findById p_id i
              (persons
                 (snd (post_add_movie (fun _ => 1998) "admin"
                         SampleRequests.newMovie Sample.fresh 1000 Sample.db))))
         = option_map
             (fun p =>
                (p_filmography p
                 ++ repeat (filmEntry Sample.fresh "Director" 1998)
                      (occurrences i directorIds)
                 ++ repeat (filmEntry Sample.fresh "Actor" 1998)
                      (occurrences i actorIds))%list)
             (findById p_id i (persons Sample.db)).
Proof.
  apply (created_movie_enters_filmographies (fun _ => 1998) "admin"
           SampleRequests.newMovie Sample.fresh 1000 Sample.db).
  reflexivity.
Defined.
